(** * MuPIF [Field]: evaluation, merge and HDF5 persistence

    A shallow embedding of [mupif/Field.py].  Every definition that
    carries the name of a method of [Field] is translated from that
    method, statement by statement.

    Conventions of the embedding.
    - Python floats are represented by exact rationals ([Q]); rounding is
      outside the model.  Python ints are [Z].  The components of a value
      are taken to be floats.  Where the arithmetic of the components
      decides the answer, in the cell branch of [_evaluate], the branch
      is given a second time over any component type ([CellBranch]).
    - A Python call either returns or raises: [result].
    - Objects that the code shares or rebinds (meshes, value arrays,
      fields, HDF5 files) live in an explicit store ([state]) and are
      named by locations.
    - Calls to [print] and to the logger [mupif.log] only write to the
      diagnostic sink and are left out; the module flag [debug] is [0], so
      the branches guarded by it are dead.
    - The modules [Mesh], [Cell], [BBox], [ValueType] and [FieldID] are
      external to [Field.py].  What [Field] consumes of them is collected
      in the interface [MeshAdapter] and in the table [ValueTypeModule].
    - A value array is a Python list of tuples, the format that the
      docstring of [__init__] asks for. *)

From Stdlib Require Import ZArith QArith List String Lia.
From stdpp Require Import base option list gmap strings pretty sorting.

Local Open Scope Z_scope.

(** ** Python values, exceptions and results *)

(** The exceptions that [Field.py] raises or that reach it from the
    indexing of a list, from the lookup of a name and from the geometry
    of a cell.  [ReferenceError] is what the model answers when a location
    is not allocated; Python references cannot dangle. *)
Inductive exn : Type :=
  | ValueError (msg : string)
  | TypeError (msg : string)
  | IndexError
  | ZeroDivisionError
  | NameError (name : string)
  | AttributeError (name : string)
  | KeyError (name : string)
  | RuntimeError (msg : string)
  | IOError (msg : string)
  | ReferenceError.

Inductive result (A : Type) : Type :=
  | Return (a : A)
  | Raise (e : exn).
Arguments Return {A} a.
Arguments Raise {A} e.

Definition rbind {A B} (r : result A) (k : A -> result B) : result B :=
  match r with
  | Return a => k a
  | Raise e => Raise e
  end.

Declare Scope result_scope.
Delimit Scope result_scope with result.
Notation "x <- r ;; k" := (rbind r (fun x => k))
  (at level 100, r at next level, right associativity) : result_scope.

(** [try: r except e0: h] for a handler that catches exactly [e0]. *)
Definition try_except {A} (r : result A) (catches : exn -> bool)
    (handler : exn -> result A) : result A :=
  match r with
  | Return a => Return a
  | Raise e => if catches e then handler e else Raise e
  end.

Definition is_IndexError (e : exn) : bool :=
  match e with IndexError => true | _ => false end.
Definition is_ZeroDivisionError (e : exn) : bool :=
  match e with ZeroDivisionError => true | _ => false end.

(** One entry of a value array: the tuple of components of one vertex or
    cell, or a bare int (the [0] that [merge] fills a fresh array with). *)
Inductive item : Type :=
  | Tuple (xs : list Q)
  | Int (z : Z).

(** [l[i]] on a Python list: a negative index counts from the end, an
    index outside [-len, len) raises [IndexError]. *)
Definition py_index {A} (l : list A) (i : Z) : option nat :=
  let n := Z.of_nat (length l) in
  if (0 <=? i) && (i <? n) then Some (Z.to_nat i)
  else if (- n <=? i) && (i <? 0) then Some (Z.to_nat (n + i))
  else None.

Definition getitem {A} (l : list A) (i : Z) : result A :=
  match py_index l i with
  | Some k => match l !! k with Some x => Return x | None => Raise IndexError end
  | None => Raise IndexError
  end.

(** [l[i] = x]. *)
Definition setitem {A} (l : list A) (i : Z) (x : A) : result (list A) :=
  match py_index l i with
  | Some k => Return (<[k := x]> l)
  | None => Raise IndexError
  end.

(** ** The enumerations *)

(** [class FieldType]. *)
Module FieldType.
Definition FT_vertexBased : Z := 1.
Definition FT_cellBased : Z := 2.
End FieldType.

(** The symbols of module [ValueType] that [Field] compares against.
    The module is missing from the sources, so its three constants are
    parameters. *)
Class ValueTypeModule : Type := {
  Scalar : Z;
  Vector : Z;
  Tensor : Z;
}.

(** ** Geometry consumed through the mesh *)

Definition position : Type := list Q.

Module BBox.
Record t : Type := BBox { coords_ll : list Q; coords_ur : list Q }.
End BBox.

Module Vertex.
Record t : Type := { number : Z; label : Z }.
End Vertex.

(** A cell as [Field._evaluate] sees it: its number and label, its
    vertices, and the three geometric queries, each of which may raise. *)
Module Cell.
Record t : Type := {
  number : Z;
  label : Z;
  getVertices : list Vertex.t;
  containsPoint : position -> result bool;
  interpolate : position -> list item -> result (list Q);
  glob2loc : position -> result unit;
}.
End Cell.

(** Modelled from the spec: the interface of the discretization
    ([Mesh.py] is missing from the sources), with the methods of [Mesh]
    that [Field] calls.  [getVertex m v] and [giveCell m c] are asked for
    numbers below the respective count only.  [giveItemsInBBox] is the
    query of the cell localizer.  [Mesh_merge self other] is the content
    of the receiver after [self.merge(other)]: the merge of a
    discretization builds the union in the receiver and only reads its
    argument.  [hexdigest] is the digest of the full data of a mesh. *)
Class MeshAdapter : Type := {
  Mesh : Type;
  getNumberOfVertices : Mesh -> nat;
  getNumberOfCells : Mesh -> nat;
  getVertex : Mesh -> nat -> Vertex.t;
  giveCell : Mesh -> nat -> Cell.t;
  vertexLabel2Number : Mesh -> Z -> Z;
  cellLabel2Number : Mesh -> Z -> Z;
  giveItemsInBBox : Mesh -> BBox.t -> list Cell.t;
  Mesh_merge : Mesh -> Mesh -> Mesh;
  hexdigest : Mesh -> string;
}.

(** ** The store *)

Abbreviation loc := positive.

(** An instance of [Field].  The attributes [mesh] and [values] refer to
    objects of the store; the other attributes are immediate values.
    [units] is an opaque descriptor ([None] is Python's [None]). *)
Record Field : Type := mkField {
  mesh : loc;
  fieldID : Z;
  valueType : Z;
  time : Q;
  units : option string;
  uri : option string;
  fieldType : Z;
  values : loc;
}.

(** What an HDF5 attribute holds. *)
Inductive h5attr : Type :=
  | AttrInt (z : Z)
  | AttrFloat (q : Q)
  | AttrBlob (u : option string).

(** A child of an HDF5 group: a stored mesh, or a field group with its
    hard link to a mesh group, its attributes and its datasets. *)
Inductive h5obj `{MeshAdapter} : Type :=
  | H5Mesh (m : Mesh)
  | H5Field (link : string) (attrs : gmap string h5attr)
      (datasets : gmap string (list (list Q))).

Section Store.
Context `{MA : MeshAdapter}.

(** An HDF5 file: the groups by path, each with its children by name. *)
Definition h5file : Type := gmap string (gmap string h5obj).

Record state : Type := mkState {
  meshes : gmap loc Mesh;
  arrays : gmap loc (list item);
  fields : gmap loc Field;
  files : gmap string h5file;
}.

(** Computations on the store that may raise. *)
Definition py (A : Type) : Type := state -> result A * state.

Definition ret {A} (a : A) : py A := fun st => (Return a, st).
Definition raise {A} (e : exn) : py A := fun st => (Raise e, st).
Definition bind {A B} (c : py A) (k : A -> py B) : py B :=
  fun st => match c st with
            | (Return a, st') => k a st'
            | (Raise e, st') => (Raise e, st')
            end.
Definition lift {A} (r : result A) : py A := fun st => (r, st).

Definition deref {A} (sel : state -> gmap loc A) (l : loc) : py A :=
  fun st => match sel st !! l with
            | Some a => (Return a, st)
            | None => (Raise ReferenceError, st)
            end.

Definition get_mesh : loc -> py Mesh := deref meshes.
Definition get_array : loc -> py (list item) := deref arrays.
Definition get_field : loc -> py Field := deref fields.

Definition new_mesh (m : Mesh) : py loc := fun st =>
  let l := fresh (dom (meshes st)) in
  (Return l, mkState (<[l := m]> (meshes st)) (arrays st) (fields st) (files st)).

Definition new_array (a : list item) : py loc := fun st =>
  let l := fresh (dom (arrays st)) in
  (Return l, mkState (meshes st) (<[l := a]> (arrays st)) (fields st) (files st)).

Definition new_field (f : Field) : py loc := fun st =>
  let l := fresh (dom (fields st)) in
  (Return l, mkState (meshes st) (arrays st) (<[l := f]> (fields st)) (files st)).

Definition put_mesh (l : loc) (m : Mesh) : py unit := fun st =>
  (Return tt, mkState (<[l := m]> (meshes st)) (arrays st) (fields st) (files st)).

Definition put_field (l : loc) (f : Field) : py unit := fun st =>
  (Return tt, mkState (meshes st) (arrays st) (<[l := f]> (fields st)) (files st)).

Definition put_file (name : string) (h : h5file) : py unit := fun st =>
  (Return tt, mkState (meshes st) (arrays st) (fields st) (<[name := h]> (files st))).
End Store.

Declare Scope py_scope.
Delimit Scope py_scope with py.
Notation "x <- c ;; k" := (bind c (fun x => k))
  (at level 100, c at next level, right associativity) : py_scope.
Notation "c ;;; k" := (bind c (fun _ => k))
  (at level 100, right associativity) : py_scope.

(** ** [Field.getRecordSize] *)

Section RecordSize.
Context `{VT : ValueTypeModule}.

Definition getRecordSize (self : Field) : result Z :=
  if valueType self =? Scalar then Return 1
  else if valueType self =? Vector then Return 3
  else if valueType self =? Tensor then Return 9
  else Raise (ValueError "Invalid value of Field.valueType").
End RecordSize.

(** ** [Field._evaluate] and [Field.evaluate] *)

Section Evaluate.
Context `{MA : MeshAdapter}.
Local Open Scope result_scope.

Fixpoint result_mapM {A B} (f : A -> result B) (l : list A) : result (list B) :=
  match l with
  | [] => Return []
  | a :: l' => b <- f a ;; bs <- result_mapM f l' ;; Return (b :: bs)
  end.

(** [[self.values[i.number] for i in icell.getVertices()]] *)
Definition vertexValues (vals : list item) (icell : Cell.t) : result (list item) :=
  result_mapM (fun i => getitem vals (Vertex.number i)) (Cell.getVertices icell).

(** The handler of [except ZeroDivisionError] (lines 218-222): after
    the two diagnostic calls it executes [cell.debug=1], and no name
    [cell] is bound in the function or in the module (the import is
    [Cell]); the lookup raises [NameError] and the last line of the
    handler is not reached. *)
Definition ZeroDivisionError_handler {A} (e : exn) : result A :=
  Raise (NameError "cell").

(** The [try] block of the vertex loop for one candidate: [Some answer]
    stands for [return answer], [None] for falling through to the next
    candidate. *)
Definition try_vertex_cell (vals : list item) (pos : position) (icell : Cell.t)
    : result (option (list Q)) :=
  try_except
    (b <- Cell.containsPoint icell pos ;;
     if (b : bool) then
       answer <- try_except
                   (vs <- vertexValues vals icell ;; Cell.interpolate icell pos vs)
                   is_IndexError (fun e => Raise e) ;;
       Return (Some answer)
     else Return None)
    is_ZeroDivisionError ZeroDivisionError_handler.

(** [for icell in cells: try: ... except ZeroDivisionError: ...] *)
Fixpoint scan_vertexBased (vals : list item) (pos : position) (cells : list Cell.t)
    : result (option (list Q)) :=
  match cells with
  | [] => Return None
  | icell :: rest =>
      r <- try_vertex_cell vals pos icell ;;
      match r with
      | Some answer => Return (Some answer)
      | None => scan_vertexBased vals pos rest
      end
  end.

(** The diagnostic loop after an unsuccessful scan (lines 225-226); its
    arguments are evaluated, so the geometry is queried again. *)
Fixpoint report_cells (pos : position) (cells : list Cell.t) : result unit :=
  match cells with
  | [] => Return tt
  | icell :: rest =>
      _ <- Cell.containsPoint icell pos ;;
      _ <- Cell.glob2loc icell pos ;;
      report_cells pos rest
  end.

(** [[x+y for x in answer for y in tmp]]; a bare int is not iterable,
    which shows as soon as the outer loop has an element. *)
Definition comprehension (answer : list Q) (tmp : item) : result (list Q) :=
  match tmp with
  | Tuple ys => Return (flat_map (fun x => map (fun y => (x + y)%Q) ys) answer)
  | Int _ =>
      match answer with
      | [] => Return []
      | _ :: _ => Raise (TypeError "'int' object is not iterable")
      end
  end.

(** [for i in answer: answer = [x+y for x in answer for y in tmp]]: the
    loop runs over the list that [answer] names when the loop starts,
    and every round rebinds [answer]. *)
Fixpoint rebind_loop {A} (iter : list A) (answer : list Q) (tmp : item)
    : result (list Q) :=
  match iter with
  | [] => Return answer
  | _ :: iter' => answer' <- comprehension answer tmp ;; rebind_loop iter' answer' tmp
  end.

(** Lines 238-244, inside the [try]. *)
Definition accumulate (vals : list item) (icell : Cell.t) (count : Z) (answer : list Q)
    : result (Z * list Q) :=
  tmp <- getitem vals (Cell.number icell) ;;
  answer' <- (if count =? 0 then
                match tmp with
                | Tuple xs => Return xs
                | Int _ => Raise (TypeError "'int' object is not iterable")
                end
              else rebind_loop answer answer tmp) ;;
  Return (count + 1, answer').

(** The cell loop (lines 232-250) from a given [count] and [answer]. *)
Fixpoint scan_cellBased (vals : list item) (pos : position) (cells : list Cell.t)
    (count : Z) (answer : list Q) : result (Z * list Q) :=
  match cells with
  | [] => Return (count, answer)
  | icell :: rest =>
      b <- Cell.containsPoint icell pos ;;
      if (b : bool) then
        ca <- try_except (accumulate vals icell count answer)
                is_IndexError (fun e => Raise e) ;;
        scan_cellBased vals pos rest (fst ca) (snd ca)
      else scan_cellBased vals pos rest count answer
  end.

(** The body of [_evaluate] once the mesh and the value array are read.
    [None] is Python's [None], returned when the function falls off its
    end. *)
Definition evaluate_body (m : Mesh) (ftype : Z) (vals : list item)
    (pos : position) (eps : Q) : result (option (list Q)) :=
  let cells := giveItemsInBBox m
                 (BBox.BBox (map (fun c => (c - eps)%Q) pos)
                            (map (fun c => (c + eps)%Q) pos)) in
  if negb (Nat.eqb (length cells) 0) then
    if ftype =? FieldType.FT_vertexBased then
      r <- scan_vertexBased vals pos cells ;;
      match r with
      | Some answer => Return (Some answer)
      | None => _ <- report_cells pos cells ;; Return None
      end
    else
      ca <- scan_cellBased vals pos cells 0 [] ;;
      let (count, answer) := (ca : Z * list Q) in
      if count =? 0 then Return None
      else Return (Some (map (fun x => (x / inject_Z count)%Q) answer))
  else
    Raise (ValueError "Field::evaluate - no source cell found for position").

Definition _evaluate (self : loc) (pos : position) (eps : Q)
    : py (option (list Q)) :=
  (f <- get_field self ;;
   m <- get_mesh (mesh f) ;;
   vals <- get_array (values f) ;;
   lift (evaluate_body m (fieldType f) vals pos eps))%py.

(** The argument of [evaluate]: one position, or a Python list of them. *)
Inductive positions : Type :=
  | OnePosition (p : position)
  | ListOfPositions (ps : list position).

Fixpoint evaluate_each (self : loc) (ps : list position) (eps : Q)
    : py (list (option (list Q))) :=
  match ps with
  | [] => ret []
  | p :: ps' =>
      (a <- _evaluate self p eps ;;
       ans <- evaluate_each self ps' eps ;;
       ret (a :: ans))%py
  end.

Inductive answers : Type :=
  | OneAnswer (a : option (list Q))
  | ListOfAnswers (ans : list (option (list Q))).

Definition evaluate (self : loc) (p : positions) (eps : Q) : py answers :=
  match p with
  | ListOfPositions ps => (ans <- evaluate_each self ps eps ;; ret (ListOfAnswers ans))%py
  | OnePosition pos => (a <- _evaluate self pos eps ;; ret (OneAnswer a))%py
  end.

End Evaluate.

(** ** The cell branch of [_evaluate] over the arithmetic of the components *)

(** The cell branch computes with two operations of Python: [x+y] on two
    components (line 243) and [x/count] on a component and the int
    [count] (line 257).  What they return depends on the type of the
    components.  On floats both round.  On ints the sum is exact and the
    [/] of Python 2, the dialect [Field.py] is written in, is the floor
    division.  The definitions of this module repeat lines 231-258 over
    a component type [num] that brings its two operations, taken to
    return and not to raise, as they do on numbers when [count] is not
    zero.  The branch at exact rationals inside [evaluate_body] is the
    instance [Qplus], [Qdiv_int]. *)
Module CellBranch.
(** One entry of a value array: a tuple of components, or the bare int
    [0] that [merge] fills a fresh array with. *)
Inductive entry (num : Type) : Type :=
  | Tuple (xs : list num)
  | Int (z : Z).
Arguments Tuple {num} xs.
Arguments Int {num} z.

Section Arithmetic.
Context {num : Type} (add : num -> num -> num) (div : num -> Z -> num).
Local Open Scope result_scope.

(** [[x+y for x in answer for y in tmp]] *)
Definition comprehension (answer : list num) (tmp : entry num) : result (list num) :=
  match tmp with
  | Tuple ys => Return (flat_map (fun x => map (fun y => add x y) ys) answer)
  | Int _ =>
      match answer with
      | [] => Return []
      | _ :: _ => Raise (TypeError "'int' object is not iterable")
      end
  end.

(** [for i in answer: answer = [x+y for x in answer for y in tmp]] *)
Fixpoint rebind_loop {A} (iter : list A) (answer : list num) (tmp : entry num)
    : result (list num) :=
  match iter with
  | [] => Return answer
  | _ :: iter' => answer' <- comprehension answer tmp ;; rebind_loop iter' answer' tmp
  end.

(** Lines 238-244, inside the [try]. *)
Definition accumulate (vals : list (entry num)) (icell : Cell.t) (count : Z)
    (answer : list num) : result (Z * list num) :=
  tmp <- getitem vals (Cell.number icell) ;;
  answer' <- (if count =? 0 then
                match tmp with
                | Tuple xs => Return xs
                | Int _ => Raise (TypeError "'int' object is not iterable")
                end
              else rebind_loop answer answer tmp) ;;
  Return (count + 1, answer').

(** The cell loop (lines 232-250) from a given [count] and [answer]. *)
Fixpoint scan_cellBased (vals : list (entry num)) (pos : position) (cells : list Cell.t)
    (count : Z) (answer : list num) : result (Z * list num) :=
  match cells with
  | [] => Return (count, answer)
  | icell :: rest =>
      b <- Cell.containsPoint icell pos ;;
      if (b : bool) then
        ca <- try_except (accumulate vals icell count answer)
                is_IndexError (fun e => Raise e) ;;
        scan_cellBased vals pos rest (fst ca) (snd ca)
      else scan_cellBased vals pos rest count answer
  end.

(** Lines 231-258 on the candidates [cells]; [None] is Python's [None],
    returned when the function falls off its end. *)
Definition cellBased (vals : list (entry num)) (pos : position) (cells : list Cell.t)
    : result (option (list num)) :=
  ca <- scan_cellBased vals pos cells 0 [] ;;
  let (count, answer) := (ca : Z * list num) in
  if count =? 0 then Return None
  else Return (Some (map (fun x => div x count) answer)).

(** What a candidate contributes to the answer of a field with one
    component per value: nothing when its containment test answers
    [False], the component [a] stored at its number when the test
    answers [True]. *)
Definition contributes (vals : list (entry num)) (pos : position) (icell : Cell.t)
    (w : option num) : Prop :=
  match w with
  | None => Cell.containsPoint icell pos = Return false
  | Some a => Cell.containsPoint icell pos = Return true
              /\ 0 <= Cell.number icell
              /\ vals !! Z.to_nat (Cell.number icell) = Some (Tuple [a])
  end.
End Arithmetic.
End CellBranch.

(** The value array of [evaluate_body] as an array over [Q], and the
    division [x/count] of [evaluate_body]. *)
Definition of_item (x : item) : CellBranch.entry Q :=
  match x with
  | Tuple xs => CellBranch.Tuple xs
  | Int z => CellBranch.Int z
  end.

Definition Qdiv_int (x : Q) (count : Z) : Q := (x / inject_Z count)%Q.

(** ** [Field.merge] *)

Section Merge.
Context `{MA : MeshAdapter}.

(** One of the four loops of [merge]:
    [for v in range(n): values[label2num(labelOf(v))] = src[v]]. *)
Fixpoint copy_values (label2num : Z -> Z) (labelOf : nat -> Z) (src : list item)
    (range : list nat) (values : list item) : result (list item) :=
  match range with
  | [] => Return values
  | v :: range' =>
      (x <- getitem src (Z.of_nat v) ;;
       values' <- setitem values (label2num (labelOf v)) x ;;
       copy_values label2num labelOf src range' values')%result
  end.

(** Lines 311-322: the union value array, the receiver written first
    and the argument second. *)
Definition merged_values (ftype : Z) (m sm fm : Mesh) (sv fv : list item)
    : result (list item) :=
  if ftype =? FieldType.FT_vertexBased then
    (let values := replicate (getNumberOfVertices m) (Int 0) in
     values <- copy_values (vertexLabel2Number m)
                 (fun v => Vertex.label (getVertex sm v)) sv
                 (seq 0 (getNumberOfVertices sm)) values ;;
     copy_values (vertexLabel2Number m)
       (fun v => Vertex.label (getVertex fm v)) fv
       (seq 0 (getNumberOfVertices fm)) values)%result
  else
    (let values := replicate (getNumberOfCells m) (Int 0) in
     values <- copy_values (cellLabel2Number m)
                 (fun v => Cell.label (giveCell sm v)) sv
                 (seq 0 (getNumberOfCells sm)) values ;;
     copy_values (cellLabel2Number m)
       (fun v => Cell.label (giveCell fm v)) fv
       (seq 0 (getNumberOfCells fm)) values)%result.

(** [self.merge(field)].  [copy.deepcopy] allocates a mesh object with
    the content of [self.mesh]; [mesh.merge] updates that object in
    place.  The list [values] is local until it is bound to
    [self.values], where the model allocates it. *)
Definition merge (self field : loc) : py unit :=
  (s <- get_field self ;;
   sm <- get_mesh (mesh s) ;;
   mesh' <- new_mesh sm ;;
   f <- get_field field ;;
   fm <- get_mesh (mesh f) ;;
   m0 <- get_mesh mesh' ;;
   put_mesh mesh' (Mesh_merge m0 fm) ;;;
   if negb (fieldType s =? fieldType f) then
     raise (TypeError "Field::merge: fieldType of receiver and parameter is different")
   else
     m <- get_mesh mesh' ;;
     sm <- get_mesh (mesh s) ;;
     sv <- get_array (values s) ;;
     fm <- get_mesh (mesh f) ;;
     fv <- get_array (values f) ;;
     values <- lift (merged_values (fieldType s) m sm fm sv fv) ;;
     values' <- new_array values ;;
     s <- get_field self ;;
     put_field self
       (mkField mesh' (fieldID s) (valueType s) (time s) (units s) (uri s)
          (fieldType s) values'))%py.

(** The store after the first two statements of [merge]: one more mesh
    object, the union built on a copy of the receiver's mesh. *)
Definition with_union (st : state) (sm fm : Mesh) : state :=
  mkState (<[fresh (dom (meshes st)) := Mesh_merge sm fm]> (meshes st))
    (arrays st) (fields st) (files st).

(** The store after a merge that went through. *)
Definition merged (st : state) (self : loc) (s : Field) (sm fm : Mesh)
    (vals : list item) : state :=
  mkState (<[fresh (dom (meshes st)) := Mesh_merge sm fm]> (meshes st))
    (<[fresh (dom (arrays st)) := vals]> (arrays st))
    (<[self := mkField (fresh (dom (meshes st))) (fieldID s) (valueType s) (time s)
                 (units s) (uri s) (fieldType s) (fresh (dom (arrays st)))]>
       (fields st))
    (files st).
End Merge.

(** ** [Field.__init__] *)

Section Init.
Context `{MA : MeshAdapter} `{VT : ValueTypeModule}.

(** [zeros((ncomponents, size))]: numpy's array of [ncomponents] rows of
    [size] zeros, read as the list of its rows. *)
Definition zeros (ncomponents : nat) (size : Z) : list item :=
  replicate ncomponents (Tuple (replicate (Z.to_nat size) 0%Q)).

(** [Field(mesh, fieldID, valueType, units, time, values, fieldType)]:
    a new field object, initialised by [__init__].  [values = None]
    stands for the default argument.  While [getRecordSize] runs the
    attribute [values] is not bound yet; the model puts the location of
    the mesh in its place, [getRecordSize] does not look at it. *)
Definition __init__ (mesh' : loc) (fieldID' valueType' : Z) (units' : option string)
    (time' : Q) (values' : option loc) (fieldType' : Z) : py loc :=
  (vals <- match values' with
           | None =>
               m <- get_mesh mesh' ;;
               let ncomponents :=
                 if fieldType' =? FieldType.FT_vertexBased then getNumberOfVertices m
                 else getNumberOfCells m in
               size <- lift (getRecordSize
                               (mkField mesh' fieldID' valueType' time' units' None
                                  fieldType' mesh')) ;;
               new_array (zeros ncomponents size)
           | Some v => ret v
           end ;;
   new_field (mkField mesh' fieldID' valueType' time' units' None fieldType' vals))%py.
End Init.

(** ** [Field.toHdf5] and [Field.makeFromHdf5] *)

Section Hdf5.
Context `{MA : MeshAdapter} `{VT : ValueTypeModule}.

(** ['%02d' % i] *)
Definition fmt02d (i : Z) : string :=
  if (0 <=? i) && (i <? 10) then "0" +:+ pretty i else pretty i.

(** The local function [lowestUnused] of [toHdf5]: the first [trsf i],
    counting [i] up from [start], that [predicate] rejects.  The model
    tries [fuel] candidates and answers with the next one; with [fuel]
    the number of names in use and [trsf] injective, that one is not in
    use when all the candidates before it are. *)
Fixpoint lowestUnused (fuel : nat) (trsf : Z -> string) (predicate : string -> bool)
    (start : Z) : string :=
  match fuel with
  | O => trsf start
  | S fuel' =>
      let t := trsf start in
      if negb (predicate t) then t
      else lowestUnused fuel' trsf predicate (start + 1)
  end.

(** [name in g] *)
Definition contains {A} (g : gmap string A) (name : string) : bool :=
  bool_decide (is_Some (g !! name)).

(** [g.items()]: h5py lists the members of a group by name. *)
Definition items (g : gmap string h5obj) : list (string * h5obj) :=
  merge_sort (fun a b => Is_true (String.leb (fst a) (fst b))) (map_to_list g).

(** Modelled from the spec: [Mesh.asHdf5Object] is missing from the
    sources.  According to the docstring of [toHdf5] and to the spec, a
    mesh is stored once per group: when a mesh group with the same
    digest is there already, that group is answered, otherwise the mesh
    is stored under [newgroup].  The answer is the name of the mesh
    group together with the members of the parent group. *)
Definition asHdf5Object (m : Mesh) (parentgroup : gmap string h5obj)
    (newgroup : string) : string * gmap string h5obj :=
  match List.find (fun p => match snd p with
                            | H5Mesh m' => String.eqb (hexdigest m') (hexdigest m)
                            | H5Field _ _ _ => false
                            end) (items parentgroup) with
  | Some p => (fst p, parentgroup)
  | None => (newgroup, <[newgroup := H5Mesh m]> parentgroup)
  end.

(** Modelled from the spec: [Mesh.makeFromHdf5Object] is missing from
    the sources; it builds a mesh object from a stored mesh. *)
Definition makeFromHdf5Object (obj : h5obj) : py loc :=
  match obj with
  | H5Mesh m => new_mesh m
  | H5Field _ _ _ => raise (KeyError "vertex_coords")
  end.

(** [h5py.File(fileName,'a')] opens the file or creates it. *)
Definition open_append (fileName : string) : py h5file := fun st =>
  (Return (default ∅ (files st !! fileName)), st).

(** [h5py.File(fileName,'r')] *)
Definition open_read (fileName : string) : py h5file := fun st =>
  match files st !! fileName with
  | Some hdf => (Return hdf, st)
  | None => (Raise (IOError "unable to open file"), st)
  end.

(** numpy's [val[i] = x] for a row of [size] floats: a tuple of that
    length is copied, a tuple of length one and a bare number are
    broadcast, anything else is refused. *)
Definition as_row (size : Z) (x : item) : result (list Q) :=
  match x with
  | Tuple xs =>
      if Z.of_nat (length xs) =? size then Return xs
      else match xs with
           | [x0] => Return (replicate (Z.to_nat size) x0)
           | _ => Raise (ValueError "could not broadcast input array")
           end
  | Int z => Return (replicate (Z.to_nat size) (inject_Z z))
  end.

(** [for i in range(n): val[i]=self.giveValue(i)] *)
Definition fill (vals : list item) (n : nat) (size : Z) : result (list (list Q)) :=
  result_mapM (fun i => (x <- getitem vals (Z.of_nat i) ;; as_row size x)%result)
    (seq 0 n).

(** [self.toHdf5(fileName, group)].  A path [group+'/field_NN'] is in
    the file exactly when [field_NN] is a member of the group. *)
Definition toHdf5 (self : loc) (fileName group : string) : py unit :=
  (s <- get_field self ;;
   hdf <- open_append fileName ;;
   let gg := default ∅ (hdf !! group) in
   put_file fileName (<[group := gg]> hdf) ;;;
   let newgrp := lowestUnused (size gg) (fun i => "mesh_" +:+ fmt02d i) (contains gg) 1 in
   m <- get_mesh (mesh s) ;;
   let mh5 := asHdf5Object m gg newgrp in
   put_file fileName (<[group := snd mh5]> hdf) ;;;
   vals <- get_array (values s) ;;
   if negb (Nat.eqb (length vals) 0) then
     let name := lowestUnused (size (snd mh5)) (fun i => "field_" +:+ fmt02d i)
                   (contains (snd mh5)) 1 in
     let attrs : gmap string h5attr :=
       <["time" := AttrInt (fieldID s)]>
         (<["units" := AttrBlob (units s)]>
            (<["valueType" := AttrInt (valueType s)]>
               (<["fieldID" := AttrInt (fieldID s)]> ∅))) in
     let store datasets :=
       put_file fileName
         (<[group := <[name := H5Field (fst mh5) attrs datasets]> (snd mh5)]> hdf) in
     store ∅ ;;;
     if fieldType s =? FieldType.FT_vertexBased then
       m <- get_mesh (mesh s) ;;
       size <- lift (getRecordSize s) ;;
       val <- lift (fill vals (getNumberOfVertices m) size) ;;
       store {[ "vertex_values" := val ]}
     else if fieldType s =? FieldType.FT_cellBased then
       m <- get_mesh (mesh s) ;;
       size <- lift (getRecordSize s) ;;
       val <- lift (fill vals (getNumberOfCells m) size) ;;
       store {[ "cell_values" := val ]}
     else raise (RuntimeError "Unknown fieldType")
   else ret tt)%py.

Fixpoint py_mapM {A B} (f : A -> py B) (l : list A) : py (list B) :=
  match l with
  | [] => ret []
  | a :: l' => (b <- f a ;; bs <- py_mapM f l' ;; ret (b :: bs))%py
  end.

(** [f.attrs[name]] *)
Definition attr (f : h5obj) (name : string) : result h5attr :=
  match f with
  | H5Field _ attrs _ =>
      match attrs !! name with
      | Some a => Return a
      | None => Raise (KeyError name)
      end
  | H5Mesh _ => Raise (KeyError name)
  end.

(** An attribute read as a Python int, as a number, and unpickled. *)
Definition as_int (a : h5attr) : result Z :=
  match a with
  | AttrInt z => Return z
  | _ => Raise (TypeError "not an int")
  end.

Definition as_number (a : h5attr) : result Q :=
  match a with
  | AttrInt z => Return (inject_Z z)
  | AttrFloat q => Return q
  | AttrBlob _ => Raise (TypeError "not a number")
  end.

Definition pickle_loads (a : h5attr) : result (option string) :=
  match a with
  | AttrBlob u => Return u
  | _ => Raise (TypeError "not a pickle")
  end.

(** [name in f] and [f[name]] for a dataset of a field group. *)
Definition dataset (f : h5obj) (name : string) : option (list (list Q)) :=
  match f with
  | H5Field _ _ datasets => datasets !! name
  | H5Mesh _ => None
  end.

(** [meshObjs.index(f['mesh'])]: the hard link names the mesh group. *)
Fixpoint index_of (name : string) (names : list string) : option nat :=
  match names with
  | [] => None
  | n :: names' =>
      if String.eqb n name then Some O else option_map S (index_of name names')
  end.

Definition linked_mesh (f : h5obj) (meshObjs : list (string * h5obj)) : result nat :=
  match f with
  | H5Field link _ _ =>
      match index_of link (map fst meshObjs) with
      | Some i => Return i
      | None => Raise (ValueError "is not in list")
      end
  | H5Mesh _ => Raise (KeyError "mesh")
  end.

(** The body of the loop over [fieldObjs] (lines 473-479).  [bound] is
    what the local names [fieldType] and [values] hold before the
    iteration: nothing in the first one. *)
Definition load_field (meshObjs : list (string * h5obj)) (meshes' : list loc)
    (bound : option (Z * list (list Q))) (f : h5obj)
    : py (loc * option (Z * list (list Q))) :=
  (bound' <- match dataset f "vertex_values", dataset f "cell_values" with
             | Some values', _ => ret (Some (FieldType.FT_vertexBased, values'))
             | None, Some _ => raise (AttributeError "FT_cellBase")
             | None, None => ret bound
             end ;;
   fieldID' <- lift (a <- attr f "fieldID" ;; as_int a)%result ;;
   valueType' <- lift (a <- attr f "valueType" ;; as_int a)%result ;;
   units' <- lift (a <- attr f "units" ;; pickle_loads a)%result ;;
   time' <- lift (a <- attr f "time" ;; as_number a)%result ;;
   let units' := match units' with
                 | Some u => if String.eqb u "" then None else Some u
                 | None => None
                 end in
   meshIndex <- lift (linked_mesh f meshObjs) ;;
   mesh' <- lift (getitem meshes' (Z.of_nat meshIndex)) ;;
   match bound' with
   | None => raise (NameError "values")
   | Some (fieldType', values') =>
       vals <- new_array (map Tuple values') ;;
       l <- __init__ mesh' fieldID' valueType' units' time' (Some vals) fieldType' ;;
       ret (l, bound')
   end)%py.

Fixpoint load_fields (meshObjs : list (string * h5obj)) (meshes' : list loc)
    (bound : option (Z * list (list Q))) (fieldObjs : list h5obj) : py (list loc) :=
  match fieldObjs with
  | [] => ret []
  | f :: fieldObjs' =>
      (lb <- load_field meshObjs meshes' bound f ;;
       ret' <- load_fields meshObjs meshes' (snd lb) fieldObjs' ;;
       ret (fst lb :: ret'))%py
  end.

(** [Field.makeFromHdf5(fileName, group)] *)
Definition makeFromHdf5 (fileName group : string) : py (list loc) :=
  (hdf <- open_read fileName ;;
   grp <- lift (match hdf !! group with
                | Some g => Return g
                | None => Raise (KeyError group)
                end) ;;
   let meshObjs := List.filter (fun p => String.prefix "mesh_" (fst p)) (items grp) in
   let fieldObjs := List.filter (fun p => String.prefix "field_" (fst p)) (items grp) in
   meshes' <- py_mapM (fun p => makeFromHdf5Object (snd p)) meshObjs ;;
   load_fields meshObjs meshes' None (map snd fieldObjs))%py.
(** The attributes that [toHdf5] gives a field group (lines 433-436). *)
Definition field_attrs (s : Field) : gmap string h5attr :=
  <["time" := AttrInt (fieldID s)]>
    (<["units" := AttrBlob (units s)]>
       (<["valueType" := AttrInt (valueType s)]>
          (<["fieldID" := AttrInt (fieldID s)]> ∅))).

(** The members of a group after the first field has been stored in it:
    one mesh group and one field group linked to it. *)
Definition fresh_group (s : Field) (m : Mesh) (datasets : gmap string (list (list Q)))
    : gmap string h5obj :=
  <["field_01" := H5Field "mesh_01" (field_attrs s) datasets]>
    (<["mesh_01" := H5Mesh m]> ∅).

(** The store after [toHdf5] has written to a file that did not exist:
    the group [group] holds [g]. *)
Definition with_file (st : state) (fileName group : string) (g : gmap string h5obj)
    : state :=
  mkState (meshes st) (arrays st) (fields st)
    (<[fileName := {[ group := g ]}]> (files st)).

(** The members of the group after a second vertex based field has been
    stored on a mesh with the digest of the first. *)
Definition second_group (s1 s2 : Field) (m1 : Mesh) (val1 val2 : list (list Q))
    : gmap string h5obj :=
  <["field_02" := H5Field "mesh_01" (field_attrs s2) {[ "vertex_values" := val2 ]}]>
    (fresh_group s1 m1 {[ "vertex_values" := val1 ]}).

(** Line 477: [if units=='': units=None]. *)
Definition loaded_units (u : option string) : option string :=
  match u with
  | Some u' => if String.eqb u' "" then None else Some u'
  | None => None
  end.
End Hdf5.

(** ** The accessors of [Field] *)

Section Access.
Context `{MA : MeshAdapter}.

Definition put_array (l : loc) (a : list item) : py unit := fun st =>
  (Return tt, mkState (meshes st) (<[l := a]> (arrays st)) (fields st) (files st)).

Definition getMesh (self : loc) : py loc :=
  (f <- get_field self ;; ret (mesh f))%py.

Definition getValueType (self : loc) : py Z :=
  (f <- get_field self ;; ret (valueType f))%py.

Definition getFieldID (self : loc) : py Z :=
  (f <- get_field self ;; ret (fieldID f))%py.

Definition getFieldType (self : loc) : py Z :=
  (f <- get_field self ;; ret (fieldType f))%py.

Definition getTime (self : loc) : py Q :=
  (f <- get_field self ;; ret (time f))%py.

Definition getUnits (self : loc) : py (option string) :=
  (f <- get_field self ;; ret (units f))%py.

(** [self.giveValue(componentID)]: [return self.values[componentID]],
    with the number of a vertex or of a cell as [componentID], as
    [toHdf5] and [manyToVTK3] call it. *)
Definition giveValue (self : loc) (componentID : Z) : py item :=
  (f <- get_field self ;;
   vals <- get_array (values f) ;;
   lift (getitem vals componentID))%py.

(** [self.setValue(componentID, value)]:
    [self.values[componentID] = value], an update of the array object in
    place. *)
Definition setValue (self : loc) (componentID : Z) (value : item) : py unit :=
  (f <- get_field self ;;
   vals <- get_array (values f) ;;
   vals' <- lift (setitem vals componentID value) ;;
   put_array (values f) vals')%py.

(** [self.commit()]: the body is the docstring alone. *)
Definition commit (self : loc) : py unit := ret tt.
End Access.

(** ** The guards of [Field.manyToVTK3] *)

Section Vtk.
Context `{MA : MeshAdapter}.

(** [[f.mesh for f in fields]] *)
Fixpoint meshes_of (fields' : list loc) : py (list loc) :=
  match fields' with
  | [] => ret []
  | f :: fields'' =>
      (fo <- get_field f ;; ms <- meshes_of fields'' ;; ret (mesh fo :: ms))%py
  end.

(** Lines 503-507 of [manyToVTK3], up to the first call into the VTK
    library: the two guards and the choice of the mesh.  [set(...)] of
    mesh objects counts objects, as the message of the second guard
    says; an object is its location. *)
Definition manyToVTK3_mesh (fields' : list loc) : py loc :=
  match fields' with
  | [] => raise (ValueError "At least one field must be passed.")
  | f0 :: _ =>
      (ms <- meshes_of fields' ;;
       if negb (Nat.eqb (size (list_to_set ms : gset loc)) 1) then
         raise (RuntimeError "Not all fields are sharing the same Mesh object (and could not be saved to a single .vtu file")
       else getMesh f0)%py
  end.

(** [toVTK3] hands [[self]] to [manyToVTK3]. *)
Definition toVTK3_mesh (self : loc) : py loc := manyToVTK3_mesh [self].
End Vtk.

(** ** A mesh for the interface *)

(** Modelled from the spec: the discretization ([Mesh.py], [Cell.py],
    [BBox.py] and the localizer are missing from the sources).  A mesh is
    its vertices and its cells in numbering order, every cell with its
    bounding box.  The localizer answers with the cells whose bounding
    box intersects the query box; [merge] builds the union and
    deduplicates entities by their label; the label-to-number maps give
    the position of a label in the numbering. *)
Module ListMesh.
Record t : Type := {
  vertexList : list Vertex.t;
  cellList : list (BBox.t * Cell.t);
}.

Definition intersects (a b : BBox.t) : bool :=
  forallb (fun p => Qle_bool (fst p) (snd p))
    (combine (BBox.coords_ll a) (BBox.coords_ur b))
  && forallb (fun p => Qle_bool (fst p) (snd p))
       (combine (BBox.coords_ll b) (BBox.coords_ur a)).

Definition giveItemsInBBox (m : t) (bbox : BBox.t) : list Cell.t :=
  map snd (filter (fun c => Is_true (intersects (fst c) bbox)) (cellList m)).

Definition dummyVertex : Vertex.t := {| Vertex.number := 0; Vertex.label := 0 |}.
Definition dummyCell : Cell.t :=
  {| Cell.number := 0; Cell.label := 0; Cell.getVertices := [];
     Cell.containsPoint := fun _ => Return false;
     Cell.interpolate := fun _ _ => Return [];
     Cell.glob2loc := fun _ => Return tt |}.

Definition getVertex (m : t) (v : nat) : Vertex.t := nth v (vertexList m) dummyVertex.
Definition giveCell (m : t) (c : nat) : Cell.t := nth c (map snd (cellList m)) dummyCell.

(** The position of the first entry with the label, or the length when
    there is none. *)
Fixpoint label2Number (labels : list Z) (l : Z) : Z :=
  match labels with
  | [] => 0
  | l' :: labels' => if l' =? l then 0 else 1 + label2Number labels' l
  end.

Definition vertexLabels (m : t) : list Z := map Vertex.label (vertexList m).
Definition cellLabels (m : t) : list Z := map (fun c => Cell.label (snd c)) (cellList m).

Definition vertexLabel2Number (m : t) : Z -> Z := label2Number (vertexLabels m).
Definition cellLabel2Number (m : t) : Z -> Z := label2Number (cellLabels m).

Definition hasLabel (labels : list Z) (l : Z) : bool := existsb (Z.eqb l) labels.

Fixpoint mergeVertices (vs : list Vertex.t) (others : list Vertex.t) : list Vertex.t :=
  match others with
  | [] => vs
  | v :: others' =>
      if hasLabel (map Vertex.label vs) (Vertex.label v) then mergeVertices vs others'
      else mergeVertices
             (vs ++ [{| Vertex.number := Z.of_nat (length vs);
                        Vertex.label := Vertex.label v |}]) others'
  end.

Definition renumber (vs : list Vertex.t) (v : Vertex.t) : Vertex.t :=
  {| Vertex.number := label2Number (map Vertex.label vs) (Vertex.label v);
     Vertex.label := Vertex.label v |}.

Fixpoint mergeCells (vs : list Vertex.t) (cs others : list (BBox.t * Cell.t))
    : list (BBox.t * Cell.t) :=
  match others with
  | [] => cs
  | (box, c) :: others' =>
      if hasLabel (map (fun c => Cell.label (snd c)) cs) (Cell.label c)
      then mergeCells vs cs others'
      else mergeCells vs
             (cs ++ [(box,
                      {| Cell.number := Z.of_nat (length cs);
                         Cell.label := Cell.label c;
                         Cell.getVertices := map (renumber vs) (Cell.getVertices c);
                         Cell.containsPoint := Cell.containsPoint c;
                         Cell.interpolate := Cell.interpolate c;
                         Cell.glob2loc := Cell.glob2loc c |})]) others'
  end.

Definition merge (self other : t) : t :=
  let vs := mergeVertices (vertexList self) (vertexList other) in
  {| vertexList := vs;
     cellList := mergeCells vs (cellList self) (cellList other) |}.

(** The labels of the entities that a field of type [ftype] is indexed
    by, in numbering order. *)
Definition labels (ftype : Z) (m : t) : list Z :=
  if ftype =? FieldType.FT_vertexBased then vertexLabels m else cellLabels m.

(** The digest of the full data, here the numbering and the labels. *)
Definition hexdigest (m : t) : string :=
  String.concat "," (map (fun z : Z => pretty z) (vertexLabels m))
  +:+ ";" +:+ String.concat "," (map (fun z : Z => pretty z) (cellLabels m)).
End ListMesh.

Definition ListMeshAdapter : MeshAdapter := {|
  Mesh := ListMesh.t;
  getNumberOfVertices := fun m => length (ListMesh.vertexList m);
  getNumberOfCells := fun m => length (ListMesh.cellList m);
  getVertex := ListMesh.getVertex;
  giveCell := ListMesh.giveCell;
  vertexLabel2Number := ListMesh.vertexLabel2Number;
  cellLabel2Number := ListMesh.cellLabel2Number;
  giveItemsInBBox := ListMesh.giveItemsInBBox;
  Mesh_merge := ListMesh.merge;
  hexdigest := ListMesh.hexdigest;
|}.

(** The numbering of [ValueType] used in the examples. *)
Definition ValueType123 : ValueTypeModule :=
  {| Scalar := 1; Vector := 2; Tensor := 3 |}.

(** ** The entities a value array is indexed by *)

Section Entities.
Context `{MA : MeshAdapter}.

(** The accessors that [merge] uses in its branch for the field type
    [ftype]: vertices for [FT_vertexBased], cells otherwise. *)
Definition entityCount (ftype : Z) (m : Mesh) : nat :=
  if ftype =? FieldType.FT_vertexBased then getNumberOfVertices m
  else getNumberOfCells m.

Definition entityLabel (ftype : Z) (m : Mesh) (v : nat) : Z :=
  if ftype =? FieldType.FT_vertexBased then Vertex.label (getVertex m v)
  else Cell.label (giveCell m v).

Definition label2Number (ftype : Z) (m : Mesh) (l : Z) : Z :=
  if ftype =? FieldType.FT_vertexBased then vertexLabel2Number m l
  else cellLabel2Number m l.

(** [l] is the label of an entity of [m]. *)
Definition hasLabel (ftype : Z) (m : Mesh) (l : Z) : Prop :=
  exists v, (v < entityCount ftype m)%nat /\ entityLabel ftype m v = l.

(** The labels of [m] name its entities: no two entities share one. *)
Definition distinctLabels (ftype : Z) (m : Mesh) : Prop :=
  forall v w, (v < entityCount ftype m)%nat -> (w < entityCount ftype m)%nat ->
    entityLabel ftype m v = entityLabel ftype m w -> v = w.

(** What [merge] relies on from the union [u] of the meshes [a] and
    [b]: the label-to-number map of [u] sends the labels of [a] and of
    [b] to numbers of [u], different labels to different numbers. *)
Definition unionNumbering (ftype : Z) (u a b : Mesh) : Prop :=
  (forall l, hasLabel ftype a l \/ hasLabel ftype b l ->
     0 <= label2Number ftype u l < Z.of_nat (entityCount ftype u))
  /\ (forall l l', hasLabel ftype a l \/ hasLabel ftype b l ->
        hasLabel ftype a l' \/ hasLabel ftype b l' ->
        label2Number ftype u l = label2Number ftype u l' -> l = l').
End Entities.

(** ** Example data *)

Module Examples.
(** A one-dimensional mesh of two segments [0,1] and [1,2] over three
    vertices; the segments share the point 1. *)
Definition inside (lo hi : Q) (pos : position) : result bool :=
  match pos with
  | [x] => Return (Qle_bool lo x && Qle_bool x hi)
  | _ => Return false
  end.

(** Linear interpolation on a segment of length one starting at [lo]. *)
Definition lerp (lo : Q) (pos : position) (vs : list item) : result (list Q) :=
  match pos, vs with
  | [x], [Tuple a; Tuple b] =>
      Return (map (fun p => (fst p * (1 - (x - lo)) + snd p * (x - lo))%Q) (combine a b))
  | _, _ => Raise (TypeError "interpolate")
  end.

Definition vertex (n l : Z) : Vertex.t := {| Vertex.number := n; Vertex.label := l |}.

Definition segment (n l : Z) (lo : Q) (v0 v1 : Vertex.t) : BBox.t * Cell.t :=
  (BBox.BBox [lo] [(lo + 1)%Q],
   {| Cell.number := n; Cell.label := l; Cell.getVertices := [v0; v1];
      Cell.containsPoint := inside lo (lo + 1)%Q;
      Cell.interpolate := lerp lo;
      Cell.glob2loc := fun _ => Return tt |}).

(** A segment of measure zero: its containment test divides by zero. *)
Definition degenerate (n l : Z) (x : Q) (v : Vertex.t) : BBox.t * Cell.t :=
  (BBox.BBox [x] [x],
   {| Cell.number := n; Cell.label := l; Cell.getVertices := [v; v];
      Cell.containsPoint := fun _ => Raise ZeroDivisionError;
      Cell.interpolate := fun _ _ => Raise ZeroDivisionError;
      Cell.glob2loc := fun _ => Raise ZeroDivisionError |}).

Definition twoSegments : ListMesh.t :=
  {| ListMesh.vertexList := [vertex 0 10; vertex 1 11; vertex 2 12];
     ListMesh.cellList := [segment 0 100 0 (vertex 0 10) (vertex 1 11);
                           segment 1 101 1 (vertex 1 11) (vertex 2 12)] |}.

(** The same two segments behind a degenerate cell at the point 1. *)
Definition withDegenerate : ListMesh.t :=
  {| ListMesh.vertexList := [vertex 0 10; vertex 1 11; vertex 2 12];
     ListMesh.cellList := [degenerate 0 100 1 (vertex 1 11);
                           segment 1 101 0 (vertex 0 10) (vertex 1 11);
                           segment 2 102 1 (vertex 1 11) (vertex 2 12)] |}.

(** One triangle with the corners (0,0), (1,0) and (0,1).  Its bounding
    box is the unit square, so the localizer proposes the triangle for
    the point (9/10, 9/10), which the triangle does not contain. *)
Definition insideTriangle (pos : position) : result bool :=
  match pos with
  | [x; y] => Return (Qle_bool 0 x && Qle_bool 0 y && Qle_bool (x + y) 1)
  | _ => Return false
  end.

Definition barycentric (pos : position) (vs : list item) : result (list Q) :=
  match pos, vs with
  | [x; y], [Tuple a; Tuple b; Tuple c] =>
      Return (map (fun p => (fst p * (1 - x - y) + fst (snd p) * x + snd (snd p) * y)%Q)
                (combine a (combine b c)))
  | _, _ => Raise (TypeError "interpolate")
  end.

Definition oneTriangle : ListMesh.t :=
  {| ListMesh.vertexList := [vertex 0 10; vertex 1 11; vertex 2 12];
     ListMesh.cellList :=
       [(BBox.BBox [0%Q; 0%Q] [1%Q; 1%Q],
         {| Cell.number := 0; Cell.label := 100;
            Cell.getVertices := [vertex 0 10; vertex 1 11; vertex 2 12];
            Cell.containsPoint := insideTriangle;
            Cell.interpolate := barycentric;
            Cell.glob2loc := fun _ => Return tt |})] |}.

Definition mkStore (m : ListMesh.t) (f : Field) (vals : list item)
    : @state ListMeshAdapter :=
  @mkState ListMeshAdapter {[ mesh f := m ]} {[ values f := vals ]} {[ 1%positive := f ]} ∅.

Definition field (vtype ftype : Z) : Field :=
  mkField 1%positive 7 vtype (1 # 2) None None ftype 1%positive.
(** Two vertex based scalar fields on two parts of one line: the
    receiver on the vertices labelled 10 and 11, the argument on those
    labelled 11 and 12.  The label 11 is in both. *)
Definition leftPart : ListMesh.t :=
  {| ListMesh.vertexList := [vertex 0 10; vertex 1 11];
     ListMesh.cellList := [segment 0 100 0 (vertex 0 10) (vertex 1 11)] |}.

Definition rightPart : ListMesh.t :=
  {| ListMesh.vertexList := [vertex 0 11; vertex 1 12];
     ListMesh.cellList := [segment 0 101 1 (vertex 0 11) (vertex 1 12)] |}.

Definition receiver (ftype : Z) : Field :=
  mkField 1%positive 7 1 (1 # 2) None None ftype 1%positive.

Definition argument (ftype : Z) : Field :=
  mkField 2%positive 7 1 (1 # 2) None None ftype 2%positive.

Definition leftValues (ftype : Z) : list item :=
  if ftype =? FieldType.FT_vertexBased then [Tuple [1%Q]; Tuple [2%Q]] else [Tuple [5%Q]].

Definition rightValues (ftype : Z) : list item :=
  if ftype =? FieldType.FT_vertexBased then [Tuple [20%Q]; Tuple [30%Q]] else [Tuple [50%Q]].

(** The receiver is field 1, the argument field 2. *)
Definition twoFields (ftype1 ftype2 : Z) : @state ListMeshAdapter :=
  @mkState ListMeshAdapter
    {[ 1%positive := leftPart; 2%positive := rightPart ]}
    {[ 1%positive := leftValues ftype1; 2%positive := rightValues ftype2 ]}
    {[ 1%positive := receiver ftype1; 2%positive := argument ftype2 ]}
    ∅.
(** The stores of the round-trip example: a vertex based and a cell
    based scalar field on the two segments, with [fieldID] 7 and [time]
    1/2, before the field is stored, after [toHdf5] and after
    [makeFromHdf5]. *)
Definition vertexField : @state ListMeshAdapter :=
  mkStore twoSegments (field 1 FieldType.FT_vertexBased)
    [Tuple [1%Q]; Tuple [4%Q]; Tuple [8%Q]].

Definition cellField : @state ListMeshAdapter :=
  mkStore twoSegments (field 1 FieldType.FT_cellBased) [Tuple [1%Q]; Tuple [4%Q]].

Definition stored (st : @state ListMeshAdapter) : result unit * @state ListMeshAdapter :=
  @toHdf5 ListMeshAdapter ValueType123 1%positive "f.h5" "component1/part1" st.

Definition loaded (st : @state ListMeshAdapter)
    : result (list loc) * @state ListMeshAdapter :=
  @makeFromHdf5 ListMeshAdapter ValueType123 "f.h5" "component1/part1" (snd (stored st)).
(** Two vertex based scalar fields, 1 and 2, on one mesh object. *)
Definition secondField : Field :=
  mkField 1%positive 8 1 (1 # 2) None None FieldType.FT_vertexBased 2%positive.

Definition twoOnOneMesh : @state ListMeshAdapter :=
  @mkState ListMeshAdapter
    {[ 1%positive := twoSegments ]}
    {[ 1%positive := [Tuple [1%Q]; Tuple [4%Q]; Tuple [8%Q]];
       2%positive := [Tuple [2%Q]; Tuple [5%Q]; Tuple [9%Q]] ]}
    {[ 1%positive := field 1 FieldType.FT_vertexBased; 2%positive := secondField ]}
    ∅.
(** Three cells on a line around the point 3/2.  The first covers [0,1]
    and is listed with the bounding box [0,2], so the localizer proposes
    it for 3/2 and its containment test answers [False].  The second
    covers [1,2] over the vertices 1 and 2, the third covers [1/2,3/2]
    over the vertices 0 and 1: both contain 3/2 and they interpolate
    different values there. *)
Definition overlapping : ListMesh.t :=
  {| ListMesh.vertexList := [vertex 0 10; vertex 1 11; vertex 2 12];
     ListMesh.cellList :=
       [(BBox.BBox [0%Q] [2%Q], snd (segment 0 100 0 (vertex 0 10) (vertex 1 11)));
        segment 1 101 1 (vertex 1 11) (vertex 2 12);
        segment 2 102 (1 # 2) (vertex 0 10) (vertex 1 11)] |}.
End Examples.

(** * Properties *)

(** ** The record size *)

(** C8: [getRecordSize] returns 1 for [Scalar], 3 for [Vector] and 9 for
    [Tensor], and raises [ValueError] for every other value type. *)
Theorem getRecordSize_spec `{VT : ValueTypeModule} (self : Field) :
  Scalar <> Vector -> Scalar <> Tensor -> Vector <> Tensor ->
  (valueType self = Scalar -> getRecordSize self = Return 1) /\
  (valueType self = Vector -> getRecordSize self = Return 3) /\
  (valueType self = Tensor -> getRecordSize self = Return 9) /\
  (valueType self <> Scalar -> valueType self <> Vector -> valueType self <> Tensor ->
   exists msg, getRecordSize self = Raise (ValueError msg)).
Proof.
  intros Hsv Hst Hvt. unfold getRecordSize. repeat split.
  - intros ->. now rewrite Z.eqb_refl.
  - intros ->. destruct (Z.eqb_spec Vector Scalar) as [E|_]; [congruence|].
    now rewrite Z.eqb_refl.
  - intros ->. destruct (Z.eqb_spec Tensor Scalar) as [E|_]; [congruence|].
    destruct (Z.eqb_spec Tensor Vector) as [E|_]; [congruence|].
    now rewrite Z.eqb_refl.
  - intros H1 H2 H3.
    destruct (Z.eqb_spec (valueType self) Scalar); [contradiction|].
    destruct (Z.eqb_spec (valueType self) Vector); [contradiction|].
    destruct (Z.eqb_spec (valueType self) Tensor); [contradiction|].
    eauto.
Qed.

Lemma getRecordSize_spec_witness :
  (valueType (Examples.field 2 1) = 1 ->
   @getRecordSize ValueType123 (Examples.field 2 1) = Return 1) /\
  (valueType (Examples.field 2 1) = 2 ->
   @getRecordSize ValueType123 (Examples.field 2 1) = Return 3) /\
  (valueType (Examples.field 2 1) = 3 ->
   @getRecordSize ValueType123 (Examples.field 2 1) = Return 9) /\
  (valueType (Examples.field 2 1) <> 1 -> valueType (Examples.field 2 1) <> 2 ->
   valueType (Examples.field 2 1) <> 3 ->
   exists msg, @getRecordSize ValueType123 (Examples.field 2 1) = Raise (ValueError msg)).
Proof.
  apply (@getRecordSize_spec ValueType123 (Examples.field 2 1)); simpl; lia.
Defined.

(** ** Evaluation of vertex based fields *)

Section EvaluateVertexBased.
Context `{MA : MeshAdapter}.

Lemma try_vertex_cell_miss vals pos icell :
  Cell.containsPoint icell pos = Return false ->
  try_vertex_cell vals pos icell = Return None.
Proof. unfold try_vertex_cell. now intros ->. Qed.

Lemma try_vertex_cell_hit vals pos icell vs answer :
  Cell.containsPoint icell pos = Return true ->
  vertexValues vals icell = Return vs ->
  Cell.interpolate icell pos vs = Return answer ->
  try_vertex_cell vals pos icell = Return (Some answer).
Proof.
  unfold try_vertex_cell. intros -> Hvs Hi. simpl. rewrite Hvs. simpl.
  now rewrite Hi.
Qed.

(** Candidates whose containment test answers [False] are passed over. *)
Lemma scan_vertexBased_skip vals pos pre rest :
  Forall (fun c => Cell.containsPoint c pos = Return false) pre ->
  scan_vertexBased vals pos (pre ++ rest) = scan_vertexBased vals pos rest.
Proof.
  induction 1 as [|c pre Hc _ IH]; [reflexivity|].
  simpl. now rewrite (try_vertex_cell_miss _ _ _ Hc).
Qed.

(** Once a containment test answers [True] the scan is over, whatever
    the cell's values and interpolation do: the candidates behind it
    have no part in the outcome. *)
Lemma scan_vertexBased_stops vals pos pre icell post :
  Forall (fun c => Cell.containsPoint c pos = Return false) pre ->
  Cell.containsPoint icell pos = Return true ->
  scan_vertexBased vals pos (pre ++ icell :: post)
  = scan_vertexBased vals pos [icell].
Proof.
  intros Hpre Hc. rewrite scan_vertexBased_skip by assumption. simpl.
  unfold try_vertex_cell. rewrite Hc. simpl.
  destruct (vertexValues vals icell) as [vs|[]]; simpl; try reflexivity.
  destruct (Cell.interpolate icell pos vs) as [a|[]]; reflexivity.
Qed.

(** The comprehension of line 212 reads the value array at the number
    of every vertex of the cell, in the order of [getVertices]. *)
Lemma getitem_stored {A} (l : list A) (i : Z) (x : A) :
  0 <= i -> l !! Z.to_nat i = Some x -> getitem l i = Return x.
Proof.
  intros Hi Hx. pose proof (lookup_lt_Some _ _ _ Hx) as Hlt.
  unfold getitem, py_index.
  destruct (Z.leb_spec 0 i); [|lia].
  destruct (Z.ltb_spec i (Z.of_nat (length l))); [|lia].
  simpl. now rewrite Hx.
Qed.

Lemma vertexValues_stored vals icell vs :
  Forall2 (fun v x => 0 <= Vertex.number v /\ vals !! Z.to_nat (Vertex.number v) = Some x)
    (Cell.getVertices icell) vs ->
  vertexValues vals icell = Return vs.
Proof.
  unfold vertexValues.
  induction 1 as [|v x vertices vs [Hv Hx] _ IH]; [reflexivity|].
  simpl. rewrite (getitem_stored _ _ _ Hv Hx). simpl. now rewrite IH.
Qed.

(** C4: a vertex based field scans the candidates in the order of the
    localizer and returns what the first cell that contains the position
    interpolates there from the stored values of its own vertices: [vs]
    lists, vertex by vertex in the order of [getVertices], the entry of
    the value array at the number of the vertex.  The candidates before
    it have answered [False]; nothing is asked of the candidates behind
    it ([post] is arbitrary), which have no part in the answer. *)
Theorem evaluate_vertexBased_first_match
    (st : state) (self : loc) (f : Field) (m : Mesh) (vals : list item)
    (pos : position) (eps : Q) (pre post : list Cell.t) (icell : Cell.t)
    (vs : list item) (answer : list Q) :
  fields st !! self = Some f ->
  meshes st !! mesh f = Some m ->
  arrays st !! values f = Some vals ->
  fieldType f = FieldType.FT_vertexBased ->
  giveItemsInBBox m
    (BBox.BBox (map (fun c => (c - eps)%Q) pos) (map (fun c => (c + eps)%Q) pos))
  = pre ++ icell :: post ->
  Forall (fun c => Cell.containsPoint c pos = Return false) pre ->
  Cell.containsPoint icell pos = Return true ->
  Forall2 (fun v x => 0 <= Vertex.number v /\ vals !! Z.to_nat (Vertex.number v) = Some x)
    (Cell.getVertices icell) vs ->
  Cell.interpolate icell pos vs = Return answer ->
  _evaluate self pos eps st = (Return (Some answer), st).
Proof.
  intros Hf Hm Hv Hft Hcells Hpre Hc Hvs Hi.
  unfold _evaluate, bind, get_field, get_mesh, get_array, deref, lift.
  rewrite Hf, Hm, Hv. unfold evaluate_body. rewrite Hcells, Hft.
  rewrite length_app. simpl length.
  replace (length pre + S (length post))%nat with (S (length pre + length post)) by lia.
  simpl negb. cbv iota. simpl Z.eqb. cbv iota.
  rewrite scan_vertexBased_skip by assumption. simpl.
  now rewrite (try_vertex_cell_hit _ _ _ _ _ Hc (vertexValues_stored _ _ _ Hvs) Hi).
Qed.

(** With no candidate at all, [_evaluate] raises [ValueError]. *)
Lemma evaluate_no_candidates
    (st : state) (self : loc) (f : Field) (m : Mesh) (vals : list item)
    (pos : position) (eps : Q) :
  fields st !! self = Some f ->
  meshes st !! mesh f = Some m ->
  arrays st !! values f = Some vals ->
  giveItemsInBBox m
    (BBox.BBox (map (fun c => (c - eps)%Q) pos) (map (fun c => (c + eps)%Q) pos))
  = [] ->
  exists msg, _evaluate self pos eps st = (Raise (ValueError msg), st).
Proof.
  intros Hf Hm Hv Hcells.
  unfold _evaluate, bind, get_field, get_mesh, get_array, deref, lift.
  rewrite Hf, Hm, Hv. unfold evaluate_body. rewrite Hcells. simpl. eauto.
Qed.
End EvaluateVertexBased.

(** In [Examples.overlapping] the first candidate for 3/2 answers
    [False], the second contains the point and interpolates the values
    of the vertices 1 and 2, and the third, which contains the point as
    well, would interpolate those of the vertices 0 and 1. *)
Lemma overlapping_third_candidate :
  Cell.containsPoint
    (snd (Examples.segment 2 102 (1 # 2) (Examples.vertex 0 10) (Examples.vertex 1 11)))
    [3 # 2] = Return true
  /\ exists x,
       Cell.interpolate
         (snd (Examples.segment 2 102 (1 # 2) (Examples.vertex 0 10) (Examples.vertex 1 11)))
         [3 # 2] [Tuple [1%Q]; Tuple [4%Q]] = Return [x]
       /\ (x == 4)%Q
       /\ ~ (x == 4 * (1 - ((3 # 2) - 1)) + 8 * ((3 # 2) - 1))%Q.
Proof.
  split; [reflexivity|]. eexists. split; [reflexivity|].
  split; [reflexivity|]. intros H. vm_compute in H. discriminate.
Qed.

Lemma evaluate_vertexBased_first_match_witness :
  @_evaluate ListMeshAdapter 1%positive [3 # 2] 0%Q
    (Examples.mkStore Examples.overlapping (Examples.field 1 1)
       [Tuple [1%Q]; Tuple [4%Q]; Tuple [8%Q]])
  = (Return (Some [(4 * (1 - ((3 # 2) - 1)) + 8 * ((3 # 2) - 1))%Q]),
     Examples.mkStore Examples.overlapping (Examples.field 1 1)
       [Tuple [1%Q]; Tuple [4%Q]; Tuple [8%Q]]).
Proof.
  apply (@evaluate_vertexBased_first_match ListMeshAdapter _ 1%positive
           (Examples.field 1 1) Examples.overlapping
           [Tuple [1%Q]; Tuple [4%Q]; Tuple [8%Q]] [3 # 2] 0%Q
           [snd (Examples.segment 0 100 0 (Examples.vertex 0 10) (Examples.vertex 1 11))]
           [snd (Examples.segment 2 102 (1 # 2) (Examples.vertex 0 10) (Examples.vertex 1 11))]
           (snd (Examples.segment 1 101 1 (Examples.vertex 1 11) (Examples.vertex 2 12)))
           [Tuple [4%Q]; Tuple [8%Q]]);
    try reflexivity.
  - constructor; [reflexivity | constructor].
  - simpl. repeat (constructor; [split; [simpl; lia | reflexivity] |]). constructor.
Defined.

(** ** Evaluation at concrete inputs *)

(** C3: the localizer proposes the triangle for the point (9/10, 9/10),
    which lies in the bounding box of the triangle and outside the
    triangle.  [_evaluate] then falls off its end and returns [None], for
    a vertex based and for a cell based field alike; only the branch
    without any candidate raises. *)
Theorem evaluate_candidates_without_cell_returns_None :
  fst (@_evaluate ListMeshAdapter 1%positive [9 # 10; 9 # 10] 0%Q
         (Examples.mkStore Examples.oneTriangle
            (Examples.field 1 FieldType.FT_vertexBased)
            [Tuple [1%Q]; Tuple [4%Q]; Tuple [8%Q]]))
  = Return None
  /\ fst (@_evaluate ListMeshAdapter 1%positive [9 # 10; 9 # 10] 0%Q
            (Examples.mkStore Examples.oneTriangle
               (Examples.field 1 FieldType.FT_cellBased) [Tuple [1%Q]]))
     = Return None.
Proof. split; reflexivity. Qed.

(** C6: the first candidate is a cell of measure zero whose containment
    test divides by zero, the second candidate contains the point.  The
    handler of the division error raises [NameError] itself, and this is
    what the caller of [_evaluate] gets. *)
Theorem evaluate_degenerate_cell_raises_NameError :
  fst (@_evaluate ListMeshAdapter 1%positive [1%Q] 0%Q
         (Examples.mkStore Examples.withDegenerate
            (Examples.field 1 FieldType.FT_vertexBased)
            [Tuple [1%Q]; Tuple [4%Q]; Tuple [8%Q]]))
  = Raise (NameError "cell").
Proof. reflexivity. Qed.

(** C1: a cell based vector field, evaluated at the point shared by its
    two cells with values (1,2,3) and (4,5,6).  The answer has 81
    components, the first of them 13/2; the componentwise mean is
    (5/2, 7/2, 9/2). *)
Theorem evaluate_cellBased_vector_shared_point :
  exists answer,
    fst (@_evaluate ListMeshAdapter 1%positive [1%Q] 0%Q
           (Examples.mkStore Examples.twoSegments
              (Examples.field 2 FieldType.FT_cellBased)
              [Tuple [1%Q; 2%Q; 3%Q]; Tuple [4%Q; 5%Q; 6%Q]]))
    = Return (Some answer)
    /\ length answer = 81%nat
    /\ answer !! 0%nat = Some (13 # 2)
    /\ answer <> [5 # 2; 7 # 2; 9 # 2].
Proof.
  eexists. split; [vm_compute; reflexivity|].
  split; [reflexivity|]. split; [reflexivity|]. discriminate.
Qed.

(** ** Evaluation of cell based fields: what holds *)

Section EvaluateCellBased.
Context `{MA : MeshAdapter}.

Lemma Qdiv_1_r (x : Q) : (x / inject_Z 1)%Q = x.
Proof.
  destruct x as [n d]. unfold Qdiv, Qmult, Qinv, inject_Z. simpl.
  now rewrite Z.mul_1_r, Pos.mul_1_r.
Qed.

Lemma scan_cellBased_skip vals pos cs rest count answer :
  Forall (fun c => Cell.containsPoint c pos = Return false) cs ->
  scan_cellBased vals pos (cs ++ rest) count answer
  = scan_cellBased vals pos rest count answer.
Proof.
  induction 1 as [|c cs Hc _ IH]; [reflexivity|]. simpl. now rewrite Hc.
Qed.

(** A point in exactly one of the candidates gets that cell's value. *)
Lemma evaluate_cellBased_single
    (st : state) (self : loc) (f : Field) (m : Mesh) (vals : list item)
    (pos : position) (eps : Q) (pre post : list Cell.t) (icell : Cell.t)
    (xs : list Q) :
  fields st !! self = Some f ->
  meshes st !! mesh f = Some m ->
  arrays st !! values f = Some vals ->
  fieldType f <> FieldType.FT_vertexBased ->
  giveItemsInBBox m
    (BBox.BBox (map (fun c => (c - eps)%Q) pos) (map (fun c => (c + eps)%Q) pos))
  = pre ++ icell :: post ->
  Forall (fun c => Cell.containsPoint c pos = Return false) (pre ++ post) ->
  Cell.containsPoint icell pos = Return true ->
  getitem vals (Cell.number icell) = Return (Tuple xs) ->
  _evaluate self pos eps st = (Return (Some xs), st).
Proof.
  intros Hf Hm Hv Hft Hcells Hrest Hc Hx.
  apply Forall_app in Hrest as [Hpre Hpost].
  unfold _evaluate, bind, get_field, get_mesh, get_array, deref, lift.
  rewrite Hf, Hm, Hv. unfold evaluate_body. rewrite Hcells.
  rewrite length_app. simpl length.
  replace (length pre + S (length post))%nat with (S (length pre + length post)) by lia.
  simpl negb. cbv iota.
  destruct (Z.eqb_spec (fieldType f) FieldType.FT_vertexBased); [contradiction|].
  pose proof (scan_cellBased_skip vals pos) as Hskip.
  rewrite Hskip by assumption. simpl. rewrite Hc. simpl.
  unfold accumulate. rewrite Hx. simpl.
  rewrite <- (app_nil_r post), Hskip by assumption. simpl.
  f_equal. f_equal. f_equal. clear.
  induction xs as [|x xs IH]; [reflexivity|]. simpl. now rewrite Qdiv_1_r, IH.
Qed.

(** For one component per value the accumulation is a sum: a point in
    exactly two of the candidates, with the values [a] and [b], gets
    [(a+b)/2]. *)
Lemma evaluate_cellBased_scalar_pair
    (st : state) (self : loc) (f : Field) (m : Mesh) (vals : list item)
    (pos : position) (eps : Q) (pre mid post : list Cell.t) (c1 c2 : Cell.t)
    (a b : Q) :
  fields st !! self = Some f ->
  meshes st !! mesh f = Some m ->
  arrays st !! values f = Some vals ->
  fieldType f <> FieldType.FT_vertexBased ->
  giveItemsInBBox m
    (BBox.BBox (map (fun c => (c - eps)%Q) pos) (map (fun c => (c + eps)%Q) pos))
  = pre ++ c1 :: mid ++ c2 :: post ->
  Forall (fun c => Cell.containsPoint c pos = Return false) (pre ++ mid ++ post) ->
  Cell.containsPoint c1 pos = Return true ->
  Cell.containsPoint c2 pos = Return true ->
  getitem vals (Cell.number c1) = Return (Tuple [a]) ->
  getitem vals (Cell.number c2) = Return (Tuple [b]) ->
  _evaluate self pos eps st = (Return (Some [((a + b) / inject_Z 2)%Q]), st).
Proof.
  intros Hf Hm Hv Hft Hcells Hrest Hc1 Hc2 Ha Hb.
  apply Forall_app in Hrest as [Hpre Hrest].
  apply Forall_app in Hrest as [Hmid Hpost].
  unfold _evaluate, bind, get_field, get_mesh, get_array, deref, lift.
  rewrite Hf, Hm, Hv. unfold evaluate_body. rewrite Hcells.
  rewrite length_app. simpl length.
  replace (length pre + S (length (mid ++ c2 :: post)))%nat
    with (S (length pre + length (mid ++ c2 :: post))) by lia.
  simpl negb. cbv iota.
  destruct (Z.eqb_spec (fieldType f) FieldType.FT_vertexBased); [contradiction|].
  rewrite scan_cellBased_skip by assumption. simpl. rewrite Hc1. simpl.
  unfold accumulate at 1. rewrite Ha. simpl.
  rewrite scan_cellBased_skip by assumption. simpl. rewrite Hc2. simpl.
  unfold accumulate at 1. rewrite Hb. simpl.
  rewrite <- (app_nil_r post), scan_cellBased_skip by assumption. reflexivity.
Qed.
End EvaluateCellBased.

(** ** Merge: how a call runs *)

Section MergeRun.
Context `{MA : MeshAdapter}.

Lemma getitem_exn {A} (l : list A) i e : getitem l i = Raise e -> e = IndexError.
Proof.
  unfold getitem. destruct (py_index l i) as [k|]; [destruct (l !! k)|]; congruence.
Qed.

Lemma setitem_exn {A} (l : list A) i x e : setitem l i x = Raise e -> e = IndexError.
Proof. unfold setitem. destruct (py_index l i); congruence. Qed.

Lemma copy_values_exn l2n lab src range values e :
  copy_values l2n lab src range values = Raise e -> e = IndexError.
Proof.
  revert values. induction range as [|v range IH]; intros values; simpl; [congruence|].
  destruct (getitem src (Z.of_nat v)) as [x|e'] eqn:Hg; simpl.
  - destruct (setitem values (l2n (lab v)) x) as [values'|e'] eqn:Hs; simpl.
    + apply IH.
    + intros [= <-]. eapply setitem_exn, Hs.
  - intros [= <-]. eapply getitem_exn, Hg.
Qed.

Lemma merged_values_exn ftype m sm fm sv fv e :
  merged_values ftype m sm fm sv fv = Raise e -> e = IndexError.
Proof.
  unfold merged_values.
  destruct (ftype =? FieldType.FT_vertexBased);
    (match goal with
     | |- rbind ?c _ = _ -> _ => destruct c as [values|e'] eqn:H1; simpl
     end; [apply copy_values_exn | intros [= <-]; eapply copy_values_exn, H1]).
Qed.

Lemma lookup_fresh_ne {A} (m : gmap loc A) (l : loc) (a : A) :
  m !! l = Some a -> fresh (dom m) <> l.
Proof.
  intros Hl Heq. apply (is_fresh (dom m)). rewrite Heq.
  apply elem_of_dom. eauto.
Qed.

Lemma merge_run (st : state) (self field : loc) (s f : Field) (sm fm : Mesh) :
  fields st !! self = Some s ->
  meshes st !! mesh s = Some sm ->
  fields st !! field = Some f ->
  meshes st !! mesh f = Some fm ->
  merge self field st =
    if negb (fieldType s =? fieldType f) then
      (Raise (TypeError "Field::merge: fieldType of receiver and parameter is different"),
       with_union st sm fm)
    else
      match arrays st !! values s, arrays st !! values f with
      | Some sv, Some fv =>
          match merged_values (fieldType s) (Mesh_merge sm fm) sm fm sv fv with
          | Return vals => (Return tt, merged st self s sm fm vals)
          | Raise e => (Raise e, with_union st sm fm)
          end
      | _, _ => (Raise ReferenceError, with_union st sm fm)
      end.
Proof.
  intros Hs Hsm Hf Hfm.
  pose proof (lookup_fresh_ne _ _ _ Hsm) as Hne_s.
  pose proof (lookup_fresh_ne _ _ _ Hfm) as Hne_f.
  unfold merge, bind, get_field, get_mesh, get_array, deref, new_mesh, put_mesh,
    raise, lift, new_array, put_field.
  rewrite Hs, Hsm.
  repeat first
    [ progress cbn [meshes arrays fields files]
    | rewrite Hf | rewrite Hfm | rewrite Hsm | rewrite Hs
    | rewrite lookup_insert_eq
    | rewrite lookup_insert_ne by assumption
    | rewrite insert_insert_eq ].
  destruct (negb (fieldType s =? fieldType f)); [reflexivity|].
  repeat first
    [ progress cbn [meshes arrays fields files]
    | rewrite Hsm | rewrite Hfm
    | rewrite lookup_insert_eq
    | rewrite lookup_insert_ne by assumption ].
  destruct (arrays st !! values s) as [sv|]; [|reflexivity].
  repeat first
    [ progress cbn [meshes arrays fields files]
    | rewrite Hsm | rewrite Hfm
    | rewrite lookup_insert_ne by assumption ].
  destruct (arrays st !! values f) as [fv|]; [|reflexivity].
  destruct (merged_values (fieldType s) (Mesh_merge sm fm) sm fm sv fv);
    [|reflexivity].
  cbn [meshes arrays fields files]. rewrite Hs. reflexivity.
Qed.
End MergeRun.

(** ** Merge: the type check and the frame *)

Section MergeFrame.
Context `{MA : MeshAdapter}.

(** C7: when the field types of the receiver and of the argument
    differ, [merge] raises [TypeError]; when they are equal, [merge]
    does not raise [TypeError]. *)
Theorem merge_TypeError_iff
    (st : state) (self field : loc) (s f : Field) (sm fm : Mesh) :
  fields st !! self = Some s ->
  meshes st !! mesh s = Some sm ->
  fields st !! field = Some f ->
  meshes st !! mesh f = Some fm ->
  (fieldType s <> fieldType f ->
   fst (merge self field st)
   = Raise (TypeError "Field::merge: fieldType of receiver and parameter is different"))
  /\ (fieldType s = fieldType f ->
      forall msg, fst (merge self field st) <> Raise (TypeError msg)).
Proof.
  intros Hs Hsm Hf Hfm. rewrite (merge_run st self field s f sm fm) by assumption.
  split.
  - intros Hne. destruct (Z.eqb_spec (fieldType s) (fieldType f)); [contradiction|].
    reflexivity.
  - intros Heq msg. rewrite Heq, Z.eqb_refl. simpl negb. cbv iota.
    destruct (arrays st !! values s) as [sv|]; [|discriminate].
    destruct (arrays st !! values f) as [fv|]; [|discriminate].
    destruct (merged_values (fieldType f) (Mesh_merge sm fm) sm fm sv fv)
      as [vals|e] eqn:Hmv; [discriminate|].
    apply merged_values_exn in Hmv. subst e. discriminate.
Qed.

(** C10: a merge that raises on differing field types leaves the
    receiver as it was: the field objects and the value arrays of the
    store are unchanged, so the receiver still refers to the same mesh
    and the same value array, and every mesh object of the store,
    the receiver's among them, has its content. *)
Theorem merge_TypeError_atomic
    (st : state) (self field : loc) (s f : Field) (sm fm : Mesh) :
  fields st !! self = Some s ->
  meshes st !! mesh s = Some sm ->
  fields st !! field = Some f ->
  meshes st !! mesh f = Some fm ->
  fieldType s <> fieldType f ->
  fields (snd (merge self field st)) !! self = Some s
  /\ meshes (snd (merge self field st)) !! mesh s = Some sm
  /\ arrays (snd (merge self field st)) !! values s = arrays st !! values s
  /\ fields (snd (merge self field st)) = fields st
  /\ arrays (snd (merge self field st)) = arrays st
  /\ (forall l m, meshes st !! l = Some m ->
        meshes (snd (merge self field st)) !! l = Some m).
Proof.
  intros Hs Hsm Hf Hfm Hne.
  rewrite (merge_run st self field s f sm fm) by assumption.
  destruct (Z.eqb_spec (fieldType s) (fieldType f)); [contradiction|].
  simpl. repeat split; try assumption.
  - rewrite lookup_insert_ne; [assumption|]. eapply lookup_fresh_ne; eassumption.
  - intros l m Hl. rewrite lookup_insert_ne; [assumption|].
    eapply lookup_fresh_ne; eassumption.
Qed.

Lemma with_union_meshes st sm fm l m :
  meshes st !! l = Some m -> meshes (with_union st sm fm) !! l = Some m.
Proof.
  intros Hl. simpl. rewrite lookup_insert_ne; [assumption|].
  eapply lookup_fresh_ne; eassumption.
Qed.

Lemma merged_meshes st self s sm fm vals l m :
  meshes st !! l = Some m -> meshes (merged st self s sm fm vals) !! l = Some m.
Proof.
  intros Hl. simpl. rewrite lookup_insert_ne; [assumption|].
  eapply lookup_fresh_ne; eassumption.
Qed.

Lemma merged_arrays st self s sm fm vals l a :
  arrays st !! l = Some a -> arrays (merged st self s sm fm vals) !! l = Some a.
Proof.
  intros Hl. simpl. rewrite lookup_insert_ne; [assumption|].
  eapply lookup_fresh_ne; eassumption.
Qed.

(** Whatever its outcome, [merge] changes no mesh object and no value
    array that the store holds, and no field object but the receiver. *)
Lemma merge_frame
    (st : state) (self field : loc) (s f : Field) (sm fm : Mesh) :
  fields st !! self = Some s ->
  meshes st !! mesh s = Some sm ->
  fields st !! field = Some f ->
  meshes st !! mesh f = Some fm ->
  (forall l m, meshes st !! l = Some m ->
     meshes (snd (merge self field st)) !! l = Some m)
  /\ (forall l a, arrays st !! l = Some a ->
        arrays (snd (merge self field st)) !! l = Some a)
  /\ (forall l, l <> self ->
        fields (snd (merge self field st)) !! l = fields st !! l).
Proof.
  intros Hs Hsm Hf Hfm.
  rewrite (merge_run st self field s f sm fm) by assumption.
  destruct (negb (fieldType s =? fieldType f)).
  { simpl snd. repeat split; auto using with_union_meshes. }
  destruct (arrays st !! values s) as [sv|];
    [|simpl snd; repeat split; auto using with_union_meshes].
  destruct (arrays st !! values f) as [fv|];
    [|simpl snd; repeat split; auto using with_union_meshes].
  destruct (merged_values (fieldType s) (Mesh_merge sm fm) sm fm sv fv) as [vals|e];
    [|simpl snd; repeat split; auto using with_union_meshes].
  simpl snd. repeat split; auto using merged_meshes, merged_arrays.
  intros l Hl. simpl. now rewrite lookup_insert_ne by congruence.
Qed.

(** C9: [merge] leaves its argument as it was.  After the call,
    whatever its outcome, the mesh object and the value array that the
    argument refers to have the content they had, and so has the mesh
    object that the receiver referred to before the call (the union is
    built on a copy).  The argument field itself keeps all its
    attributes unless it is the receiver. *)
Theorem merge_leaves_argument
    (st : state) (self field : loc) (s f : Field) (sm fm : Mesh) (fv : list item) :
  fields st !! self = Some s ->
  meshes st !! mesh s = Some sm ->
  fields st !! field = Some f ->
  meshes st !! mesh f = Some fm ->
  arrays st !! values f = Some fv ->
  meshes (snd (merge self field st)) !! mesh f = Some fm
  /\ arrays (snd (merge self field st)) !! values f = Some fv
  /\ meshes (snd (merge self field st)) !! mesh s = Some sm
  /\ (field <> self -> fields (snd (merge self field st)) !! field = Some f).
Proof.
  intros Hs Hsm Hf Hfm Hfv.
  destruct (merge_frame st self field s f sm fm Hs Hsm Hf Hfm) as (Hm & Ha & Hfl).
  repeat split; auto.
  intros Hne. now rewrite Hfl.
Qed.
End MergeFrame.

Lemma merge_TypeError_iff_witness :
  (fieldType (Examples.receiver 1) <> fieldType (Examples.argument 2) ->
   fst (@merge ListMeshAdapter 1%positive 2%positive (Examples.twoFields 1 2))
   = Raise (TypeError "Field::merge: fieldType of receiver and parameter is different"))
  /\ (fieldType (Examples.receiver 1) = fieldType (Examples.argument 2) ->
      forall msg,
        fst (@merge ListMeshAdapter 1%positive 2%positive (Examples.twoFields 1 2))
        <> Raise (TypeError msg)).
Proof.
  apply (@merge_TypeError_iff ListMeshAdapter (Examples.twoFields 1 2)
           1%positive 2%positive (Examples.receiver 1) (Examples.argument 2)
           Examples.leftPart Examples.rightPart); reflexivity.
Defined.

Lemma merge_TypeError_atomic_witness :
  fields (snd (@merge ListMeshAdapter 1%positive 2%positive (Examples.twoFields 1 2)))
    !! 1%positive = Some (Examples.receiver 1)
  /\ meshes (snd (@merge ListMeshAdapter 1%positive 2%positive (Examples.twoFields 1 2)))
       !! mesh (Examples.receiver 1) = Some Examples.leftPart
  /\ arrays (snd (@merge ListMeshAdapter 1%positive 2%positive (Examples.twoFields 1 2)))
       !! values (Examples.receiver 1)
     = arrays (Examples.twoFields 1 2) !! values (Examples.receiver 1)
  /\ fields (snd (@merge ListMeshAdapter 1%positive 2%positive (Examples.twoFields 1 2)))
     = fields (Examples.twoFields 1 2)
  /\ arrays (snd (@merge ListMeshAdapter 1%positive 2%positive (Examples.twoFields 1 2)))
     = arrays (Examples.twoFields 1 2)
  /\ (forall l m, meshes (Examples.twoFields 1 2) !! l = Some m ->
        meshes (snd (@merge ListMeshAdapter 1%positive 2%positive
                       (Examples.twoFields 1 2))) !! l = Some m).
Proof.
  apply (@merge_TypeError_atomic ListMeshAdapter (Examples.twoFields 1 2)
           1%positive 2%positive (Examples.receiver 1) (Examples.argument 2)
           Examples.leftPart Examples.rightPart); try reflexivity.
  simpl. lia.
Defined.

Lemma merge_leaves_argument_witness :
  meshes (snd (@merge ListMeshAdapter 1%positive 2%positive (Examples.twoFields 1 1)))
    !! mesh (Examples.argument 1) = Some Examples.rightPart
  /\ arrays (snd (@merge ListMeshAdapter 1%positive 2%positive (Examples.twoFields 1 1)))
       !! values (Examples.argument 1) = Some (Examples.rightValues 1)
  /\ meshes (snd (@merge ListMeshAdapter 1%positive 2%positive (Examples.twoFields 1 1)))
       !! mesh (Examples.receiver 1) = Some Examples.leftPart
  /\ (2%positive <> 1%positive ->
      fields (snd (@merge ListMeshAdapter 1%positive 2%positive (Examples.twoFields 1 1)))
        !! 2%positive = Some (Examples.argument 1)).
Proof.
  apply (@merge_leaves_argument ListMeshAdapter (Examples.twoFields 1 1)
           1%positive 2%positive (Examples.receiver 1) (Examples.argument 1)
           Examples.leftPart Examples.rightPart (Examples.rightValues 1)); reflexivity.
Defined.

(** ** Merge: the order of the writes *)

Section MergeValues.
Context `{MA : MeshAdapter}.

Lemma py_index_in_range {A} (l : list A) (i : Z) :
  0 <= i < Z.of_nat (length l) -> py_index l i = Some (Z.to_nat i).
Proof.
  intros [H0 H1]. unfold py_index.
  destruct (Z.leb_spec 0 i); [|lia]. destruct (Z.ltb_spec i (Z.of_nat (length l))); [|lia].
  reflexivity.
Qed.

Lemma getitem_in_range {A} (l : list A) (v : nat) :
  (v < length l)%nat -> exists x, l !! v = Some x /\ getitem l (Z.of_nat v) = Return x.
Proof.
  intros Hv. destruct (lookup_lt_is_Some_2 l v Hv) as [x Hx].
  exists x. split; [assumption|]. unfold getitem.
  rewrite py_index_in_range by lia. now rewrite Nat2Z.id, Hx.
Qed.

(** One loop of [merge].  When every source index is in range and
    every target number is in range, the loop returns; the array keeps
    its length; an entry that no target number names is kept; and when
    the target numbers of the loop are pairwise different, every entry
    that the loop names holds the source value. *)
Lemma copy_values_spec l2n lab (src : list item) (range : list nat) :
  forall values : list item,
    Forall (fun v => (v < length src)%nat
                     /\ 0 <= l2n (lab v) < Z.of_nat (length values)) range ->
    exists values',
      copy_values l2n lab src range values = Return values'
      /\ length values' = length values
      /\ (forall k, Forall (fun v => Z.to_nat (l2n (lab v)) <> k) range ->
            values' !! k = values !! k)
      /\ (NoDup range ->
          (forall v w, v ∈ range -> w ∈ range -> l2n (lab v) = l2n (lab w) -> v = w) ->
          forall v, v ∈ range -> values' !! Z.to_nat (l2n (lab v)) = src !! v).
Proof.
  induction range as [|v0 range IH]; intros values Hr.
  - exists values. repeat split; try reflexivity.
    intros _ _ v Hv. inversion Hv.
  - apply Forall_cons in Hr as [[Hv0 Hk0] Hr]. simpl.
    destruct (getitem_in_range src v0 Hv0) as (x & Hx & ->). simpl.
    unfold setitem. rewrite py_index_in_range by assumption. simpl.
    destruct (IH (<[Z.to_nat (l2n (lab v0)) := x]> values)) as (values' & Hrun & Hlen & Hkeep & Hset).
    { rewrite length_insert. exact Hr. }
    exists values'. split; [exact Hrun|]. split; [now rewrite Hlen, length_insert|].
    split.
    + intros k Hk. apply Forall_cons in Hk as [Hk0' Hk].
      rewrite Hkeep by assumption. now rewrite list_lookup_insert_ne.
    + intros Hnd Hinj v Hv. apply NoDup_cons in Hnd as [Hnotin Hnd].
      apply elem_of_cons in Hv as [->|Hv].
      * rewrite Hkeep.
        -- rewrite list_lookup_insert_eq by lia. now rewrite Hx.
        -- apply Forall_forall. intros w Hw Heq.
           assert (w = v0); [|subst; contradiction].
           destruct (proj1 (Forall_forall _ _) Hr w Hw) as [_ Hkw].
           apply Hinj; [now right | now left | lia].
      * apply Hset; [assumption| |assumption].
        intros a b Ha Hb. apply Hinj; now right.
Qed.
End MergeValues.

Section MergeOrder.
Context `{MA : MeshAdapter}.

(** Both branches of lines 311-322 are the same two loops over the
    accessors of the field type. *)
Lemma merged_values_loops ftype m sm fm sv fv :
  merged_values ftype m sm fm sv fv =
    (values <- copy_values (label2Number ftype m) (entityLabel ftype sm) sv
                 (seq 0 (entityCount ftype sm))
                 (replicate (entityCount ftype m) (Int 0)) ;;
     copy_values (label2Number ftype m) (entityLabel ftype fm) fv
       (seq 0 (entityCount ftype fm)) values)%result.
Proof.
  unfold merged_values, label2Number, entityLabel, entityCount.
  destruct (ftype =? FieldType.FT_vertexBased); reflexivity.
Qed.

Lemma hasLabel_intro ftype m v :
  (v < entityCount ftype m)%nat -> hasLabel ftype m (entityLabel ftype m v).
Proof. intros Hv. exists v. auto. Qed.

(** The union value array: the argument's value sits at every label of
    the argument, the receiver's value at the labels of the receiver
    that the argument does not have. *)
Lemma merged_values_spec ftype (u sm fm : Mesh) (sv fv : list item) :
  unionNumbering ftype u sm fm ->
  distinctLabels ftype sm ->
  distinctLabels ftype fm ->
  (entityCount ftype sm <= length sv)%nat ->
  (entityCount ftype fm <= length fv)%nat ->
  exists vals,
    merged_values ftype u sm fm sv fv = Return vals
    /\ length vals = entityCount ftype u
    /\ (forall w, (w < entityCount ftype fm)%nat ->
          vals !! Z.to_nat (label2Number ftype u (entityLabel ftype fm w)) = fv !! w)
    /\ (forall v, (v < entityCount ftype sm)%nat ->
          ~ hasLabel ftype fm (entityLabel ftype sm v) ->
          vals !! Z.to_nat (label2Number ftype u (entityLabel ftype sm v)) = sv !! v).
Proof.
  intros [Hrange Hinj] Hds Hdf Hls Hlf. rewrite merged_values_loops.
  destruct (copy_values_spec (label2Number ftype u) (entityLabel ftype sm) sv
              (seq 0 (entityCount ftype sm))
              (replicate (entityCount ftype u) (Int 0)))
    as (values1 & Hrun1 & Hlen1 & _ & Hset1).
  { apply Forall_forall. intros v Hv. apply elem_of_seq in Hv.
    rewrite length_replicate. split; [lia|].
    apply Hrange. left. apply hasLabel_intro. lia. }
  rewrite length_replicate in Hlen1.
  destruct (copy_values_spec (label2Number ftype u) (entityLabel ftype fm) fv
              (seq 0 (entityCount ftype fm)) values1)
    as (values2 & Hrun2 & Hlen2 & Hkeep2 & Hset2).
  { apply Forall_forall. intros w Hw. apply elem_of_seq in Hw.
    rewrite Hlen1. split; [lia|].
    apply Hrange. right. apply hasLabel_intro. lia. }
  exists values2. rewrite Hrun1. simpl. split; [exact Hrun2|].
  split; [congruence|]. split.
  - intros w Hw. apply Hset2.
    + apply NoDup_seq.
    + intros a b Ha Hb Heq. apply elem_of_seq in Ha, Hb.
      apply Hdf; [lia|lia|].
      apply Hinj; [right|right|exact Heq]; apply hasLabel_intro; lia.
    + apply elem_of_seq. lia.
  - intros v Hv Hnot. rewrite Hkeep2.
    + apply Hset1.
      * apply NoDup_seq.
      * intros a b Ha Hb Heq. apply elem_of_seq in Ha, Hb.
        apply Hds; [lia|lia|].
        apply Hinj; [left|left|exact Heq]; apply hasLabel_intro; lia.
      * apply elem_of_seq. lia.
    + apply Forall_forall. intros w Hw Heq. apply elem_of_seq in Hw.
      apply Hnot. exists w. split; [lia|].
      assert (Hw' : hasLabel ftype fm (entityLabel ftype fm w))
        by (apply hasLabel_intro; lia).
      assert (Hv' : hasLabel ftype sm (entityLabel ftype sm v))
        by (apply hasLabel_intro; lia).
      apply Hinj; [now right | now left |].
      pose proof (Hrange _ (or_intror Hw')). pose proof (Hrange _ (or_introl Hv')).
      lia.
Qed.

(** C5: in a merge of two fields of one field type the receiver's
    values are written first and the argument's second.  The merged
    field holds, at the number of every label of the argument, the
    argument's value, also where the receiver has the label too; at the
    labels that only the receiver has it holds the receiver's value. *)
Theorem merge_last_writer_wins
    (st : state) (self field : loc) (s f : Field) (sm fm : Mesh)
    (sv fv : list item) :
  fields st !! self = Some s ->
  meshes st !! mesh s = Some sm ->
  fields st !! field = Some f ->
  meshes st !! mesh f = Some fm ->
  arrays st !! values s = Some sv ->
  arrays st !! values f = Some fv ->
  fieldType s = fieldType f ->
  unionNumbering (fieldType s) (Mesh_merge sm fm) sm fm ->
  distinctLabels (fieldType s) sm ->
  distinctLabels (fieldType s) fm ->
  (entityCount (fieldType s) sm <= length sv)%nat ->
  (entityCount (fieldType s) fm <= length fv)%nat ->
  fst (merge self field st) = Return tt
  /\ exists s' vals,
       fields (snd (merge self field st)) !! self = Some s'
       /\ meshes (snd (merge self field st)) !! mesh s' = Some (Mesh_merge sm fm)
       /\ arrays (snd (merge self field st)) !! values s' = Some vals
       /\ (forall v w,
             (v < entityCount (fieldType s) sm)%nat ->
             (w < entityCount (fieldType s) fm)%nat ->
             entityLabel (fieldType s) sm v = entityLabel (fieldType s) fm w ->
             vals !! Z.to_nat (label2Number (fieldType s) (Mesh_merge sm fm)
                                 (entityLabel (fieldType s) sm v))
             = fv !! w)
       /\ (forall w,
             (w < entityCount (fieldType s) fm)%nat ->
             vals !! Z.to_nat (label2Number (fieldType s) (Mesh_merge sm fm)
                                 (entityLabel (fieldType s) fm w))
             = fv !! w)
       /\ (forall v,
             (v < entityCount (fieldType s) sm)%nat ->
             ~ hasLabel (fieldType s) fm (entityLabel (fieldType s) sm v) ->
             vals !! Z.to_nat (label2Number (fieldType s) (Mesh_merge sm fm)
                                 (entityLabel (fieldType s) sm v))
             = sv !! v).
Proof.
  intros Hs Hsm Hf Hfm Hsv Hfv Heq Hu Hds Hdf Hls Hlf.
  rewrite (merge_run st self field s f sm fm) by assumption.
  rewrite <- Heq, Z.eqb_refl, Hsv, Hfv. simpl negb. cbv iota.
  destruct (merged_values_spec (fieldType s) (Mesh_merge sm fm) sm fm sv fv
              Hu Hds Hdf Hls Hlf) as (vals & -> & Hlen & Harg & Hrecv).
  split; [reflexivity|].
  eexists _, vals. simpl snd. unfold merged. cbn [fields meshes arrays].
  split; [apply lookup_insert_eq|]. cbn [mesh values].
  split; [apply lookup_insert_eq|].
  split; [apply lookup_insert_eq|].
  split; [|split; assumption].
  intros v w Hv Hw Hvw. rewrite Hvw. now apply Harg.
Qed.
End MergeOrder.

(** ** The list mesh numbers its unions as [merge] needs *)

Section ListMeshNumbering.
Lemma label2Number_member (labels : list Z) (l : Z) :
  l ∈ labels ->
  0 <= ListMesh.label2Number labels l < Z.of_nat (length labels)
  /\ labels !! Z.to_nat (ListMesh.label2Number labels l) = Some l.
Proof.
  induction labels as [|l' labels IH]; intros Hl; [inversion Hl|].
  simpl ListMesh.label2Number. destruct (Z.eqb_spec l' l) as [->|Hne].
  - simpl. split; [lia|reflexivity].
  - apply elem_of_cons in Hl as [Hl|Hl]; [congruence|].
    destruct (IH Hl) as [Hr Hk]. simpl length. split; [lia|].
    replace (Z.to_nat (1 + ListMesh.label2Number labels l))
      with (S (Z.to_nat (ListMesh.label2Number labels l))) by lia.
    exact Hk.
Qed.

Lemma hasLabel_member (labels : list Z) (l : Z) :
  ListMesh.hasLabel labels l = true <-> l ∈ labels.
Proof.
  unfold ListMesh.hasLabel. rewrite existsb_exists. split.
  - intros (x & Hx & Heq). apply Z.eqb_eq in Heq. subst x.
    now apply list_elem_of_In.
  - intros Hl. exists l. split; [now apply list_elem_of_In | apply Z.eqb_refl].
Qed.

Lemma mergeVertices_labels (others vs : list Vertex.t) (l : Z) :
  l ∈ map Vertex.label vs \/ l ∈ map Vertex.label others ->
  l ∈ map Vertex.label (ListMesh.mergeVertices vs others).
Proof.
  revert vs. induction others as [|v others IH]; intros vs [Hl|Hl]; simpl.
  - assumption.
  - inversion Hl.
  - destruct (ListMesh.hasLabel (map Vertex.label vs) (Vertex.label v));
      apply IH; left; [assumption|].
    rewrite map_app. apply elem_of_app. now left.
  - simpl in Hl. apply elem_of_cons in Hl as [->|Hl].
    + destruct (ListMesh.hasLabel (map Vertex.label vs) (Vertex.label v)) eqn:Hh;
        apply IH; left.
      * now apply hasLabel_member.
      * rewrite map_app. apply elem_of_app. right. simpl. apply list_elem_of_singleton.
        reflexivity.
    + destruct (ListMesh.hasLabel (map Vertex.label vs) (Vertex.label v));
        apply IH; now right.
Qed.

Lemma mergeCells_labels (vs : list Vertex.t) (others cs : list (BBox.t * Cell.t))
    (l : Z) :
  l ∈ map (fun c => Cell.label (snd c)) cs
  \/ l ∈ map (fun c => Cell.label (snd c)) others ->
  l ∈ map (fun c => Cell.label (snd c)) (ListMesh.mergeCells vs cs others).
Proof.
  revert cs. induction others as [|[box c] others IH]; intros cs [Hl|Hl]; simpl.
  - assumption.
  - inversion Hl.
  - destruct (ListMesh.hasLabel (map (fun c0 => Cell.label (snd c0)) cs) (Cell.label c));
      apply IH; left; [assumption|].
    rewrite map_app. apply elem_of_app. now left.
  - simpl in Hl. apply elem_of_cons in Hl as [->|Hl].
    + destruct (ListMesh.hasLabel (map (fun c0 => Cell.label (snd c0)) cs) (Cell.label c))
        eqn:Hh; apply IH; left.
      * now apply hasLabel_member.
      * rewrite map_app. apply elem_of_app. right. simpl. apply list_elem_of_singleton.
        reflexivity.
    + destruct (ListMesh.hasLabel (map (fun c0 => Cell.label (snd c0)) cs) (Cell.label c));
        apply IH; now right.
Qed.

Lemma ListMesh_entityCount ftype (m : ListMesh.t) :
  @entityCount ListMeshAdapter ftype m = length (ListMesh.labels ftype m).
Proof.
  unfold entityCount, ListMesh.labels, ListMesh.vertexLabels, ListMesh.cellLabels.
  destruct (ftype =? FieldType.FT_vertexBased); simpl; now rewrite length_map.
Qed.

Lemma ListMesh_entityLabel ftype (m : ListMesh.t) (v : nat) :
  (v < length (ListMesh.labels ftype m))%nat ->
  ListMesh.labels ftype m !! v = Some (@entityLabel ListMeshAdapter ftype m v).
Proof.
  unfold entityLabel, ListMesh.labels, ListMesh.vertexLabels, ListMesh.cellLabels.
  destruct (ftype =? FieldType.FT_vertexBased); simpl; rewrite length_map; intros Hv.
  - unfold ListMesh.getVertex. rewrite list_lookup_fmap.
    destruct (lookup_lt_is_Some_2 _ _ Hv) as [x Hx]. rewrite Hx. simpl.
    now rewrite (nth_lookup_Some _ _ _ _ Hx).
  - unfold ListMesh.giveCell. rewrite list_lookup_fmap.
    destruct (lookup_lt_is_Some_2 _ _ Hv) as [x Hx]. rewrite Hx. simpl.
    assert (Hx' : map snd (ListMesh.cellList m) !! v = Some (snd x))
      by (now rewrite list_lookup_fmap, Hx).
    now rewrite (nth_lookup_Some _ _ _ _ Hx').
Qed.

Lemma ListMesh_hasLabel ftype (m : ListMesh.t) (l : Z) :
  @hasLabel ListMeshAdapter ftype m l -> l ∈ ListMesh.labels ftype m.
Proof.
  intros (v & Hv & <-). rewrite ListMesh_entityCount in Hv.
  apply list_elem_of_lookup. exists v. now apply ListMesh_entityLabel.
Qed.

Lemma ListMesh_merge_labels ftype (a b : ListMesh.t) (l : Z) :
  l ∈ ListMesh.labels ftype a \/ l ∈ ListMesh.labels ftype b ->
  l ∈ ListMesh.labels ftype (ListMesh.merge a b).
Proof.
  unfold ListMesh.labels, ListMesh.vertexLabels, ListMesh.cellLabels, ListMesh.merge.
  destruct (ftype =? FieldType.FT_vertexBased); simpl.
  - apply mergeVertices_labels.
  - apply mergeCells_labels.
Qed.

(** The union built by the list mesh numbers the labels of both
    meshes, different labels differently. *)
Lemma ListMesh_unionNumbering ftype (a b : ListMesh.t) :
  @unionNumbering ListMeshAdapter ftype (ListMesh.merge a b) a b.
Proof.
  assert (Hin : forall l, @hasLabel ListMeshAdapter ftype a l
                          \/ @hasLabel ListMeshAdapter ftype b l ->
                          l ∈ ListMesh.labels ftype (ListMesh.merge a b)).
  { intros l [Hl|Hl]; apply ListMesh_merge_labels; [left|right];
      now apply ListMesh_hasLabel. }
  assert (Hnum : forall l, @label2Number ListMeshAdapter ftype (ListMesh.merge a b) l
                 = ListMesh.label2Number (ListMesh.labels ftype (ListMesh.merge a b)) l).
  { intros l. unfold label2Number, ListMesh.labels.
    destruct (ftype =? FieldType.FT_vertexBased); reflexivity. }
  split.
  - intros l Hl. rewrite Hnum, ListMesh_entityCount.
    now apply label2Number_member, Hin.
  - intros l l' Hl Hl' Heq. rewrite !Hnum in Heq.
    destruct (label2Number_member _ _ (Hin l Hl)) as [_ H1].
    destruct (label2Number_member _ _ (Hin l' Hl')) as [_ H2].
    rewrite Heq in H1. congruence.
Qed.

Lemma ListMesh_distinctLabels ftype (m : ListMesh.t) :
  NoDup (ListMesh.labels ftype m) -> @distinctLabels ListMeshAdapter ftype m.
Proof.
  intros Hnd v w Hv Hw Heq. rewrite ListMesh_entityCount in Hv, Hw.
  apply (NoDup_lookup _ _ _ _ Hnd (ListMesh_entityLabel ftype m v Hv)).
  rewrite Heq. now apply ListMesh_entityLabel.
Qed.
End ListMeshNumbering.

Lemma merge_last_writer_wins_witness :
  fst (@merge ListMeshAdapter 1%positive 2%positive (Examples.twoFields 1 1)) = Return tt
  /\ exists s' vals,
       fields (snd (@merge ListMeshAdapter 1%positive 2%positive (Examples.twoFields 1 1)))
         !! 1%positive = Some s'
       /\ meshes (snd (@merge ListMeshAdapter 1%positive 2%positive (Examples.twoFields 1 1)))
            !! mesh s' = Some (ListMesh.merge Examples.leftPart Examples.rightPart)
       /\ arrays (snd (@merge ListMeshAdapter 1%positive 2%positive (Examples.twoFields 1 1)))
            !! values s' = Some vals
       /\ (forall v w,
             (v < @entityCount ListMeshAdapter 1 Examples.leftPart)%nat ->
             (w < @entityCount ListMeshAdapter 1 Examples.rightPart)%nat ->
             @entityLabel ListMeshAdapter 1 Examples.leftPart v
             = @entityLabel ListMeshAdapter 1 Examples.rightPart w ->
             vals !! Z.to_nat
                       (@label2Number ListMeshAdapter 1
                          (ListMesh.merge Examples.leftPart Examples.rightPart)
                          (@entityLabel ListMeshAdapter 1 Examples.leftPart v))
             = Examples.rightValues 1 !! w)
       /\ (forall w,
             (w < @entityCount ListMeshAdapter 1 Examples.rightPart)%nat ->
             vals !! Z.to_nat
                       (@label2Number ListMeshAdapter 1
                          (ListMesh.merge Examples.leftPart Examples.rightPart)
                          (@entityLabel ListMeshAdapter 1 Examples.rightPart w))
             = Examples.rightValues 1 !! w)
       /\ (forall v,
             (v < @entityCount ListMeshAdapter 1 Examples.leftPart)%nat ->
             ~ @hasLabel ListMeshAdapter 1 Examples.rightPart
                 (@entityLabel ListMeshAdapter 1 Examples.leftPart v) ->
             vals !! Z.to_nat
                       (@label2Number ListMeshAdapter 1
                          (ListMesh.merge Examples.leftPart Examples.rightPart)
                          (@entityLabel ListMeshAdapter 1 Examples.leftPart v))
             = Examples.leftValues 1 !! v).
Proof.
  apply (@merge_last_writer_wins ListMeshAdapter (Examples.twoFields 1 1)
           1%positive 2%positive (Examples.receiver 1) (Examples.argument 1)
           Examples.leftPart Examples.rightPart
           (Examples.leftValues 1) (Examples.rightValues 1));
    try reflexivity.
  - apply ListMesh_unionNumbering.
  - apply ListMesh_distinctLabels. apply (bool_decide_unpack _). vm_compute. exact I.
  - apply ListMesh_distinctLabels. apply (bool_decide_unpack _). vm_compute. exact I.
Defined.


(** ** HDF5: the search for an unused name *)

Section LowestUnused.
Context {A : Type} (trsf : Z -> string).
Hypothesis trsf_inj : forall i j, trsf i = trsf j -> i = j.

Lemma lowestUnused_form fuel predicate start :
  exists j, start <= j /\ lowestUnused fuel trsf predicate start = trsf j.
Proof.
  revert start. induction fuel as [|fuel IH]; intros start; simpl.
  - exists start. split; [lia|reflexivity].
  - destruct (negb (predicate (trsf start))).
    + exists start. split; [lia|reflexivity].
    + destruct (IH (start + 1)) as (j & Hj & ->). exists j. split; [lia|reflexivity].
Qed.

Lemma lowestUnused_ext fuel p p' start :
  (forall j, start <= j -> p (trsf j) = p' (trsf j)) ->
  lowestUnused fuel trsf p start = lowestUnused fuel trsf p' start.
Proof.
  revert start. induction fuel as [|fuel IH]; intros start Hp; simpl; [reflexivity|].
  rewrite <- (Hp start) by lia. destruct (negb (p (trsf start))); [reflexivity|].
  apply IH. intros j Hj. apply Hp. lia.
Qed.

(** With as many rounds as the group has members, the search ends on a
    name that is not in the group: the bound of the model is never what
    stops the loop of [lowestUnused]. *)
Lemma lowestUnused_unused (fuel : nat) :
  forall (g : gmap string A) (start : Z),
    (size g <= fuel)%nat ->
    contains g (lowestUnused fuel trsf (contains g) start) = false.
Proof.
  induction fuel as [|fuel IH]; intros g start Hsize.
  - assert (g = ∅) as -> by (apply map_size_empty_inv; lia). reflexivity.
  - simpl. destruct (contains g (trsf start)) eqn:Hin; simpl; [|exact Hin].
    assert (Hdel : forall j, start + 1 <= j ->
              contains g (trsf j) = contains (delete (trsf start) g) (trsf j)).
    { intros j Hj. unfold contains. rewrite lookup_delete_ne; [reflexivity|].
      intros Heq. apply trsf_inj in Heq. lia. }
    rewrite (lowestUnused_ext fuel _ _ (start + 1) Hdel).
    destruct (lowestUnused_form fuel (contains (delete (trsf start) g)) (start + 1))
      as (j & Hj & Hres).
    rewrite Hres, (Hdel j Hj), <- Hres. apply IH.
    unfold contains in Hin. apply bool_decide_eq_true in Hin.
    rewrite map_size_delete_Some by exact Hin. lia.
Qed.
End LowestUnused.

(** ** HDF5: storing a field and loading it back *)

(** C2: a vertex based scalar field with [fieldID] 7 and [time] 1/2 is
    stored and loaded back.  The loaded field has the values, the value
    type and the field type of the original, and its time is 7: [toHdf5]
    writes [self.fieldID] to the attribute [time].  A cell based field
    is stored, and loading it raises [AttributeError]: [makeFromHdf5]
    names the field type [FT_cellBase]. *)
Theorem hdf5_round_trip_loses_time :
  (fst (Examples.stored Examples.vertexField) = Return tt
   /\ fst (Examples.loaded Examples.vertexField) = Return [2%positive]
   /\ exists F,
        fields (snd (Examples.loaded Examples.vertexField)) !! 2%positive = Some F
        /\ arrays (snd (Examples.loaded Examples.vertexField)) !! values F
           = Some [Tuple [1%Q]; Tuple [4%Q]; Tuple [8%Q]]
        /\ valueType F = 1
        /\ fieldType F = FieldType.FT_vertexBased
        /\ time F = inject_Z 7
        /\ ~ (time F == time (Examples.field 1 FieldType.FT_vertexBased))%Q)
  /\ fst (Examples.stored Examples.cellField) = Return tt
  /\ fst (Examples.loaded Examples.cellField) = Raise (AttributeError "FT_cellBase").
Proof.
  split; [split; [|split]|split].
  - vm_compute. reflexivity.
  - vm_compute. reflexivity.
  - exists (mkField 2%positive 7 1 (inject_Z 7) None None 1 2%positive).
    split; [vm_compute; reflexivity|].
    split; [vm_compute; reflexivity|].
    repeat (split; [reflexivity|]).
    vm_compute. discriminate.
  - vm_compute. reflexivity.
  - vm_compute. reflexivity.
Qed.

(** * Further properties *)

(** ** Reading and writing single values *)

Section AccessProperties.
Context `{MA : MeshAdapter}.

Lemma py_index_Some_lt {A} (l : list A) (i : Z) (k : nat) :
  py_index l i = Some k -> (k < length l)%nat.
Proof.
  unfold py_index.
  destruct (Z.leb_spec 0 i), (Z.ltb_spec i (Z.of_nat (length l))); simpl;
    try (intros [= <-]; lia);
    destruct (Z.leb_spec (- Z.of_nat (length l)) i), (Z.ltb_spec i 0); simpl;
    try discriminate; intros [= <-]; lia.
Qed.

Lemma py_index_valid {A} (l : list A) (i : Z) :
  - Z.of_nat (length l) <= i < Z.of_nat (length l) ->
  exists k, py_index l i = Some k.
Proof.
  intros Hi. unfold py_index.
  destruct (Z.leb_spec 0 i), (Z.ltb_spec i (Z.of_nat (length l))); simpl; eauto; try lia.
  destruct (Z.leb_spec (- Z.of_nat (length l)) i), (Z.ltb_spec i 0); simpl; eauto; lia.
Qed.

Lemma py_index_invalid {A} (l : list A) (i : Z) :
  i < - Z.of_nat (length l) \/ Z.of_nat (length l) <= i -> py_index l i = None.
Proof.
  intros Hi. unfold py_index.
  destruct (Z.leb_spec 0 i), (Z.ltb_spec i (Z.of_nat (length l))); simpl; try lia;
    destruct (Z.leb_spec (- Z.of_nat (length l)) i), (Z.ltb_spec i 0); simpl;
    try reflexivity; lia.
Qed.

Lemma py_index_length {A} (l l' : list A) (i : Z) :
  length l = length l' -> py_index l i = py_index l' i.
Proof. unfold py_index. now intros ->. Qed.

Lemma getitem_position {A} (l : list A) (i : Z) (k : nat) :
  py_index l i = Some k ->
  getitem l i = match l !! k with Some x => Return x | None => Raise IndexError end.
Proof. unfold getitem. now intros ->. Qed.

(** How a call of [setValue] on a valid index runs. *)
Lemma setValue_run (st : state) (self : loc) (f : Field) (vals : list item)
    (i : Z) (k : nat) (v : item) :
  fields st !! self = Some f ->
  arrays st !! values f = Some vals ->
  py_index vals i = Some k ->
  setValue self i v st
  = (Return tt,
     mkState (meshes st) (<[values f := <[k := v]> vals]> (arrays st)) (fields st)
       (files st)).
Proof.
  intros Hf Hv Hk. unfold setValue, bind, get_field, get_array, deref, lift, put_array.
  rewrite Hf, Hv. unfold setitem. now rewrite Hk.
Qed.

Lemma giveValue_run (st : state) (self : loc) (f : Field) (vals : list item) (i : Z) :
  fields st !! self = Some f ->
  arrays st !! values f = Some vals ->
  giveValue self i st = (getitem vals i, st).
Proof.
  intros Hf Hv. unfold giveValue, bind, get_field, get_array, deref, lift.
  rewrite Hf, Hv. now destruct (getitem vals i).
Qed.

(** X1: a value written by [setValue] is what [giveValue] reads at the
    same position afterwards, through the field itself and through every
    field that refers to the same value array; the index may name the
    position from the front or, negative, from the end. *)
Theorem setValue_giveValue (st : state) (self other : loc) (f g : Field)
    (vals : list item) (i j : Z) (k : nat) (v : item) :
  fields st !! self = Some f ->
  fields st !! other = Some g ->
  values g = values f ->
  arrays st !! values f = Some vals ->
  py_index vals i = Some k ->
  py_index vals j = Some k ->
  fst (setValue self i v st) = Return tt
  /\ fst (giveValue other j (snd (setValue self i v st))) = Return v.
Proof.
  intros Hf Hg Hshare Hv Hi Hj.
  rewrite (setValue_run st self f vals i k v Hf Hv Hi). split; [reflexivity|].
  cbn [snd]. erewrite giveValue_run; [| exact Hg | rewrite Hshare; apply lookup_insert_eq].
  cbn [fst]. pose proof (py_index_Some_lt _ _ _ Hi) as Hk.
  rewrite (getitem_position _ j k).
  - now rewrite list_lookup_insert_eq.
  - rewrite <- Hj. apply py_index_length. apply length_insert.
Qed.

(** X2: [setValue] changes one position of one array.  The array keeps
    its length, and [giveValue] answers as before at every other
    position of that array and everywhere in the other arrays. *)
Theorem setValue_frame (st : state) (self other : loc) (f g : Field)
    (vals gvals : list item) (i j : Z) (k : nat) (v : item) :
  fields st !! self = Some f ->
  fields st !! other = Some g ->
  arrays st !! values f = Some vals ->
  arrays st !! values g = Some gvals ->
  py_index vals i = Some k ->
  values g <> values f \/ py_index gvals j <> Some k ->
  fst (giveValue other j (snd (setValue self i v st))) = fst (giveValue other j st)
  /\ (length <$> arrays (snd (setValue self i v st)) !! values f) = Some (length vals)
  /\ meshes (snd (setValue self i v st)) = meshes st
  /\ fields (snd (setValue self i v st)) = fields st.
Proof.
  intros Hf Hg Hv Hgv Hi Hother.
  rewrite (setValue_run st self f vals i k v Hf Hv Hi). cbn [snd meshes fields arrays].
  split; [|split; [|split; reflexivity]].
  - rewrite (giveValue_run st other g gvals j Hg Hgv). cbn [fst].
    destruct (decide (values g = values f)) as [Heq|Hne].
    + rewrite Heq in Hgv. assert (gvals = vals) as -> by congruence.
      erewrite giveValue_run; [| exact Hg | rewrite Heq; apply lookup_insert_eq].
      cbn [fst]. destruct Hother as [Hc|Hj]; [contradiction|].
      unfold getitem. rewrite (py_index_length (<[k := v]> vals) vals j (length_insert _ _ _)).
      destruct (py_index vals j) as [kj|]; [|reflexivity].
      rewrite list_lookup_insert_ne by congruence. reflexivity.
    + erewrite giveValue_run; [reflexivity | exact Hg |].
      cbn [arrays]. rewrite lookup_insert_ne by congruence. exact Hgv.
  - rewrite lookup_insert_eq. simpl. now rewrite length_insert.
Qed.

(** X3: an index outside [-len, len) makes [giveValue] and [setValue]
    raise [IndexError]; the store is as before. *)
Theorem setValue_giveValue_out_of_range (st : state) (self : loc) (f : Field)
    (vals : list item) (i : Z) (v : item) :
  fields st !! self = Some f ->
  arrays st !! values f = Some vals ->
  i < - Z.of_nat (length vals) \/ Z.of_nat (length vals) <= i ->
  setValue self i v st = (Raise IndexError, st)
  /\ giveValue self i st = (Raise IndexError, st).
Proof.
  intros Hf Hv Hi. apply py_index_invalid in Hi. split.
  - unfold setValue, bind, get_field, get_array, deref, lift.
    rewrite Hf, Hv. unfold setitem. now rewrite Hi.
  - rewrite (giveValue_run st self f vals i Hf Hv). unfold getitem. now rewrite Hi.
Qed.
End AccessProperties.

Lemma setValue_giveValue_witness :
  fst (@setValue ListMeshAdapter 1%positive (-1) (Tuple [9%Q]) (Examples.twoFields 1 1))
  = Return tt
  /\ fst (@giveValue ListMeshAdapter 1%positive 1
            (snd (@setValue ListMeshAdapter 1%positive (-1) (Tuple [9%Q])
                    (Examples.twoFields 1 1))))
     = Return (Tuple [9%Q]).
Proof.
  apply (@setValue_giveValue ListMeshAdapter (Examples.twoFields 1 1)
           1%positive 1%positive (Examples.receiver 1) (Examples.receiver 1)
           (Examples.leftValues 1) (-1) 1 1%nat (Tuple [9%Q])); reflexivity.
Defined.

Lemma setValue_frame_witness :
  fst (@giveValue ListMeshAdapter 2%positive 0
         (snd (@setValue ListMeshAdapter 1%positive 0 (Tuple [9%Q])
                 (Examples.twoFields 1 1))))
  = fst (@giveValue ListMeshAdapter 2%positive 0 (Examples.twoFields 1 1))
  /\ (length <$> arrays (snd (@setValue ListMeshAdapter 1%positive 0 (Tuple [9%Q])
                               (Examples.twoFields 1 1)))
                   !! values (Examples.receiver 1))
     = Some (length (Examples.leftValues 1))
  /\ meshes (snd (@setValue ListMeshAdapter 1%positive 0 (Tuple [9%Q])
                    (Examples.twoFields 1 1)))
     = meshes (Examples.twoFields 1 1)
  /\ fields (snd (@setValue ListMeshAdapter 1%positive 0 (Tuple [9%Q])
                    (Examples.twoFields 1 1)))
     = fields (Examples.twoFields 1 1).
Proof.
  apply (@setValue_frame ListMeshAdapter (Examples.twoFields 1 1)
           1%positive 2%positive (Examples.receiver 1) (Examples.argument 1)
           (Examples.leftValues 1) (Examples.rightValues 1) 0 0 0%nat (Tuple [9%Q]));
    try reflexivity.
  left. simpl. discriminate.
Defined.

Lemma setValue_giveValue_out_of_range_witness :
  @setValue ListMeshAdapter 1%positive 2 (Tuple [9%Q]) (Examples.twoFields 1 1)
  = (Raise IndexError, Examples.twoFields 1 1)
  /\ @giveValue ListMeshAdapter 1%positive 2 (Examples.twoFields 1 1)
     = (Raise IndexError, Examples.twoFields 1 1).
Proof.
  apply (@setValue_giveValue_out_of_range ListMeshAdapter (Examples.twoFields 1 1)
           1%positive (Examples.receiver 1) (Examples.leftValues 1) 2 (Tuple [9%Q]));
    try reflexivity.
  right. simpl. lia.
Defined.

(** ** Evaluation at a list of positions *)

Section EvaluateList.
Context `{MA : MeshAdapter}.

(** [_evaluate] reads the store and leaves it as it is. *)
Lemma _evaluate_store (st : state) (self : loc) (pos : position) (eps : Q) :
  snd (_evaluate self pos eps st) = st.
Proof.
  unfold _evaluate, bind, get_field, get_mesh, get_array, deref, lift.
  destruct (fields st !! self) as [f|]; [|reflexivity].
  destruct (meshes st !! mesh f) as [m|]; [|reflexivity].
  destruct (arrays st !! values f) as [vals|]; [|reflexivity].
  now destruct (evaluate_body m (fieldType f) vals pos eps).
Qed.

Lemma _evaluate_split (st : state) (self : loc) (pos : position) (eps : Q) :
  _evaluate self pos eps st = (fst (_evaluate self pos eps st), st).
Proof.
  rewrite <- (_evaluate_store st self pos eps) at 3. apply surjective_pairing.
Qed.

(** X4: for a list of positions [evaluate] answers with one value per
    position, in the order of the positions, each the value of
    [_evaluate] at that position. *)
Theorem evaluate_list_pointwise (st : state) (self : loc) (eps : Q)
    (ps : list position) (ans : list (option (list Q))) :
  Forall2 (fun p a => fst (_evaluate self p eps st) = Return a) ps ans ->
  evaluate self (ListOfPositions ps) eps st = (Return (ListOfAnswers ans), st)
  /\ length ans = length ps.
Proof.
  intros H. split; [|symmetry; eapply Forall2_length, H].
  unfold evaluate, bind.
  assert (He : evaluate_each self ps eps st = (Return ans, st)).
  { induction H as [|p a ps ans Hp _ IH]; [reflexivity|].
    simpl. unfold bind. rewrite (_evaluate_split st self p eps), Hp, IH. reflexivity. }
  now rewrite He.
Qed.

(** X5: when a position of the list fails, [evaluate] raises what
    [_evaluate] raises at the first such position; the answers for the
    positions before it are lost and the positions behind it are not
    evaluated. *)
Theorem evaluate_list_first_failure (st : state) (self : loc) (eps : Q)
    (pre post : list position) (p : position) (ans : list (option (list Q)))
    (e : exn) :
  Forall2 (fun p a => fst (_evaluate self p eps st) = Return a) pre ans ->
  fst (_evaluate self p eps st) = Raise e ->
  evaluate self (ListOfPositions (pre ++ p :: post)) eps st = (Raise e, st).
Proof.
  intros Hpre Hp. unfold evaluate, bind.
  assert (He : evaluate_each self (pre ++ p :: post) eps st = (Raise e, st)).
  { induction Hpre as [|q a pre ans Hq _ IH]; simpl; unfold bind.
    - now rewrite (_evaluate_split st self p eps), Hp.
    - rewrite (_evaluate_split st self q eps), Hq. now rewrite IH. }
  now rewrite He.
Qed.
End EvaluateList.

Lemma evaluate_list_pointwise_witness :
  @evaluate ListMeshAdapter 1%positive
    (ListOfPositions [[1 # 4; 1 # 4]; [9 # 10; 9 # 10]]) 0%Q
    (Examples.mkStore Examples.oneTriangle (Examples.field 1 FieldType.FT_cellBased)
       [Tuple [1%Q]])
  = (Return (ListOfAnswers [Some [1%Q]; None]),
     Examples.mkStore Examples.oneTriangle (Examples.field 1 FieldType.FT_cellBased)
       [Tuple [1%Q]])
  /\ length [Some [1%Q]; @None (list Q)] = length [[1 # 4; 1 # 4]; [9 # 10; 9 # 10]].
Proof.
  apply (@evaluate_list_pointwise ListMeshAdapter).
  repeat constructor.
Defined.

Lemma evaluate_list_first_failure_witness :
  @evaluate ListMeshAdapter 1%positive
    (ListOfPositions ([[1 # 4; 1 # 4]] ++ [2%Q; 2%Q] :: [[1 # 4; 1 # 4]])) 0%Q
    (Examples.mkStore Examples.oneTriangle (Examples.field 1 FieldType.FT_cellBased)
       [Tuple [1%Q]])
  = (Raise (ValueError "Field::evaluate - no source cell found for position"),
     Examples.mkStore Examples.oneTriangle (Examples.field 1 FieldType.FT_cellBased)
       [Tuple [1%Q]]).
Proof.
  apply (@evaluate_list_first_failure ListMeshAdapter _ _ _ _ _ _ [Some [1%Q]]).
  - repeat constructor.
  - reflexivity.
Defined.

(** ** Evaluation: errors and the mean of one-component values *)

Section EvaluateMore.
Context `{MA : MeshAdapter}.

Lemma getitem_invalid {A} (l : list A) (i : Z) :
  py_index l i = None -> getitem l i = Raise IndexError.
Proof. unfold getitem. now intros ->. Qed.

Lemma vertexValues_IndexError (vals : list item) (icell : Cell.t) :
  Exists (fun v => py_index vals (Vertex.number v) = None) (Cell.getVertices icell) ->
  vertexValues vals icell = Raise IndexError.
Proof.
  unfold vertexValues. induction 1 as [v vs Hv|v vs _ IH]; simpl.
  - now rewrite (getitem_invalid _ _ Hv).
  - destruct (getitem vals (Vertex.number v)) as [x|e] eqn:Hg; simpl.
    + now rewrite IH.
    + now rewrite (getitem_exn _ _ _ Hg).
Qed.

(** X7: a vertex based field whose value array has no entry for a
    vertex of the first containing cell raises [IndexError]; the cell is
    not passed over and the candidates behind it are not tried. *)
Theorem evaluate_vertexBased_IndexError
    (st : state) (self : loc) (f : Field) (m : Mesh) (vals : list item)
    (pos : position) (eps : Q) (pre post : list Cell.t) (icell : Cell.t) :
  fields st !! self = Some f ->
  meshes st !! mesh f = Some m ->
  arrays st !! values f = Some vals ->
  fieldType f = FieldType.FT_vertexBased ->
  giveItemsInBBox m
    (BBox.BBox (map (fun c => (c - eps)%Q) pos) (map (fun c => (c + eps)%Q) pos))
  = pre ++ icell :: post ->
  Forall (fun c => Cell.containsPoint c pos = Return false) pre ->
  Cell.containsPoint icell pos = Return true ->
  Exists (fun v => py_index vals (Vertex.number v) = None) (Cell.getVertices icell) ->
  _evaluate self pos eps st = (Raise IndexError, st).
Proof.
  intros Hf Hm Hv Hft Hcells Hpre Hc Hbad.
  unfold _evaluate, bind, get_field, get_mesh, get_array, deref, lift.
  rewrite Hf, Hm, Hv. unfold evaluate_body. rewrite Hcells, Hft.
  rewrite length_app. simpl length.
  replace (length pre + S (length post))%nat with (S (length pre + length post)) by lia.
  simpl negb. cbv iota. simpl Z.eqb. cbv iota.
  rewrite scan_vertexBased_skip by assumption. simpl.
  unfold try_vertex_cell. rewrite Hc. simpl.
  now rewrite (vertexValues_IndexError _ _ Hbad).
Qed.

(** X8: a cell based field whose value array has no entry for the number
    of a containing cell raises [IndexError]. *)
Theorem evaluate_cellBased_IndexError
    (st : state) (self : loc) (f : Field) (m : Mesh) (vals : list item)
    (pos : position) (eps : Q) (pre post : list Cell.t) (icell : Cell.t) :
  fields st !! self = Some f ->
  meshes st !! mesh f = Some m ->
  arrays st !! values f = Some vals ->
  fieldType f <> FieldType.FT_vertexBased ->
  giveItemsInBBox m
    (BBox.BBox (map (fun c => (c - eps)%Q) pos) (map (fun c => (c + eps)%Q) pos))
  = pre ++ icell :: post ->
  Forall (fun c => Cell.containsPoint c pos = Return false) pre ->
  Cell.containsPoint icell pos = Return true ->
  py_index vals (Cell.number icell) = None ->
  _evaluate self pos eps st = (Raise IndexError, st).
Proof.
  intros Hf Hm Hv Hft Hcells Hpre Hc Hbad.
  unfold _evaluate, bind, get_field, get_mesh, get_array, deref, lift.
  rewrite Hf, Hm, Hv. unfold evaluate_body. rewrite Hcells.
  rewrite length_app. simpl length.
  replace (length pre + S (length post))%nat with (S (length pre + length post)) by lia.
  simpl negb. cbv iota.
  destruct (Z.eqb_spec (fieldType f) FieldType.FT_vertexBased); [contradiction|].
  rewrite scan_cellBased_skip by assumption. simpl. rewrite Hc. simpl.
  unfold accumulate. now rewrite (getitem_invalid _ _ Hbad).
Qed.

(** The cell branch over any component type.  Behind the first
    contributing candidate the answer is one running sum. *)
Lemma cellBranch_scan_sum {num : Type} (add : num -> num -> num)
    (vals : list (CellBranch.entry num)) pos cells ws :
  Forall2 (CellBranch.contributes vals pos) cells ws ->
  forall count s, 0 < count ->
    CellBranch.scan_cellBased add vals pos cells count [s]
    = Return (count + Z.of_nat (length (omap id ws)), [fold_left add (omap id ws) s]).
Proof.
  induction 1 as [|icell w cells ws Hw _ IH]; intros count s Hcount; simpl.
  - now rewrite Z.add_0_r.
  - destruct w as [a|]; simpl in Hw.
    + destruct Hw as (-> & Hn & Hg). simpl. unfold CellBranch.accumulate.
      rewrite (getitem_stored _ _ _ Hn Hg). simpl.
      destruct (Z.eqb_spec count 0); [lia|]. simpl.
      rewrite IH by lia. simpl. do 2 f_equal. unfold omap. lia.
    + rewrite Hw. simpl. now apply IH.
Qed.

Lemma cellBranch_scan_first {num : Type} (add : num -> num -> num)
    (vals : list (CellBranch.entry num)) pos cells ws a rest :
  Forall2 (CellBranch.contributes vals pos) cells ws ->
  omap id ws = a :: rest ->
  CellBranch.scan_cellBased add vals pos cells 0 []
  = Return (Z.of_nat (S (length rest)), [fold_left add rest a]).
Proof.
  induction 1 as [|icell w cells ws Hw Hrest IH]; intros Hws; [discriminate|].
  destruct w as [a'|]; simpl in Hw, Hws.
  - destruct Hw as (Hc & Hn & Hg). injection Hws as -> Hws'. simpl. rewrite Hc. simpl.
    unfold CellBranch.accumulate. rewrite (getitem_stored _ _ _ Hn Hg). simpl.
    rewrite (cellBranch_scan_sum _ _ _ _ _ Hrest) by lia.
    change (omap id ws) with (list_omap (option num) num id ws). rewrite Hws'.
    do 2 f_equal. lia.
  - simpl. rewrite Hw. simpl. now apply IH.
Qed.

(** X9: for a cell based field with one component per value the cell
    branch answers with one number.  The components stored at the
    numbers of the candidates that contain the position are added up in
    the order of the localizer with the [+] of the components, and the
    sum is divided by the number of these candidates with the [/] of the
    components.  This is the arithmetic mean as far as the two
    operations are exact; on the ints of Python 2 the [/] is the floor
    division, and on floats both operations round. *)
Theorem cellBased_one_component {num : Type}
    (add : num -> num -> num) (div : num -> Z -> num)
    (vals : list (CellBranch.entry num)) (pos : position) (cells : list Cell.t)
    (ws : list (option num)) (a : num) (rest : list num) :
  Forall2 (CellBranch.contributes vals pos) cells ws ->
  omap id ws = a :: rest ->
  CellBranch.cellBased add div vals pos cells
  = Return (Some [div (fold_left add rest a) (Z.of_nat (S (length rest)))]).
Proof.
  intros Hws Hsome. unfold CellBranch.cellBased.
  rewrite (cellBranch_scan_first _ _ _ _ _ _ _ Hws Hsome). simpl rbind. cbv iota beta.
  destruct (Z.eqb_spec (Z.of_nat (S (length rest))) 0); [lia|]. reflexivity.
Qed.

(** The cell branch inside [evaluate_body] is the instance of
    [CellBranch] at exact rationals. *)
Lemma getitem_map {A B} (g : A -> B) (l : list A) (i : Z) :
  getitem (map g l) i = rbind (getitem l i) (fun x => Return (g x)).
Proof.
  unfold getitem, py_index. rewrite length_map.
  change (map g l) with (g <$> l).
  destruct (_ && _); [|destruct (_ && _)]; try reflexivity;
    rewrite list_lookup_fmap;
    match goal with |- context [l !! ?k] => destruct (l !! k) end; reflexivity.
Qed.

Lemma comprehension_exact answer tmp :
  CellBranch.comprehension Qplus answer (of_item tmp) = comprehension answer tmp.
Proof. now destruct tmp. Qed.

Lemma rebind_loop_exact {A} (iter : list A) answer tmp :
  CellBranch.rebind_loop Qplus iter answer (of_item tmp) = rebind_loop iter answer tmp.
Proof.
  revert answer. induction iter as [|i iter IH]; intros answer; [reflexivity|].
  simpl. rewrite comprehension_exact.
  destruct (comprehension answer tmp); simpl; [apply IH | reflexivity].
Qed.

Lemma accumulate_exact vals icell count answer :
  CellBranch.accumulate Qplus (map of_item vals) icell count answer
  = accumulate vals icell count answer.
Proof.
  unfold CellBranch.accumulate, accumulate. rewrite getitem_map.
  destruct (getitem vals (Cell.number icell)) as [tmp|e]; simpl; [|reflexivity].
  destruct (count =? 0).
  - now destruct tmp.
  - now rewrite rebind_loop_exact.
Qed.

Lemma scan_cellBased_exact vals pos cells :
  forall count answer,
    CellBranch.scan_cellBased Qplus (map of_item vals) pos cells count answer
    = scan_cellBased vals pos cells count answer.
Proof.
  induction cells as [|icell cells IH]; intros count answer; [reflexivity|].
  simpl. destruct (Cell.containsPoint icell pos) as [[|]|e]; simpl; try reflexivity.
  - rewrite accumulate_exact.
    destruct (accumulate vals icell count answer) as [ca|e]; simpl; [apply IH|].
    now destruct (is_IndexError e).
  - apply IH.
Qed.

Lemma evaluate_body_cellBased (m : Mesh) (ftype : Z) (vals : list item)
    (pos : position) (eps : Q) :
  ftype <> FieldType.FT_vertexBased ->
  giveItemsInBBox m
    (BBox.BBox (map (fun c => (c - eps)%Q) pos) (map (fun c => (c + eps)%Q) pos)) <> [] ->
  evaluate_body m ftype vals pos eps
  = CellBranch.cellBased Qplus Qdiv_int (map of_item vals) pos
      (giveItemsInBBox m
         (BBox.BBox (map (fun c => (c - eps)%Q) pos) (map (fun c => (c + eps)%Q) pos))).
Proof.
  intros Hft Hcells. unfold evaluate_body, CellBranch.cellBased.
  destruct (giveItemsInBBox m _) as [|c cells]; [contradiction|].
  simpl negb. cbv iota.
  destruct (Z.eqb_spec ftype FieldType.FT_vertexBased); [contradiction|].
  now rewrite scan_cellBased_exact.
Qed.

(** X10: a write is seen by the next evaluation.  After
    [setValue(icell.number, xs)] a cell based field evaluates to [xs] at
    a position that [icell] alone contains. *)
Theorem setValue_then_evaluate
    (st : state) (self : loc) (f : Field) (m : Mesh) (vals : list item)
    (pos : position) (eps : Q) (pre post : list Cell.t) (icell : Cell.t)
    (k : nat) (xs : list Q) :
  fields st !! self = Some f ->
  meshes st !! mesh f = Some m ->
  arrays st !! values f = Some vals ->
  fieldType f <> FieldType.FT_vertexBased ->
  giveItemsInBBox m
    (BBox.BBox (map (fun c => (c - eps)%Q) pos) (map (fun c => (c + eps)%Q) pos))
  = pre ++ icell :: post ->
  Forall (fun c => Cell.containsPoint c pos = Return false) (pre ++ post) ->
  Cell.containsPoint icell pos = Return true ->
  py_index vals (Cell.number icell) = Some k ->
  fst (setValue self (Cell.number icell) (Tuple xs) st) = Return tt
  /\ fst (_evaluate self pos eps (snd (setValue self (Cell.number icell) (Tuple xs) st)))
     = Return (Some xs).
Proof.
  intros Hf Hm Hv Hft Hcells Hrest Hc Hk.
  rewrite (setValue_run st self f vals _ k (Tuple xs) Hf Hv Hk).
  split; [reflexivity|]. cbn [snd].
  erewrite (evaluate_cellBased_single _ self f m (<[k := Tuple xs]> vals) pos eps
              pre post icell xs); try eassumption; try reflexivity.
  - cbn [arrays]. apply lookup_insert_eq.
  - rewrite (getitem_position _ _ k).
    + rewrite list_lookup_insert_eq; [reflexivity|]. eapply py_index_Some_lt, Hk.
    + rewrite <- Hk. apply py_index_length, length_insert.
Qed.
End EvaluateMore.

Lemma evaluate_vertexBased_IndexError_witness :
  @_evaluate ListMeshAdapter 1%positive [1 # 2] 0%Q
    (Examples.mkStore Examples.twoSegments (Examples.field 1 FieldType.FT_vertexBased)
       [Tuple [1%Q]])
  = (Raise IndexError,
     Examples.mkStore Examples.twoSegments (Examples.field 1 FieldType.FT_vertexBased)
       [Tuple [1%Q]]).
Proof.
  apply (@evaluate_vertexBased_IndexError ListMeshAdapter _ 1%positive
           (Examples.field 1 FieldType.FT_vertexBased) Examples.twoSegments
           [Tuple [1%Q]] [1 # 2] 0%Q [] []
           (snd (Examples.segment 0 100 0 (Examples.vertex 0 10) (Examples.vertex 1 11))));
    try reflexivity.
  - constructor.
  - apply Exists_cons_tl, Exists_cons_hd. reflexivity.
Defined.

Lemma evaluate_cellBased_IndexError_witness :
  @_evaluate ListMeshAdapter 1%positive [3 # 2] 0%Q
    (Examples.mkStore Examples.twoSegments (Examples.field 1 FieldType.FT_cellBased)
       [Tuple [1%Q]])
  = (Raise IndexError,
     Examples.mkStore Examples.twoSegments (Examples.field 1 FieldType.FT_cellBased)
       [Tuple [1%Q]]).
Proof.
  apply (@evaluate_cellBased_IndexError ListMeshAdapter _ 1%positive
           (Examples.field 1 FieldType.FT_cellBased) Examples.twoSegments
           [Tuple [1%Q]] [3 # 2] 0%Q [] []
           (snd (Examples.segment 1 101 1 (Examples.vertex 1 11) (Examples.vertex 2 12))));
    try reflexivity.
  - simpl. discriminate.
  - constructor.
Defined.

(** On the two segments, which share the point 1, with the int
    components 1 and 4: Python 2 answers [[(1+4)/2]], which is [[2]]. *)
Lemma cellBased_one_component_witness :
  CellBranch.cellBased Z.add Z.div [CellBranch.Tuple [1]; CellBranch.Tuple [4]] [1%Q]
    (ListMesh.giveItemsInBBox Examples.twoSegments (BBox.BBox [1%Q] [1%Q]))
  = Return (Some [2]).
Proof.
  apply (cellBased_one_component Z.add Z.div
           [CellBranch.Tuple [1]; CellBranch.Tuple [4]] [1%Q]
           (ListMesh.giveItemsInBBox Examples.twoSegments (BBox.BBox [1%Q] [1%Q]))
           [Some 1; Some 4] 1 [4]).
  - repeat (constructor; [split; [reflexivity | split; [simpl; lia | reflexivity]] |]).
    constructor.
  - reflexivity.
Defined.

Lemma setValue_then_evaluate_witness :
  fst (@setValue ListMeshAdapter 1%positive
         (Cell.number (snd (Examples.segment 0 100 0 (Examples.vertex 0 10)
                              (Examples.vertex 1 11))))
         (Tuple [7%Q; 8%Q; 9%Q])
         (Examples.mkStore Examples.twoSegments (Examples.field 2 FieldType.FT_cellBased)
            [Tuple [1%Q; 2%Q; 3%Q]; Tuple [4%Q; 5%Q; 6%Q]]))
  = Return tt
  /\ fst (@_evaluate ListMeshAdapter 1%positive [1 # 2] 0%Q
            (snd (@setValue ListMeshAdapter 1%positive
                    (Cell.number (snd (Examples.segment 0 100 0 (Examples.vertex 0 10)
                                         (Examples.vertex 1 11))))
                    (Tuple [7%Q; 8%Q; 9%Q])
                    (Examples.mkStore Examples.twoSegments
                       (Examples.field 2 FieldType.FT_cellBased)
                       [Tuple [1%Q; 2%Q; 3%Q]; Tuple [4%Q; 5%Q; 6%Q]]))))
     = Return (Some [7%Q; 8%Q; 9%Q]).
Proof.
  apply (@setValue_then_evaluate ListMeshAdapter _ 1%positive
           (Examples.field 2 FieldType.FT_cellBased) Examples.twoSegments
           [Tuple [1%Q; 2%Q; 3%Q]; Tuple [4%Q; 5%Q; 6%Q]] [1 # 2] 0%Q [] []
           (snd (Examples.segment 0 100 0 (Examples.vertex 0 10) (Examples.vertex 1 11)))
           0%nat);
    try reflexivity.
  - simpl. discriminate.
  - constructor.
Defined.

(** ** Merge: failures, sizes and aliasing *)

Section MergeMore.
Context `{MA : MeshAdapter}.

(** X12: [merge] is all or nothing for the receiver.  Whenever it
    raises, whatever the exception, no field object and no value array
    of the store has changed, and every mesh object has its content. *)
Theorem merge_failure_atomic
    (st : state) (self field : loc) (s f : Field) (sm fm : Mesh) (e : exn) :
  fields st !! self = Some s ->
  meshes st !! mesh s = Some sm ->
  fields st !! field = Some f ->
  meshes st !! mesh f = Some fm ->
  fst (merge self field st) = Raise e ->
  fields (snd (merge self field st)) = fields st
  /\ arrays (snd (merge self field st)) = arrays st
  /\ (forall l m, meshes st !! l = Some m ->
        meshes (snd (merge self field st)) !! l = Some m).
Proof.
  intros Hs Hsm Hf Hfm.
  rewrite (merge_run st self field s f sm fm) by assumption.
  destruct (negb (fieldType s =? fieldType f)).
  { intros _. simpl snd. repeat split. apply with_union_meshes. }
  destruct (arrays st !! values s) as [sv|];
    [|intros _; simpl snd; repeat split; apply with_union_meshes].
  destruct (arrays st !! values f) as [fv|];
    [|intros _; simpl snd; repeat split; apply with_union_meshes].
  destruct (merged_values (fieldType s) (Mesh_merge sm fm) sm fm sv fv) as [vals|e'];
    [discriminate|].
  intros _. simpl snd. repeat split. apply with_union_meshes.
Qed.

Lemma setitem_length {A} (l l' : list A) (i : Z) (x : A) :
  setitem l i x = Return l' -> length l' = length l.
Proof.
  unfold setitem. destruct (py_index l i); [|discriminate].
  intros [= <-]. apply length_insert.
Qed.

Lemma copy_values_length l2n lab src range values values' :
  copy_values l2n lab src range values = Return values' ->
  length values' = length values /\ Forall (fun v => (v < length src)%nat) range.
Proof.
  revert values. induction range as [|v range IH]; intros values; simpl.
  - intros [= <-]. split; [reflexivity|constructor].
  - destruct (getitem src (Z.of_nat v)) as [x|] eqn:Hg; [|discriminate]. simpl.
    destruct (setitem values (l2n (lab v)) x) as [values1|] eqn:Hs; [|discriminate].
    simpl. intros Hrun. destruct (IH _ Hrun) as [Hlen Hall].
    split; [rewrite Hlen; eapply setitem_length, Hs|].
    constructor; [|exact Hall].
    unfold getitem in Hg. destruct (py_index src (Z.of_nat v)) as [k|] eqn:Hk;
      [|discriminate].
    pose proof (py_index_Some_lt _ _ _ Hk) as Hlt. unfold py_index in Hk.
    destruct (Z.leb_spec 0 (Z.of_nat v)); [|lia].
    destruct (Z.ltb_spec (Z.of_nat v) (Z.of_nat (length src))); simpl in Hk.
    + lia.
    + destruct (Z.leb_spec (- Z.of_nat (length src)) (Z.of_nat v)),
        (Z.ltb_spec (Z.of_nat v) 0); simpl in Hk; try discriminate; lia.
Qed.

Lemma merged_values_returns ftype u sm fm sv fv vals :
  merged_values ftype u sm fm sv fv = Return vals ->
  length vals = entityCount ftype u
  /\ (entityCount ftype sm <= length sv)%nat
  /\ (entityCount ftype fm <= length fv)%nat.
Proof.
  rewrite merged_values_loops.
  destruct (copy_values (label2Number ftype u) (entityLabel ftype sm) sv
              (seq 0 (entityCount ftype sm)) (replicate (entityCount ftype u) (Int 0)))
    as [values1|] eqn:H1; [|discriminate]. simpl. intros H2.
  apply copy_values_length in H1 as [Hl1 Ha1].
  apply copy_values_length in H2 as [Hl2 Ha2].
  rewrite length_replicate in Hl1. split; [congruence|].
  assert (Hseq : forall n (l : list item),
             Forall (fun v => (v < length l)%nat) (seq 0 n) -> (n <= length l)%nat).
  { intros n l Hall. destruct n as [|n]; [lia|].
    rewrite Forall_forall in Hall. specialize (Hall n).
    rewrite elem_of_seq in Hall. lia. }
  split; apply Hseq; assumption.
Qed.

(** X13: a merge that returns leaves the receiver with a value array
    that has one entry per entity of the union mesh, vertices or cells
    according to the field type; the field ID, the value type, the time,
    the units and the field type of the receiver are as before. *)
Theorem merge_values_sized
    (st : state) (self field : loc) (s f : Field) (sm fm : Mesh) :
  fields st !! self = Some s ->
  meshes st !! mesh s = Some sm ->
  fields st !! field = Some f ->
  meshes st !! mesh f = Some fm ->
  fst (merge self field st) = Return tt ->
  exists s' vals,
    fields (snd (merge self field st)) !! self = Some s'
    /\ meshes (snd (merge self field st)) !! mesh s' = Some (Mesh_merge sm fm)
    /\ arrays (snd (merge self field st)) !! values s' = Some vals
    /\ length vals = entityCount (fieldType s) (Mesh_merge sm fm)
    /\ fieldID s' = fieldID s /\ valueType s' = valueType s /\ time s' = time s
    /\ units s' = units s /\ fieldType s' = fieldType s.
Proof.
  intros Hs Hsm Hf Hfm.
  rewrite (merge_run st self field s f sm fm) by assumption.
  destruct (negb (fieldType s =? fieldType f)); [discriminate|].
  destruct (arrays st !! values s) as [sv|]; [|discriminate].
  destruct (arrays st !! values f) as [fv|]; [|discriminate].
  destruct (merged_values (fieldType s) (Mesh_merge sm fm) sm fm sv fv) as [vals|e']
    eqn:Hmv; [|discriminate].
  intros _. simpl snd. unfold merged. cbn [fields meshes arrays].
  eexists _, vals. split; [apply lookup_insert_eq|]. cbn [mesh values].
  split; [apply lookup_insert_eq|]. split; [apply lookup_insert_eq|].
  split; [eapply merged_values_returns, Hmv|]. repeat split.
Qed.

(** X14: a field whose value array is shorter than its mesh has
    entities cannot be merged, as receiver or as argument: [merge]
    raises [IndexError]. *)
Theorem merge_short_values_IndexError
    (st : state) (self field : loc) (s f : Field) (sm fm : Mesh)
    (sv fv : list item) :
  fields st !! self = Some s ->
  meshes st !! mesh s = Some sm ->
  fields st !! field = Some f ->
  meshes st !! mesh f = Some fm ->
  arrays st !! values s = Some sv ->
  arrays st !! values f = Some fv ->
  fieldType s = fieldType f ->
  (length sv < entityCount (fieldType s) sm)%nat
  \/ (length fv < entityCount (fieldType s) fm)%nat ->
  fst (merge self field st) = Raise IndexError.
Proof.
  intros Hs Hsm Hf Hfm Hsv Hfv Heq Hshort.
  rewrite (merge_run st self field s f sm fm) by assumption.
  rewrite <- Heq, Z.eqb_refl, Hsv, Hfv. simpl negb. cbv iota.
  destruct (merged_values (fieldType s) (Mesh_merge sm fm) sm fm sv fv) as [vals|e']
    eqn:Hmv.
  - apply merged_values_returns in Hmv. lia.
  - apply merged_values_exn in Hmv. now subst.
Qed.

Lemma setValue_arrays_other (st : state) (self : loc) (f : Field) (i : Z) (v : item)
    (l : loc) :
  fields st !! self = Some f ->
  l <> values f ->
  arrays (snd (setValue self i v st)) !! l = arrays st !! l.
Proof.
  intros Hf Hl. unfold setValue, bind, get_field, get_array, deref, lift, put_array.
  rewrite Hf. destruct (arrays st !! values f) as [vals|]; [|reflexivity].
  destruct (setitem vals i v); [|reflexivity].
  cbn [snd arrays]. now rewrite lookup_insert_ne by congruence.
Qed.

(** X15: the merged receiver shares its value array with nobody.  A
    [setValue] on the receiver after a merge changes neither the value
    array of the argument nor the array that the receiver had before. *)
Theorem merge_then_setValue_no_alias
    (st : state) (self field : loc) (s f : Field) (sm fm : Mesh)
    (sv fv : list item) (i : Z) (v : item) :
  fields st !! self = Some s ->
  meshes st !! mesh s = Some sm ->
  fields st !! field = Some f ->
  meshes st !! mesh f = Some fm ->
  arrays st !! values s = Some sv ->
  arrays st !! values f = Some fv ->
  fst (merge self field st) = Return tt ->
  arrays (snd (setValue self i v (snd (merge self field st)))) !! values f = Some fv
  /\ arrays (snd (setValue self i v (snd (merge self field st)))) !! values s = Some sv.
Proof.
  intros Hs Hsm Hf Hfm Hsv Hfv.
  rewrite (merge_run st self field s f sm fm) by assumption.
  destruct (negb (fieldType s =? fieldType f)); [discriminate|].
  rewrite Hsv, Hfv.
  destruct (merged_values (fieldType s) (Mesh_merge sm fm) sm fm sv fv) as [vals|e'];
    [|discriminate].
  intros _. simpl snd.
  assert (Hself : fields (merged st self s sm fm vals) !! self
                  = Some (mkField (fresh (dom (meshes st))) (fieldID s) (valueType s)
                            (time s) (units s) (uri s) (fieldType s)
                            (fresh (dom (arrays st)))))
    by apply lookup_insert_eq.
  split.
  - rewrite (setValue_arrays_other _ _ _ i v (values f) Hself).
    + now apply merged_arrays.
    + cbn [values]. intros Heq. symmetry in Heq. revert Heq.
      eapply lookup_fresh_ne, Hfv.
  - rewrite (setValue_arrays_other _ _ _ i v (values s) Hself).
    + now apply merged_arrays.
    + cbn [values]. intros Heq. symmetry in Heq. revert Heq.
      eapply lookup_fresh_ne, Hsv.
Qed.
End MergeMore.

Lemma merge_failure_atomic_witness :
  fields (snd (@merge ListMeshAdapter 1%positive 2%positive (Examples.twoFields 1 2)))
  = fields (Examples.twoFields 1 2)
  /\ arrays (snd (@merge ListMeshAdapter 1%positive 2%positive (Examples.twoFields 1 2)))
     = arrays (Examples.twoFields 1 2)
  /\ (forall l m, meshes (Examples.twoFields 1 2) !! l = Some m ->
        meshes (snd (@merge ListMeshAdapter 1%positive 2%positive
                       (Examples.twoFields 1 2))) !! l = Some m).
Proof.
  apply (@merge_failure_atomic ListMeshAdapter (Examples.twoFields 1 2)
           1%positive 2%positive (Examples.receiver 1) (Examples.argument 2)
           Examples.leftPart Examples.rightPart
           (TypeError "Field::merge: fieldType of receiver and parameter is different"));
    reflexivity.
Defined.

Lemma merge_values_sized_witness :
  exists s' vals,
    fields (snd (@merge ListMeshAdapter 1%positive 2%positive (Examples.twoFields 1 1)))
      !! 1%positive = Some s'
    /\ meshes (snd (@merge ListMeshAdapter 1%positive 2%positive (Examples.twoFields 1 1)))
         !! mesh s' = Some (ListMesh.merge Examples.leftPart Examples.rightPart)
    /\ arrays (snd (@merge ListMeshAdapter 1%positive 2%positive (Examples.twoFields 1 1)))
         !! values s' = Some vals
    /\ length vals
       = @entityCount ListMeshAdapter (fieldType (Examples.receiver 1))
           (ListMesh.merge Examples.leftPart Examples.rightPart)
    /\ fieldID s' = fieldID (Examples.receiver 1)
    /\ valueType s' = valueType (Examples.receiver 1)
    /\ time s' = time (Examples.receiver 1)
    /\ units s' = units (Examples.receiver 1)
    /\ fieldType s' = fieldType (Examples.receiver 1).
Proof.
  apply (@merge_values_sized ListMeshAdapter (Examples.twoFields 1 1)
           1%positive 2%positive (Examples.receiver 1) (Examples.argument 1)
           Examples.leftPart Examples.rightPart); reflexivity.
Defined.

Lemma merge_short_values_IndexError_witness :
  fst (@merge ListMeshAdapter 1%positive 2%positive
         (@mkState ListMeshAdapter
            {[ 1%positive := Examples.leftPart; 2%positive := Examples.rightPart ]}
            {[ 1%positive := [Tuple [1%Q]]; 2%positive := Examples.rightValues 1 ]}
            {[ 1%positive := Examples.receiver 1; 2%positive := Examples.argument 1 ]}
            ∅))
  = Raise IndexError.
Proof.
  apply (@merge_short_values_IndexError ListMeshAdapter _
           1%positive 2%positive (Examples.receiver 1) (Examples.argument 1)
           Examples.leftPart Examples.rightPart [Tuple [1%Q]] (Examples.rightValues 1));
    try reflexivity.
  left. vm_compute. lia.
Defined.

Lemma merge_then_setValue_no_alias_witness :
  arrays (snd (@setValue ListMeshAdapter 1%positive 1 (Tuple [9%Q])
                 (snd (@merge ListMeshAdapter 1%positive 2%positive
                         (Examples.twoFields 1 1)))))
    !! values (Examples.argument 1) = Some (Examples.rightValues 1)
  /\ arrays (snd (@setValue ListMeshAdapter 1%positive 1 (Tuple [9%Q])
                    (snd (@merge ListMeshAdapter 1%positive 2%positive
                            (Examples.twoFields 1 1)))))
       !! values (Examples.receiver 1) = Some (Examples.leftValues 1).
Proof.
  apply (@merge_then_setValue_no_alias ListMeshAdapter (Examples.twoFields 1 1)
           1%positive 2%positive (Examples.receiver 1) (Examples.argument 1)
           Examples.leftPart Examples.rightPart); reflexivity.
Defined.

(** ** Construction *)

Section InitProperties.
Context `{MA : MeshAdapter} `{VT : ValueTypeModule}.

Lemma getRecordSize_valueType (a b : Field) :
  valueType a = valueType b -> getRecordSize a = getRecordSize b.
Proof. unfold getRecordSize. now intros ->. Qed.

(** X16: a field constructed without values gets a new value array of
    zeros, one entry per vertex or per cell of its mesh according to the
    field type, every entry with as many components as the value type
    has; the new field and its array are objects that were not in the
    store, and the attributes are the arguments of the constructor. *)
Theorem init_default_values
    (st : state) (mesh' : loc) (fieldID' valueType' : Z) (units' : option string)
    (time' : Q) (fieldType' : Z) (m : Mesh) (size : Z) :
  meshes st !! mesh' = Some m ->
  (forall F, valueType F = valueType' -> getRecordSize F = Return size) ->
  exists l a,
    fst (__init__ mesh' fieldID' valueType' units' time' None fieldType' st) = Return l
    /\ fields st !! l = None
    /\ arrays st !! a = None
    /\ fields (snd (__init__ mesh' fieldID' valueType' units' time' None fieldType' st))
         !! l
       = Some (mkField mesh' fieldID' valueType' time' units' None fieldType' a)
    /\ arrays (snd (__init__ mesh' fieldID' valueType' units' time' None fieldType' st))
         !! a
       = Some (replicate (entityCount fieldType' m)
                 (Tuple (replicate (Z.to_nat size) 0%Q))).
Proof.
  intros Hm Hsize.
  exists (fresh (dom (fields st))), (fresh (dom (arrays st))).
  unfold __init__, bind, get_mesh, deref, lift, new_array, new_field, ret.
  rewrite Hm. rewrite Hsize by reflexivity. cbn [fst snd fields arrays].
  split; [reflexivity|].
  split; [apply not_elem_of_dom, is_fresh|].
  split; [apply not_elem_of_dom, is_fresh|].
  split; [apply lookup_insert_eq|].
  rewrite lookup_insert_eq. reflexivity.
Qed.

(** X17: the value type is checked at construction only when the
    constructor has to size the array itself.  Without values an
    unknown value type makes the constructor raise [ValueError], and the
    store is as before; with values supplied the constructor returns a
    field for any value type, and the error shows at the first call of
    [getRecordSize]. *)
Theorem init_checks_valueType_only_without_values
    (st : state) (mesh' : loc) (fieldID' valueType' : Z) (units' : option string)
    (time' : Q) (fieldType' : Z) (m : Mesh) (a : loc) :
  meshes st !! mesh' = Some m ->
  valueType' <> Scalar -> valueType' <> Vector -> valueType' <> Tensor ->
  (exists msg,
     __init__ mesh' fieldID' valueType' units' time' None fieldType' st
     = (Raise (ValueError msg), st))
  /\ exists l F,
       fst (__init__ mesh' fieldID' valueType' units' time' (Some a) fieldType' st)
       = Return l
       /\ fields (snd (__init__ mesh' fieldID' valueType' units' time' (Some a)
                         fieldType' st)) !! l = Some F
       /\ values F = a
       /\ exists msg, getRecordSize F = Raise (ValueError msg).
Proof.
  intros Hm H1 H2 H3.
  assert (Hbad : forall F, valueType F = valueType' ->
            getRecordSize F = Raise (ValueError "Invalid value of Field.valueType")).
  { intros F HF. unfold getRecordSize. rewrite HF.
    destruct (Z.eqb_spec valueType' Scalar); [contradiction|].
    destruct (Z.eqb_spec valueType' Vector); [contradiction|].
    destruct (Z.eqb_spec valueType' Tensor); [contradiction|]. reflexivity. }
  split.
  - eexists. unfold __init__, bind, get_mesh, deref, lift.
    rewrite Hm. rewrite Hbad by reflexivity. reflexivity.
  - eexists _, _. unfold __init__, bind, ret, new_field. cbn [fst snd fields].
    split; [reflexivity|]. split; [apply lookup_insert_eq|].
    split; [reflexivity|]. eexists. now apply Hbad.
Qed.
End InitProperties.

Lemma init_default_values_witness :
  exists l a,
    fst (@__init__ ListMeshAdapter ValueType123 1%positive 7 2 None (1 # 2) None
           FieldType.FT_cellBased (Examples.twoFields 1 1)) = Return l
    /\ fields (Examples.twoFields 1 1) !! l = None
    /\ arrays (Examples.twoFields 1 1) !! a = None
    /\ fields (snd (@__init__ ListMeshAdapter ValueType123 1%positive 7 2 None (1 # 2)
                      None FieldType.FT_cellBased (Examples.twoFields 1 1))) !! l
       = Some (mkField 1%positive 7 2 (1 # 2) None None FieldType.FT_cellBased a)
    /\ arrays (snd (@__init__ ListMeshAdapter ValueType123 1%positive 7 2 None (1 # 2)
                      None FieldType.FT_cellBased (Examples.twoFields 1 1))) !! a
       = Some (replicate (@entityCount ListMeshAdapter FieldType.FT_cellBased
                            Examples.leftPart)
                 (Tuple (replicate (Z.to_nat 3) 0%Q))).
Proof.
  apply (@init_default_values ListMeshAdapter ValueType123 (Examples.twoFields 1 1)
           1%positive 7 2 None (1 # 2) FieldType.FT_cellBased Examples.leftPart 3).
  - reflexivity.
  - intros F HF. unfold getRecordSize. rewrite HF. reflexivity.
Defined.

Lemma init_checks_valueType_only_without_values_witness :
  (exists msg,
     @__init__ ListMeshAdapter ValueType123 1%positive 7 5 None (1 # 2) None
       FieldType.FT_cellBased (Examples.twoFields 1 1)
     = (Raise (ValueError msg), Examples.twoFields 1 1))
  /\ exists l F,
       fst (@__init__ ListMeshAdapter ValueType123 1%positive 7 5 None (1 # 2)
              (Some 1%positive) FieldType.FT_cellBased (Examples.twoFields 1 1))
       = Return l
       /\ fields (snd (@__init__ ListMeshAdapter ValueType123 1%positive 7 5 None (1 # 2)
                         (Some 1%positive) FieldType.FT_cellBased
                         (Examples.twoFields 1 1))) !! l = Some F
       /\ values F = 1%positive
       /\ exists msg, @getRecordSize ValueType123 F = Raise (ValueError msg).
Proof.
  apply (@init_checks_valueType_only_without_values ListMeshAdapter ValueType123
           (Examples.twoFields 1 1) 1%positive 7 5 None (1 # 2) FieldType.FT_cellBased
           Examples.leftPart 1%positive); [reflexivity | | | ]; simpl; lia.
Defined.

(** ** HDF5: a field stored in a new file *)

Section Hdf5Fresh.
Context `{MA : MeshAdapter} `{VT : ValueTypeModule}.

Lemma asHdf5Object_empty (m : Mesh) (name : string) :
  asHdf5Object m ∅ name = (name, <[name := H5Mesh m]> ∅).
Proof. reflexivity. Qed.

Lemma mesh_name_fresh :
  lowestUnused (size (∅ : gmap string h5obj)) (fun i => "mesh_" +:+ fmt02d i)
    (contains (∅ : gmap string h5obj)) 1 = "mesh_01".
Proof. reflexivity. Qed.

Lemma field_name_fresh (m : Mesh) :
  lowestUnused (size (<["mesh_01" := H5Mesh m]> (∅ : gmap string h5obj)))
    (fun i => "field_" +:+ fmt02d i)
    (contains (<["mesh_01" := H5Mesh m]> (∅ : gmap string h5obj))) 1 = "field_01".
Proof. reflexivity. Qed.

Lemma items_fresh_group s m datasets :
  items (fresh_group s m datasets)
  = [("field_01", H5Field "mesh_01" (field_attrs s) datasets); ("mesh_01", H5Mesh m)].
Proof. reflexivity. Qed.

Lemma items_mesh_only (m : Mesh) :
  items (<["mesh_01" := H5Mesh m]> ∅) = [("mesh_01", H5Mesh m)].
Proof. reflexivity. Qed.

(** How [toHdf5] runs on a file that does not exist yet. *)
Lemma toHdf5_fresh st self fileName group s m vals :
  fields st !! self = Some s ->
  meshes st !! mesh s = Some m ->
  arrays st !! values s = Some vals ->
  files st !! fileName = None ->
  toHdf5 self fileName group st =
    match vals with
    | [] => (Return tt, with_file st fileName group (<["mesh_01" := H5Mesh m]> ∅))
    | _ :: _ =>
        if fieldType s =? FieldType.FT_vertexBased then
          match getRecordSize s with
          | Return size =>
              match fill vals (getNumberOfVertices m) size with
              | Return val =>
                  (Return tt,
                   with_file st fileName group
                     (fresh_group s m {[ "vertex_values" := val ]}))
              | Raise e => (Raise e, with_file st fileName group (fresh_group s m ∅))
              end
          | Raise e => (Raise e, with_file st fileName group (fresh_group s m ∅))
          end
        else if fieldType s =? FieldType.FT_cellBased then
          match getRecordSize s with
          | Return size =>
              match fill vals (getNumberOfCells m) size with
              | Return val =>
                  (Return tt,
                   with_file st fileName group
                     (fresh_group s m {[ "cell_values" := val ]}))
              | Raise e => (Raise e, with_file st fileName group (fresh_group s m ∅))
              end
          | Raise e => (Raise e, with_file st fileName group (fresh_group s m ∅))
          end
        else (Raise (RuntimeError "Unknown fieldType"),
              with_file st fileName group (fresh_group s m ∅))
    end.
Proof.
  intros Hs Hm Hv Hfile. unfold toHdf5, with_file.
  unfold bind at 1. unfold get_field, deref. rewrite Hs.
  unfold bind at 1. unfold open_append. rewrite Hfile. cbn [default].
  unfold h5file. rewrite lookup_empty. cbn [default].
  rewrite mesh_name_fresh.
  unfold bind, put_file, get_mesh, get_array, deref, lift, ret, raise.
  cbn [meshes arrays fields files]. rewrite Hm.
  rewrite asHdf5Object_empty. cbn [fst snd].
  rewrite field_name_fresh.
  cbn [meshes arrays fields files]. rewrite Hv.
  destruct vals as [|x vals].
  { cbn [length Nat.eqb negb]. cbv iota. now rewrite !insert_insert_eq. }
  cbn [length Nat.eqb negb]. cbv iota. cbn [meshes arrays fields files].
  unfold fresh_group, field_attrs.
  destruct (fieldType s =? FieldType.FT_vertexBased).
  - cbn [meshes arrays fields files]. rewrite Hm.
    destruct (getRecordSize s) as [size|e]; [|now rewrite !insert_insert_eq].
    destruct (fill (x :: vals) (getNumberOfVertices m) size) as [val|e];
      cbn [meshes arrays fields files]; now rewrite !insert_insert_eq.
  - destruct (fieldType s =? FieldType.FT_cellBased).
    + cbn [meshes arrays fields files]. rewrite Hm.
      destruct (getRecordSize s) as [size|e]; [|now rewrite !insert_insert_eq].
      destruct (fill (x :: vals) (getNumberOfCells m) size) as [val|e];
        cbn [meshes arrays fields files]; now rewrite !insert_insert_eq.
    + now rewrite !insert_insert_eq.
Qed.

Lemma makeFromHdf5_fresh_vertex st fileName group s m val :
  files st !! fileName
  = Some {[ group := fresh_group s m {[ "vertex_values" := val ]} ]} ->
  makeFromHdf5 fileName group st
  = (Return [fresh (dom (fields st))],
     mkState (<[fresh (dom (meshes st)) := m]> (meshes st))
       (<[fresh (dom (arrays st)) := map Tuple val]> (arrays st))
       (<[fresh (dom (fields st)) :=
            mkField (fresh (dom (meshes st))) (fieldID s) (valueType s)
              (inject_Z (fieldID s)) (loaded_units (units s)) None
              FieldType.FT_vertexBased (fresh (dom (arrays st)))]> (fields st))
       (files st)).
Proof.
  intros Hfile. unfold makeFromHdf5.
  unfold bind at 1. unfold open_read. rewrite Hfile.
  unfold bind at 1. unfold lift. unfold h5file. rewrite lookup_singleton_eq.
  rewrite items_fresh_group. reflexivity.
Qed.

Lemma makeFromHdf5_mesh_only st fileName group m :
  files st !! fileName = Some {[ group := <["mesh_01" := H5Mesh m]> ∅ ]} ->
  makeFromHdf5 fileName group st
  = (Return [],
     mkState (<[fresh (dom (meshes st)) := m]> (meshes st)) (arrays st) (fields st)
       (files st)).
Proof.
  intros Hfile. unfold makeFromHdf5.
  unfold bind at 1. unfold open_read. rewrite Hfile.
  unfold bind at 1. unfold lift. unfold h5file. rewrite lookup_singleton_eq.
  rewrite items_mesh_only. reflexivity.
Qed.

Lemma makeFromHdf5_no_dataset st fileName group s m :
  files st !! fileName = Some {[ group := fresh_group s m ∅ ]} ->
  fst (makeFromHdf5 fileName group st) = Raise (NameError "values").
Proof.
  intros Hfile. unfold makeFromHdf5.
  unfold bind at 1. unfold open_read. rewrite Hfile.
  unfold bind at 1. unfold lift. unfold h5file. rewrite lookup_singleton_eq.
  rewrite items_fresh_group. reflexivity.
Qed.

(** The rows that [toHdf5] writes for an array whose entries are tuples
    of the record size are the entries themselves. *)
Lemma fill_rows (vals : list item) (size : Z) :
  Forall (fun x => exists xs, x = Tuple xs /\ Z.of_nat (length xs) = size) vals ->
  forall n k, (k + n <= length vals)%nat ->
    exists rows,
      result_mapM (fun i => (x <- getitem vals (Z.of_nat i) ;; as_row size x)%result)
        (seq k n) = Return rows
      /\ map Tuple rows = take n (drop k vals).
Proof.
  intros Hall. induction n as [|n IH]; intros k Hk.
  - exists []. split; reflexivity.
  - simpl seq. simpl result_mapM.
    destruct (getitem_in_range vals k) as (x & Hx & ->); [lia|]. simpl.
    rewrite Forall_forall in Hall.
    destruct (Hall x) as (xs & -> & Hlen); [eapply list_elem_of_lookup_2, Hx|].
    simpl. rewrite Hlen, Z.eqb_refl.
    destruct (IH (S k)) as (rows & -> & Hrows); [lia|].
    exists (xs :: rows). split; [reflexivity|].
    rewrite (drop_S _ _ _ Hx). simpl. now rewrite Hrows.
Qed.

Lemma fill_exact (vals : list item) (size : Z) :
  Forall (fun x => exists xs, x = Tuple xs /\ Z.of_nat (length xs) = size) vals ->
  exists rows, fill vals (length vals) size = Return rows /\ map Tuple rows = vals.
Proof.
  intros Hall. destruct (fill_rows vals size Hall (length vals) 0) as (rows & Hr & Hm);
    [lia|].
  exists rows. split; [exact Hr|]. rewrite Hm. simpl. apply firstn_all.
Qed.

(** X18: a vertex based field with a non-empty value array that has one
    tuple of the record size per vertex, stored by [toHdf5] in a file
    that did not exist and loaded by [makeFromHdf5], comes back as one
    new field on a new mesh object with the content of the original
    mesh, with the same values, field ID, value type and field type; the
    units come back as they were, except that the empty string comes
    back as [None]. *)
Theorem hdf5_round_trip_vertexBased
    (st : state) (self : loc) (fileName group : string) (s : Field) (m : Mesh)
    (vals : list item) (size : Z) :
  fields st !! self = Some s ->
  meshes st !! mesh s = Some m ->
  arrays st !! values s = Some vals ->
  files st !! fileName = None ->
  fieldType s = FieldType.FT_vertexBased ->
  getRecordSize s = Return size ->
  vals <> [] ->
  length vals = getNumberOfVertices m ->
  Forall (fun x => exists xs, x = Tuple xs /\ Z.of_nat (length xs) = size) vals ->
  fst (toHdf5 self fileName group st) = Return tt
  /\ exists l F,
       fst (makeFromHdf5 fileName group (snd (toHdf5 self fileName group st)))
       = Return [l]
       /\ fields st !! l = None
       /\ fields (snd (makeFromHdf5 fileName group
                         (snd (toHdf5 self fileName group st)))) !! l = Some F
       /\ meshes st !! mesh F = None
       /\ meshes (snd (makeFromHdf5 fileName group
                         (snd (toHdf5 self fileName group st)))) !! mesh F = Some m
       /\ arrays (snd (makeFromHdf5 fileName group
                         (snd (toHdf5 self fileName group st)))) !! values F
          = Some vals
       /\ fieldID F = fieldID s
       /\ valueType F = valueType s
       /\ fieldType F = fieldType s
       /\ units F = loaded_units (units s).
Proof.
  intros Hs Hm Hv Hfile Hft Hsize Hne Hlen Hall.
  destruct (fill_exact vals size Hall) as (rows & Hfill & Hrows).
  rewrite (toHdf5_fresh st self fileName group s m vals Hs Hm Hv Hfile).
  destruct vals as [|x vals']; [contradiction|].
  rewrite Hft. change (FieldType.FT_vertexBased =? FieldType.FT_vertexBased) with true.
  cbv iota. rewrite Hsize, <- Hlen, Hfill. split; [reflexivity|]. cbn [snd].
  rewrite (makeFromHdf5_fresh_vertex _ fileName group s m rows)
    by (unfold with_file; cbn [files]; apply lookup_insert_eq).
  unfold with_file. cbn [fst snd meshes arrays fields].
  eexists _, _. split; [reflexivity|].
  split; [apply not_elem_of_dom, is_fresh|].
  split; [apply lookup_insert_eq|]. cbn [mesh values fieldID valueType fieldType units].
  split; [apply not_elem_of_dom, is_fresh|].
  split; [apply lookup_insert_eq|].
  split; [rewrite lookup_insert_eq; now rewrite Hrows|].
  repeat split.
Qed.

(** X19: a field with an empty value array is not stored.  [toHdf5]
    returns after storing the mesh alone, and [makeFromHdf5] finds no
    field in the file. *)
Theorem hdf5_empty_values_not_stored
    (st : state) (self : loc) (fileName group : string) (s : Field) (m : Mesh) :
  fields st !! self = Some s ->
  meshes st !! mesh s = Some m ->
  arrays st !! values s = Some [] ->
  files st !! fileName = None ->
  fst (toHdf5 self fileName group st) = Return tt
  /\ fst (makeFromHdf5 fileName group (snd (toHdf5 self fileName group st)))
     = Return [].
Proof.
  intros Hs Hm Hv Hfile.
  rewrite (toHdf5_fresh st self fileName group s m [] Hs Hm Hv Hfile).
  split; [reflexivity|]. cbn [snd].
  rewrite (makeFromHdf5_mesh_only _ fileName group m)
    by (unfold with_file; cbn [files]; apply lookup_insert_eq).
  reflexivity.
Qed.

(** X20: for a field type that is neither vertex based nor cell based
    [toHdf5] raises [RuntimeError] after the field group and its
    attributes have been written; the file keeps a field group without a
    dataset, and [makeFromHdf5] on that file raises [NameError] (the
    names [values] and [fieldType] are not bound), not the [ValueError]
    that line 475 builds and does not raise. *)
Theorem hdf5_unknown_fieldType
    (st : state) (self : loc) (fileName group : string) (s : Field) (m : Mesh)
    (vals : list item) :
  fields st !! self = Some s ->
  meshes st !! mesh s = Some m ->
  arrays st !! values s = Some vals ->
  files st !! fileName = None ->
  vals <> [] ->
  fieldType s <> FieldType.FT_vertexBased ->
  fieldType s <> FieldType.FT_cellBased ->
  (exists msg,
     toHdf5 self fileName group st
     = (Raise (RuntimeError msg), with_file st fileName group (fresh_group s m ∅)))
  /\ exists name,
       fst (makeFromHdf5 fileName group (snd (toHdf5 self fileName group st)))
       = Raise (NameError name).
Proof.
  intros Hs Hm Hv Hfile Hne H1 H2.
  rewrite (toHdf5_fresh st self fileName group s m vals Hs Hm Hv Hfile).
  destruct vals as [|x vals']; [contradiction|].
  destruct (Z.eqb_spec (fieldType s) FieldType.FT_vertexBased); [contradiction|].
  destruct (Z.eqb_spec (fieldType s) FieldType.FT_cellBased); [contradiction|].
  split; [eexists; reflexivity|]. cbn [snd]. eexists.
  apply (makeFromHdf5_no_dataset _ fileName group s m).
  unfold with_file. cbn [files]. apply lookup_insert_eq.
Qed.
End Hdf5Fresh.

Lemma hdf5_round_trip_vertexBased_witness :
  fst (@toHdf5 ListMeshAdapter ValueType123 1%positive "f.h5" "component1/part1"
         Examples.vertexField) = Return tt
  /\ exists l F,
       fst (@makeFromHdf5 ListMeshAdapter ValueType123 "f.h5" "component1/part1"
              (snd (@toHdf5 ListMeshAdapter ValueType123 1%positive "f.h5"
                      "component1/part1" Examples.vertexField)))
       = Return [l]
       /\ fields Examples.vertexField !! l = None
       /\ fields (snd (@makeFromHdf5 ListMeshAdapter ValueType123 "f.h5"
                         "component1/part1"
                         (snd (@toHdf5 ListMeshAdapter ValueType123 1%positive "f.h5"
                                 "component1/part1" Examples.vertexField)))) !! l
          = Some F
       /\ meshes Examples.vertexField !! mesh F = None
       /\ meshes (snd (@makeFromHdf5 ListMeshAdapter ValueType123 "f.h5"
                         "component1/part1"
                         (snd (@toHdf5 ListMeshAdapter ValueType123 1%positive "f.h5"
                                 "component1/part1" Examples.vertexField)))) !! mesh F
          = Some Examples.twoSegments
       /\ arrays (snd (@makeFromHdf5 ListMeshAdapter ValueType123 "f.h5"
                         "component1/part1"
                         (snd (@toHdf5 ListMeshAdapter ValueType123 1%positive "f.h5"
                                 "component1/part1" Examples.vertexField)))) !! values F
          = Some [Tuple [1%Q]; Tuple [4%Q]; Tuple [8%Q]]
       /\ fieldID F = fieldID (Examples.field 1 FieldType.FT_vertexBased)
       /\ valueType F = valueType (Examples.field 1 FieldType.FT_vertexBased)
       /\ fieldType F = fieldType (Examples.field 1 FieldType.FT_vertexBased)
       /\ units F
          = @loaded_units (units (Examples.field 1 FieldType.FT_vertexBased)).
Proof.
  apply (@hdf5_round_trip_vertexBased ListMeshAdapter ValueType123 Examples.vertexField
           1%positive "f.h5" "component1/part1"
           (Examples.field 1 FieldType.FT_vertexBased) Examples.twoSegments
           [Tuple [1%Q]; Tuple [4%Q]; Tuple [8%Q]] 1); try reflexivity.
  - discriminate.
  - repeat constructor; eexists; split; reflexivity.
Defined.

Lemma hdf5_empty_values_not_stored_witness :
  fst (@toHdf5 ListMeshAdapter ValueType123 1%positive "f.h5" "component1/part1"
         (Examples.mkStore Examples.twoSegments
            (Examples.field 1 FieldType.FT_vertexBased) []))
  = Return tt
  /\ fst (@makeFromHdf5 ListMeshAdapter ValueType123 "f.h5" "component1/part1"
            (snd (@toHdf5 ListMeshAdapter ValueType123 1%positive "f.h5"
                    "component1/part1"
                    (Examples.mkStore Examples.twoSegments
                       (Examples.field 1 FieldType.FT_vertexBased) []))))
     = Return [].
Proof.
  apply (@hdf5_empty_values_not_stored ListMeshAdapter ValueType123 _
           1%positive "f.h5" "component1/part1"
           (Examples.field 1 FieldType.FT_vertexBased) Examples.twoSegments);
    reflexivity.
Defined.

Lemma hdf5_unknown_fieldType_witness :
  (exists msg,
     @toHdf5 ListMeshAdapter ValueType123 1%positive "f.h5" "component1/part1"
       (Examples.mkStore Examples.twoSegments (Examples.field 1 3) [Tuple [1%Q]])
     = (Raise (RuntimeError msg),
        @with_file ListMeshAdapter
          (Examples.mkStore Examples.twoSegments (Examples.field 1 3) [Tuple [1%Q]])
          "f.h5" "component1/part1"
          (@fresh_group ListMeshAdapter (Examples.field 1 3) Examples.twoSegments ∅)))
  /\ exists name,
       fst (@makeFromHdf5 ListMeshAdapter ValueType123 "f.h5" "component1/part1"
              (snd (@toHdf5 ListMeshAdapter ValueType123 1%positive "f.h5"
                      "component1/part1"
                      (Examples.mkStore Examples.twoSegments (Examples.field 1 3)
                         [Tuple [1%Q]]))))
       = Raise (NameError name).
Proof.
  apply (@hdf5_unknown_fieldType ListMeshAdapter ValueType123 _
           1%positive "f.h5" "component1/part1"
           (Examples.field 1 3) Examples.twoSegments [Tuple [1%Q]]);
    try reflexivity; try discriminate.
Defined.

(** ** HDF5: storing into a file that exists *)

Section Hdf5Append.
Context `{MA : MeshAdapter} `{VT : ValueTypeModule}.
Lemma pretty_N_char_0 (x : N) :
  (x < 10)%N -> x <> 0%N -> pretty_N_char x <> pretty_N_char 0.
Proof.
  intros Hx Hne Heq. apply Hne.
  apply (pretty_N_char_inj x 0); [exact Hx | lia | exact Heq].
Qed.

Lemma pretty_N_go_head (x : N) :
  (0 < x)%N ->
  forall s, exists c s', pretty_N_go x s = String c s' /\ c <> pretty_N_char 0.
Proof.
  induction (N.lt_wf_0 x) as [x _ IH]. intros Hx s.
  rewrite pretty_N_go_step by exact Hx.
  destruct (decide (x `div` 10 = 0)%N) as [Hd|Hd].
  - rewrite Hd, pretty_N_go_0. eexists _, _. split; [reflexivity|].
    apply pretty_N_char_0.
    + apply N.mod_lt. lia.
    + intros Hm. pose proof (N.div_mod x 10). lia.
  - apply IH.
    + apply N.div_lt; lia.
    + apply N.neq_0_lt_0. exact Hd.
Qed.

Lemma pretty_Z_head (i : Z) :
  ~ (0 <= i < 10) -> forall s, pretty i <> String (pretty_N_char 0) s.
Proof.
  intros Hi s. destruct i as [|p|p]; [lia| |].
  - unfold pretty, pretty_Z, pretty, pretty_positive, pretty, pretty_N.
    destruct (decide (N.pos p = 0)%N); [lia|].
    destruct (pretty_N_go_head (N.pos p) ltac:(lia) "") as (c & s' & -> & Hc).
    congruence.
  - unfold pretty, pretty_Z. simpl. discriminate.
Qed.

Lemma fmt02d_inj (i j : Z) : fmt02d i = fmt02d j -> i = j.
Proof.
  unfold fmt02d.
  destruct (Z.leb_spec 0 i), (Z.ltb_spec i 10), (Z.leb_spec 0 j), (Z.ltb_spec j 10);
    simpl; intros Heq;
    try (apply (inj pretty); congruence);
    try (exfalso; eapply (pretty_Z_head j); [lia | symmetry; exact Heq]);
    try (exfalso; eapply (pretty_Z_head i); [lia | exact Heq]).
  - injection Heq as Heq. now apply (inj pretty).
Qed.

Lemma group_name_inj (prefix : string) (i j : Z) :
  prefix +:+ fmt02d i = prefix +:+ fmt02d j -> i = j.
Proof.
  intros Heq. apply fmt02d_inj. induction prefix as [|c prefix IH]; [exact Heq|].
  simpl in Heq. injection Heq as Heq. auto.
Qed.

Lemma contains_false {A} (g : gmap string A) (name : string) :
  contains g name = false -> g !! name = None.
Proof.
  unfold contains. intros H. apply bool_decide_eq_false in H.
  destruct (g !! name); [exfalso; apply H; eauto | reflexivity].
Qed.

Lemma asHdf5Object_subseteq (m : Mesh) (gg : gmap string h5obj) (newgroup : string) :
  gg !! newgroup = None -> gg ⊆ snd (asHdf5Object m gg newgroup).
Proof.
  intros Hnew. unfold asHdf5Object.
  destruct (List.find _ (items gg)); simpl; [reflexivity|].
  now apply insert_subseteq.
Qed.

Lemma toHdf5_group st self fileName group s m vals hdf gg :
  fields st !! self = Some s ->
  meshes st !! mesh s = Some m ->
  arrays st !! values s = Some vals ->
  files st !! fileName = Some hdf ->
  hdf !! group = Some gg ->
  exists gg',
    snd (toHdf5 self fileName group st)
    = mkState (meshes st) (arrays st) (fields st)
        (<[fileName := <[group := gg']> hdf]> (files st))
    /\ gg ⊆ gg'.
Proof.
  intros Hs Hm Hv Hfile Hgroup. unfold toHdf5.
  unfold bind at 1. unfold get_field, deref. rewrite Hs.
  unfold bind at 1. unfold open_append. rewrite Hfile.
  change (default ∅ (Some hdf)) with hdf. rewrite Hgroup.
  change (default ∅ (Some gg)) with gg.
  set (newgrp := lowestUnused (size gg) (fun i => "mesh_" +:+ fmt02d i) (contains gg) 1).
  assert (Hnew : gg !! newgrp = None).
  { apply contains_false. apply lowestUnused_unused; [|lia].
    intros i j. apply group_name_inj. }
  unfold bind, put_file, get_mesh, get_array, deref, lift, ret, raise.
  cbn [meshes arrays fields files]. rewrite Hm.
  pose proof (asHdf5Object_subseteq m gg newgrp Hnew) as Hsub.
  set (mh5 := asHdf5Object m gg newgrp) in *.
  set (name := lowestUnused (size (snd mh5)) (fun i => "field_" +:+ fmt02d i)
                 (contains (snd mh5)) 1).
  assert (Hname : snd mh5 !! name = None).
  { apply contains_false. apply lowestUnused_unused; [|lia].
    intros i j. apply group_name_inj. }
  assert (Hsub' : forall x, gg ⊆ <[name := x]> (snd mh5)).
  { intros x. etransitivity; [exact Hsub|]. now apply insert_subseteq. }
  cbn [meshes arrays fields files]. rewrite Hv.
  destruct (negb (length vals =? 0)%nat).
  2:{ cbn [snd]. eexists. split; [now rewrite !insert_insert_eq | exact Hsub]. }
  cbn [meshes arrays fields files].
  destruct (fieldType s =? FieldType.FT_vertexBased).
  - cbn [meshes arrays fields files]. rewrite Hm.
    destruct (getRecordSize s) as [size|e];
      [|cbn [snd]; eexists; split; [now rewrite !insert_insert_eq | apply Hsub']].
    destruct (fill vals (getNumberOfVertices m) size) as [val|e];
      cbn [snd meshes arrays fields files]; eexists;
      (split; [now rewrite !insert_insert_eq | apply Hsub']).
  - destruct (fieldType s =? FieldType.FT_cellBased).
    + cbn [meshes arrays fields files]. rewrite Hm.
      destruct (getRecordSize s) as [size|e];
        [|cbn [snd]; eexists; split; [now rewrite !insert_insert_eq | apply Hsub']].
      destruct (fill vals (getNumberOfCells m) size) as [val|e];
        cbn [snd meshes arrays fields files]; eexists;
        (split; [now rewrite !insert_insert_eq | apply Hsub']).
    + cbn [snd]. eexists. split; [now rewrite !insert_insert_eq | apply Hsub'].
Qed.

(** X21: [toHdf5] only adds to a file.  Whatever its outcome, every
    member that the group had before the call is in the group afterwards
    with the same content, the other groups of the file and the other
    files are as before, and no mesh, value array or field object of the
    store has changed. *)
Theorem toHdf5_append_only
    (st : state) (self : loc) (fileName group : string) (s : Field) (m : Mesh)
    (vals : list item) (hdf : gmap string (gmap string h5obj))
    (gg : gmap string h5obj) :
  fields st !! self = Some s ->
  meshes st !! mesh s = Some m ->
  arrays st !! values s = Some vals ->
  files st !! fileName = Some hdf ->
  hdf !! group = Some gg ->
  exists gg',
    files (snd (toHdf5 self fileName group st)) !! fileName
    = Some (<[group := gg']> hdf)
    /\ (forall name obj, gg !! name = Some obj -> gg' !! name = Some obj)
    /\ (forall other, other <> fileName ->
          files (snd (toHdf5 self fileName group st)) !! other = files st !! other)
    /\ meshes (snd (toHdf5 self fileName group st)) = meshes st
    /\ arrays (snd (toHdf5 self fileName group st)) = arrays st
    /\ fields (snd (toHdf5 self fileName group st)) = fields st.
Proof.
  intros Hs Hm Hv Hfile Hgroup.
  destruct (toHdf5_group st self fileName group s m vals hdf gg Hs Hm Hv Hfile Hgroup)
    as (gg' & -> & Hsub).
  exists gg'. cbn [files meshes arrays fields].
  split; [apply lookup_insert_eq|].
  split; [intros name obj Hobj; eapply lookup_weaken; eassumption|].
  split; [intros other Hother; now apply lookup_insert_ne|].
  repeat split.
Qed.
End Hdf5Append.

Section LowestUnusedMore.
Context {A : Type} (trsf : Z -> string).

Lemma lowestUnused_prefix fuel predicate start :
  exists j, start <= j
    /\ lowestUnused fuel trsf predicate start = trsf j
    /\ forall i, start <= i < j -> predicate (trsf i) = true.
Proof.
  revert start. induction fuel as [|fuel IH]; intros start; simpl.
  - exists start. split; [lia|]. split; [reflexivity|]. intros i Hi. lia.
  - destruct (predicate (trsf start)) eqn:Hp; simpl.
    + destruct (IH (start + 1)) as (j & Hj & -> & Hall).
      exists j. split; [lia|]. split; [reflexivity|].
      intros i Hi. destruct (decide (i = start)) as [->|Hne]; [exact Hp|].
      apply Hall. lia.
    + exists start. split; [lia|]. split; [reflexivity|]. intros i Hi. lia.
Qed.

(** X22: the local function [lowestUnused] of [toHdf5], with a
    transformation that gives different names for different numbers,
    answers with the name of the lowest number from [start] on whose
    name is not a member of the group. *)
Theorem lowestUnused_is_lowest (g : gmap string A) (start : Z) :
  (forall i j, trsf i = trsf j -> i = j) ->
  exists j, start <= j
    /\ lowestUnused (size g) trsf (contains g) start = trsf j
    /\ g !! trsf j = None
    /\ forall i, start <= i < j -> is_Some (g !! trsf i).
Proof.
  intros Hinj.
  destruct (lowestUnused_prefix (size g) (contains g) start) as (j & Hj & Hres & Hall).
  exists j. split; [exact Hj|]. split; [exact Hres|]. split.
  - rewrite <- Hres. apply contains_false.
    apply (lowestUnused_unused trsf Hinj); lia.
  - intros i Hi. specialize (Hall i Hi). unfold contains in Hall.
    now apply bool_decide_eq_true in Hall.
Qed.
End LowestUnusedMore.

Lemma toHdf5_append_only_witness :
  exists gg',
    files (snd (@toHdf5 ListMeshAdapter ValueType123 1%positive "f.h5" "component1/part1"
                  (snd (Examples.stored Examples.vertexField)))) !! "f.h5"
    = Some (<["component1/part1" := gg']>
              ({[ "component1/part1" :=
                    @fresh_group ListMeshAdapter
                      (Examples.field 1 FieldType.FT_vertexBased) Examples.twoSegments
                      {[ "vertex_values" := [[1%Q]; [4%Q]; [8%Q]] ]} ]}
               : gmap string (gmap string (@h5obj ListMeshAdapter))))
    /\ (forall name obj,
          @fresh_group ListMeshAdapter
            (Examples.field 1 FieldType.FT_vertexBased) Examples.twoSegments
            {[ "vertex_values" := [[1%Q]; [4%Q]; [8%Q]] ]} !! name = Some obj ->
          gg' !! name = Some obj)
    /\ (forall other, other <> "f.h5" ->
          files (snd (@toHdf5 ListMeshAdapter ValueType123 1%positive "f.h5"
                        "component1/part1"
                        (snd (Examples.stored Examples.vertexField)))) !! other
          = files (snd (Examples.stored Examples.vertexField)) !! other)
    /\ meshes (snd (@toHdf5 ListMeshAdapter ValueType123 1%positive "f.h5"
                      "component1/part1" (snd (Examples.stored Examples.vertexField))))
       = meshes (snd (Examples.stored Examples.vertexField))
    /\ arrays (snd (@toHdf5 ListMeshAdapter ValueType123 1%positive "f.h5"
                      "component1/part1" (snd (Examples.stored Examples.vertexField))))
       = arrays (snd (Examples.stored Examples.vertexField))
    /\ fields (snd (@toHdf5 ListMeshAdapter ValueType123 1%positive "f.h5"
                      "component1/part1" (snd (Examples.stored Examples.vertexField))))
       = fields (snd (Examples.stored Examples.vertexField)).
Proof.
  apply (@toHdf5_append_only ListMeshAdapter ValueType123
           (snd (Examples.stored Examples.vertexField)) 1%positive "f.h5"
           "component1/part1" (Examples.field 1 FieldType.FT_vertexBased)
           Examples.twoSegments [Tuple [1%Q]; Tuple [4%Q]; Tuple [8%Q]]);
    reflexivity.
Defined.

Lemma lowestUnused_is_lowest_witness :
  exists j, 1 <= j
    /\ lowestUnused (size ({[ "mesh_01" := tt ]} : gmap string unit))
         (fun i => "mesh_" +:+ fmt02d i)
         (contains ({[ "mesh_01" := tt ]} : gmap string unit)) 1
       = "mesh_" +:+ fmt02d j
    /\ ({[ "mesh_01" := tt ]} : gmap string unit) !! ("mesh_" +:+ fmt02d j) = None
    /\ forall i, 1 <= i < j ->
         is_Some (({[ "mesh_01" := tt ]} : gmap string unit) !! ("mesh_" +:+ fmt02d i)).
Proof.
  apply (@lowestUnused_is_lowest unit (fun i => "mesh_" +:+ fmt02d i)
           ({[ "mesh_01" := tt ]} : gmap string unit) 1).
  intros i j. apply group_name_inj.
Defined.

(** ** The guards of the VTK export *)

Section VtkGuards.
Context `{MA : MeshAdapter}.

Lemma meshes_of_run (st : state) (fs : list loc) (fos : list Field) :
  Forall2 (fun f fo => fields st !! f = Some fo) fs fos ->
  meshes_of fs st = (Return (map mesh fos), st).
Proof.
  induction 1 as [|f fo fs fos Hf _ IH]; [reflexivity|].
  simpl. unfold bind, get_field, deref. rewrite Hf, IH. reflexivity.
Qed.

Lemma list_to_set_all_equal (a : loc) (l : list loc) :
  Forall (fun b => b = a) l -> list_to_set (a :: l) =@{gset loc} {[ a ]}.
Proof.
  induction 1 as [|b l -> _ IH]; [apply (right_id_L ∅ (∪))|].
  change (list_to_set (a :: a :: l)) with ({[ a ]} ∪ list_to_set (a :: l) : gset loc).
  rewrite IH. apply (idemp_L (∪)).
Qed.

Lemma size_two_members (S : gset loc) (a b : loc) :
  a ∈ S -> b ∈ S -> a <> b -> size S <> 1%nat.
Proof.
  intros Ha Hb Hne Hsize.
  assert (Hsub : ({[ a ]} ∪ {[ b ]} : gset loc) ⊆ S).
  { apply union_subseteq. split; now apply singleton_subseteq_l. }
  apply subseteq_size in Hsub.
  rewrite size_union in Hsub by (now apply disjoint_singleton_l, not_elem_of_singleton).
  rewrite !size_singleton in Hsub. lia.
Qed.

(** X23: [manyToVTK3] passes its guards when the list of fields is not
    empty and all the fields refer to one mesh object, and then exports
    on the mesh of the first field; a single field, which is what
    [toVTK3] passes, always does. *)
Theorem manyToVTK3_shared_mesh
    (st : state) (f0 : loc) (rest : list loc) (fo0 : Field) (fos : list Field) :
  Forall2 (fun f fo => fields st !! f = Some fo) (f0 :: rest) (fo0 :: fos) ->
  Forall (fun fo => mesh fo = mesh fo0) fos ->
  manyToVTK3_mesh (f0 :: rest) st = (Return (mesh fo0), st).
Proof.
  intros Hall Hsame. unfold manyToVTK3_mesh, bind.
  rewrite (meshes_of_run st _ _ Hall). cbv beta iota.
  change (map mesh (fo0 :: fos)) with (mesh fo0 :: map mesh fos).
  rewrite list_to_set_all_equal.
  - rewrite size_singleton. simpl. unfold getMesh, bind, get_field, deref, ret.
    inversion Hall as [|? ? ? ? Hf0 _]; subst. now rewrite Hf0.
  - apply Forall_fmap. eapply Forall_impl; [exact Hsame|]. auto.
Qed.

(** X24: [manyToVTK3] raises [ValueError] for an empty list of fields,
    and [RuntimeError] when two of the fields refer to different mesh
    objects; in both cases nothing has been done to the store. *)
Theorem manyToVTK3_rejects
    (st : state) (fs : list loc) (fos : list Field) (fo1 fo2 : Field) :
  Forall2 (fun f fo => fields st !! f = Some fo) fs fos ->
  fo1 ∈ fos -> fo2 ∈ fos -> mesh fo1 <> mesh fo2 ->
  (exists msg, manyToVTK3_mesh [] st = (Raise (ValueError msg), st))
  /\ exists msg, manyToVTK3_mesh fs st = (Raise (RuntimeError msg), st).
Proof.
  intros Hall H1 H2 Hne. split; [eexists; reflexivity|].
  destruct fs as [|f0 rest].
  { inversion Hall; subst. inversion H1. }
  unfold manyToVTK3_mesh, bind. rewrite (meshes_of_run st _ _ Hall). cbv beta iota.
  destruct (Nat.eqb_spec (size (list_to_set (map mesh fos) : gset loc)) 1) as [Hsize|_].
  - exfalso. revert Hsize. apply (size_two_members _ (mesh fo1) (mesh fo2)).
    + apply elem_of_list_to_set, list_elem_of_fmap. eauto.
    + apply elem_of_list_to_set, list_elem_of_fmap. eauto.
    + exact Hne.
  - simpl. eexists. reflexivity.
Qed.
End VtkGuards.

Lemma manyToVTK3_shared_mesh_witness :
  @manyToVTK3_mesh ListMeshAdapter [1%positive]
    (Examples.twoFields 1 1)
  = (Return (mesh (Examples.receiver 1)), Examples.twoFields 1 1).
Proof.
  apply (@manyToVTK3_shared_mesh ListMeshAdapter (Examples.twoFields 1 1) 1%positive []
           (Examples.receiver 1) []).
  - repeat constructor.
  - constructor.
Defined.

Lemma manyToVTK3_rejects_witness :
  (exists msg,
     @manyToVTK3_mesh ListMeshAdapter [] (Examples.twoFields 1 1)
     = (Raise (ValueError msg), Examples.twoFields 1 1))
  /\ exists msg,
       @manyToVTK3_mesh ListMeshAdapter [1%positive; 2%positive] (Examples.twoFields 1 1)
       = (Raise (RuntimeError msg), Examples.twoFields 1 1).
Proof.
  apply (@manyToVTK3_rejects ListMeshAdapter (Examples.twoFields 1 1)
           [1%positive; 2%positive] [Examples.receiver 1; Examples.argument 1]
           (Examples.receiver 1) (Examples.argument 1)).
  - repeat constructor.
  - apply list_elem_of_here.
  - apply list_elem_of_further, list_elem_of_here.
  - simpl. discriminate.
Defined.

(** ** HDF5: two fields on one mesh *)

Section Hdf5Shared.
Context `{MA : MeshAdapter} `{VT : ValueTypeModule}.

Lemma toHdf5_second st self fileName group s1 m1 val1 s2 m2 vals2 size val2 :
  fields st !! self = Some s2 ->
  meshes st !! mesh s2 = Some m2 ->
  arrays st !! values s2 = Some vals2 ->
  files st !! fileName
  = Some {[ group := fresh_group s1 m1 {[ "vertex_values" := val1 ]} ]} ->
  hexdigest m2 = hexdigest m1 ->
  vals2 <> [] ->
  fieldType s2 = FieldType.FT_vertexBased ->
  getRecordSize s2 = Return size ->
  fill vals2 (getNumberOfVertices m2) size = Return val2 ->
  toHdf5 self fileName group st
  = (Return tt,
     mkState (meshes st) (arrays st) (fields st)
       (<[fileName := {[ group := second_group s1 s2 m1 val1 val2 ]}]> (files st))).
Proof.
  intros Hs Hm Hv Hfile Hdig Hne Hft Hsize Hfill. unfold toHdf5.
  unfold bind at 1. unfold get_field, deref. rewrite Hs.
  unfold bind at 1. unfold open_append. rewrite Hfile.
  change (default ∅ (Some ?x)) with x. unfold h5file. rewrite lookup_singleton_eq.
  change (default ∅ (Some ?x)) with x.
  change (lowestUnused _ (fun i => "mesh_" +:+ fmt02d i) _ 1) with "mesh_02".
  unfold bind, put_file, get_mesh, get_array, deref, lift, ret, raise.
  cbn [meshes arrays fields files]. rewrite Hm.
  assert (Hobj : asHdf5Object m2 (fresh_group s1 m1 {[ "vertex_values" := val1 ]})
                   "mesh_02"
                 = ("mesh_01", fresh_group s1 m1 {[ "vertex_values" := val1 ]})).
  { unfold asHdf5Object. rewrite items_fresh_group. simpl List.find.
    rewrite <- Hdig, String.eqb_refl. reflexivity. }
  rewrite Hobj. cbn [fst snd].
  change (lowestUnused _ (fun i => "field_" +:+ fmt02d i) _ 1) with "field_02".
  cbn [meshes arrays fields files]. rewrite Hv.
  destruct vals2 as [|x vals2]; [contradiction|].
  cbn [length Nat.eqb negb]. cbv iota. cbn [meshes arrays fields files].
  rewrite Hft. change (FieldType.FT_vertexBased =? FieldType.FT_vertexBased) with true.
  cbv iota. cbn [meshes arrays fields files]. rewrite Hm, Hsize, Hfill.
  cbn [meshes arrays fields files]. rewrite !insert_insert_eq.
  rewrite insert_singleton_eq. reflexivity.
Qed.

Lemma items_second_group s1 s2 m1 val1 val2 :
  items (second_group s1 s2 m1 val1 val2)
  = [("field_01", H5Field "mesh_01" (field_attrs s1) {[ "vertex_values" := val1 ]});
     ("field_02", H5Field "mesh_01" (field_attrs s2) {[ "vertex_values" := val2 ]});
     ("mesh_01", H5Mesh m1)].
Proof. reflexivity. Qed.

Lemma makeFromHdf5_second st fileName group s1 s2 m1 val1 val2 :
  files st !! fileName = Some {[ group := second_group s1 s2 m1 val1 val2 ]} ->
  let lm := fresh (dom (meshes st)) in
  let la1 := fresh (dom (arrays st)) in
  let l1 := fresh (dom (fields st)) in
  let F1 := mkField lm (fieldID s1) (valueType s1) (inject_Z (fieldID s1))
              (loaded_units (units s1)) None FieldType.FT_vertexBased la1 in
  let la2 := fresh (dom (<[la1 := map Tuple val1]> (arrays st))) in
  let l2 := fresh (dom (<[l1 := F1]> (fields st))) in
  let F2 := mkField lm (fieldID s2) (valueType s2) (inject_Z (fieldID s2))
              (loaded_units (units s2)) None FieldType.FT_vertexBased la2 in
  makeFromHdf5 fileName group st
  = (Return [l1; l2],
     mkState (<[lm := m1]> (meshes st))
       (<[la2 := map Tuple val2]> (<[la1 := map Tuple val1]> (arrays st)))
       (<[l2 := F2]> (<[l1 := F1]> (fields st)))
       (files st)).
Proof.
  intros Hfile. unfold makeFromHdf5.
  unfold bind at 1. unfold open_read. rewrite Hfile.
  unfold bind at 1. unfold lift. unfold h5file. rewrite lookup_singleton_eq.
  rewrite items_second_group. reflexivity.
Qed.

Lemma fresh_insert_ne {A} (m : gmap loc A) (l : loc) (a : A) :
  fresh (dom (<[l := a]> m)) <> l.
Proof. eapply lookup_fresh_ne. apply lookup_insert_eq. Qed.

(** X25: two vertex based fields whose meshes have the same digest,
    stored one after the other in a new file, share one stored mesh.
    [makeFromHdf5] returns two new fields, in the order in which they
    were stored, that refer to one and the same new mesh object, with
    the content of the first mesh, and each to a value array of its own
    with the values of its original. *)
Theorem hdf5_fields_share_mesh
    (st : state) (self1 self2 : loc) (fileName group : string) (s1 s2 : Field)
    (m1 m2 : Mesh) (vals1 vals2 : list item) (size1 size2 : Z) :
  fields st !! self1 = Some s1 ->
  fields st !! self2 = Some s2 ->
  meshes st !! mesh s1 = Some m1 ->
  meshes st !! mesh s2 = Some m2 ->
  arrays st !! values s1 = Some vals1 ->
  arrays st !! values s2 = Some vals2 ->
  files st !! fileName = None ->
  hexdigest m2 = hexdigest m1 ->
  fieldType s1 = FieldType.FT_vertexBased ->
  fieldType s2 = FieldType.FT_vertexBased ->
  getRecordSize s1 = Return size1 ->
  getRecordSize s2 = Return size2 ->
  vals1 <> [] -> vals2 <> [] ->
  length vals1 = getNumberOfVertices m1 ->
  length vals2 = getNumberOfVertices m2 ->
  Forall (fun x => exists xs, x = Tuple xs /\ Z.of_nat (length xs) = size1) vals1 ->
  Forall (fun x => exists xs, x = Tuple xs /\ Z.of_nat (length xs) = size2) vals2 ->
  exists st1 st2 st3 l1 l2 F1 F2,
    toHdf5 self1 fileName group st = (Return tt, st1)
    /\ toHdf5 self2 fileName group st1 = (Return tt, st2)
    /\ makeFromHdf5 fileName group st2 = (Return [l1; l2], st3)
    /\ l1 <> l2
    /\ fields st3 !! l1 = Some F1 /\ fields st3 !! l2 = Some F2
    /\ mesh F1 = mesh F2
    /\ meshes st !! mesh F1 = None
    /\ meshes st3 !! mesh F1 = Some m1
    /\ values F1 <> values F2
    /\ arrays st3 !! values F1 = Some vals1
    /\ arrays st3 !! values F2 = Some vals2
    /\ fieldID F1 = fieldID s1 /\ fieldID F2 = fieldID s2.
Proof.
  intros Hs1 Hs2 Hm1 Hm2 Hv1 Hv2 Hfile Hdig Hft1 Hft2 Hsz1 Hsz2 Hne1 Hne2 Hl1 Hl2
    Hall1 Hall2.
  destruct (fill_exact vals1 size1 Hall1) as (rows1 & Hfill1 & Hrows1).
  destruct (fill_exact vals2 size2 Hall2) as (rows2 & Hfill2 & Hrows2).
  rewrite Hl1 in Hfill1. rewrite Hl2 in Hfill2.
  eexists _, _, _, _, _, _, _.
  split.
  { rewrite (toHdf5_fresh st self1 fileName group s1 m1 vals1 Hs1 Hm1 Hv1 Hfile).
    destruct vals1 as [|x vals1']; [contradiction|].
    rewrite Hft1.
    change (FieldType.FT_vertexBased =? FieldType.FT_vertexBased) with true.
    cbv iota. rewrite Hsz1, Hfill1. reflexivity. }
  split.
  { unfold with_file.
    apply (toHdf5_second _ self2 fileName group s1 m1 rows1 s2 m2 vals2 size2 rows2);
      try assumption.
    cbn [files]. apply lookup_insert_eq. }
  split.
  { apply (makeFromHdf5_second _ fileName group s1 s2 m1 rows1 rows2).
    cbn [files]. apply lookup_insert_eq. }
  cbn [meshes arrays fields files].
  split; [apply not_eq_sym, fresh_insert_ne|].
  split.
  { rewrite lookup_insert_ne by apply fresh_insert_ne. apply lookup_insert_eq. }
  split; [apply lookup_insert_eq|].
  cbn [mesh values fieldID].
  split; [reflexivity|].
  split; [apply not_elem_of_dom, is_fresh|].
  split; [apply lookup_insert_eq|].
  split; [apply not_eq_sym, fresh_insert_ne|].
  split.
  { rewrite lookup_insert_ne by apply fresh_insert_ne.
    rewrite lookup_insert_eq. now rewrite Hrows1. }
  split; [rewrite lookup_insert_eq; now rewrite Hrows2|].
  split; reflexivity.
Qed.
End Hdf5Shared.

Lemma hdf5_fields_share_mesh_witness :
  exists st1 st2 st3 l1 l2 F1 F2,
    @toHdf5 ListMeshAdapter ValueType123 1%positive "f.h5" "component1/part1"
      Examples.twoOnOneMesh = (Return tt, st1)
    /\ @toHdf5 ListMeshAdapter ValueType123 2%positive "f.h5" "component1/part1" st1
       = (Return tt, st2)
    /\ @makeFromHdf5 ListMeshAdapter ValueType123 "f.h5" "component1/part1" st2
       = (Return [l1; l2], st3)
    /\ l1 <> l2
    /\ fields st3 !! l1 = Some F1 /\ fields st3 !! l2 = Some F2
    /\ mesh F1 = mesh F2
    /\ meshes Examples.twoOnOneMesh !! mesh F1 = None
    /\ meshes st3 !! mesh F1 = Some Examples.twoSegments
    /\ values F1 <> values F2
    /\ arrays st3 !! values F1 = Some [Tuple [1%Q]; Tuple [4%Q]; Tuple [8%Q]]
    /\ arrays st3 !! values F2 = Some [Tuple [2%Q]; Tuple [5%Q]; Tuple [9%Q]]
    /\ fieldID F1 = fieldID (Examples.field 1 FieldType.FT_vertexBased)
    /\ fieldID F2 = fieldID Examples.secondField.
Proof.
  apply (@hdf5_fields_share_mesh ListMeshAdapter ValueType123 Examples.twoOnOneMesh
           1%positive 2%positive "f.h5" "component1/part1"
           (Examples.field 1 FieldType.FT_vertexBased) Examples.secondField
           Examples.twoSegments Examples.twoSegments
           [Tuple [1%Q]; Tuple [4%Q]; Tuple [8%Q]]
           [Tuple [2%Q]; Tuple [5%Q]; Tuple [9%Q]] 1 1); try reflexivity;
    try discriminate;
    repeat constructor; eexists; split; reflexivity.
Defined.

(** ** Two evaluation properties, restated *)

(** X6: when the localizer has no candidate for the position,
    [_evaluate] raises [ValueError], for a vertex based and for a cell
    based field, and the store is as before. *)
Theorem evaluate_without_candidates `{MA : MeshAdapter}
    (st : state) (self : loc) (f : Field) (m : Mesh) (vals : list item)
    (pos : position) (eps : Q) :
  fields st !! self = Some f ->
  meshes st !! mesh f = Some m ->
  arrays st !! values f = Some vals ->
  giveItemsInBBox m
    (BBox.BBox (map (fun c => (c - eps)%Q) pos) (map (fun c => (c + eps)%Q) pos))
  = [] ->
  exists msg, _evaluate self pos eps st = (Raise (ValueError msg), st).
Proof. apply evaluate_no_candidates. Qed.

(** X11: a cell based field, whatever the number of components of its
    values, evaluates at a position that exactly one candidate contains
    to the stored value of that cell, unchanged. *)
Theorem evaluate_cellBased_one_cell `{MA : MeshAdapter}
    (st : state) (self : loc) (f : Field) (m : Mesh) (vals : list item)
    (pos : position) (eps : Q) (pre post : list Cell.t) (icell : Cell.t)
    (xs : list Q) :
  fields st !! self = Some f ->
  meshes st !! mesh f = Some m ->
  arrays st !! values f = Some vals ->
  fieldType f <> FieldType.FT_vertexBased ->
  giveItemsInBBox m
    (BBox.BBox (map (fun c => (c - eps)%Q) pos) (map (fun c => (c + eps)%Q) pos))
  = pre ++ icell :: post ->
  Forall (fun c => Cell.containsPoint c pos = Return false) (pre ++ post) ->
  Cell.containsPoint icell pos = Return true ->
  getitem vals (Cell.number icell) = Return (Tuple xs) ->
  _evaluate self pos eps st = (Return (Some xs), st).
Proof. apply evaluate_cellBased_single. Qed.

Lemma evaluate_without_candidates_witness :
  exists msg,
    @_evaluate ListMeshAdapter 1%positive [2%Q; 2%Q] 0%Q
      (Examples.mkStore Examples.oneTriangle (Examples.field 1 FieldType.FT_vertexBased)
         [Tuple [1%Q]; Tuple [4%Q]; Tuple [8%Q]])
    = (Raise (ValueError msg),
       Examples.mkStore Examples.oneTriangle (Examples.field 1 FieldType.FT_vertexBased)
         [Tuple [1%Q]; Tuple [4%Q]; Tuple [8%Q]]).
Proof.
  apply (@evaluate_without_candidates ListMeshAdapter _ 1%positive
           (Examples.field 1 FieldType.FT_vertexBased) Examples.oneTriangle
           [Tuple [1%Q]; Tuple [4%Q]; Tuple [8%Q]]); reflexivity.
Defined.

Lemma evaluate_cellBased_one_cell_witness :
  @_evaluate ListMeshAdapter 1%positive [1 # 2] 0%Q
    (Examples.mkStore Examples.twoSegments (Examples.field 2 FieldType.FT_cellBased)
       [Tuple [1%Q; 2%Q; 3%Q]; Tuple [4%Q; 5%Q; 6%Q]])
  = (Return (Some [1%Q; 2%Q; 3%Q]),
     Examples.mkStore Examples.twoSegments (Examples.field 2 FieldType.FT_cellBased)
       [Tuple [1%Q; 2%Q; 3%Q]; Tuple [4%Q; 5%Q; 6%Q]]).
Proof.
  apply (@evaluate_cellBased_one_cell ListMeshAdapter _ 1%positive
           (Examples.field 2 FieldType.FT_cellBased) Examples.twoSegments
           [Tuple [1%Q; 2%Q; 3%Q]; Tuple [4%Q; 5%Q; 6%Q]] [1 # 2] 0%Q [] []
           (snd (Examples.segment 0 100 0 (Examples.vertex 0 10) (Examples.vertex 1 11))));
    try reflexivity.
  - simpl. discriminate.
  - constructor.
Defined.
